(** * MC73 payment-slip generator: bank accounts, IPS QR payload, slip layout
      and pagination

    Shallow embedding of the payment-document pipeline of the repository:
    - [services/bankAccount.js]  (parseBankAccount and its wrappers),
    - [services/qrCode.js] / [services/qrCode.ts] (generateQRCodeData,
      generatePaymentQRCode),
    - [services/pdfGenerator] in its three revisions, the first backend,
      the current backend and the worker port (generatePayerInfo,
      generateReferenceNumber, drawPaymentSlip, generatePaymentSlipsPDF),
    - the [GET /pdf/:year/:month] route that calls the generator,
    - [generatePDFFilename] and the integer validators of
      [middleware/validation],
    - the [POST /generate] and [DELETE /:year/:month] routes of
      [routes/billings] over the [apartments] and [billings] tables with
      the constraints of their schema,
    - the account field of [PUT /api/building] and the form's
      [formatBankAccount] of [frontend/js/app.js].

    JavaScript strings are sequences of UTF-16 code units, integers coming
    from the database are [Z], amounts are IEEE doubles kept as exact dyadic
    rationals, exceptions are an explicit [result] type, the PDFKit
    document is an explicit state threaded through the drawing calls. *)

From Stdlib Require Import Ascii String.
From Stdlib Require Import ZArith NArith List Bool Lia ZifyNat ZifyN.
From Stdlib Require Import Permutation Sorted.
Import ListNotations.
Local Open Scope string_scope.
Local Open Scope list_scope.

Set Implicit Arguments.

(* ================================================================== *)
(** * JavaScript primitives used by the services *)
(* ================================================================== *)

Module JS.

(** A string is its sequence of UTF-16 code units. *)
Definition jsstring := list N.

(** ASCII literal as a JavaScript string. *)
Definition lit (s : String.string) : jsstring :=
  map N_of_ascii (String.list_ascii_of_string s).

(** Thrown [Error] objects, identified by their message. *)
Inductive JsError : Type :=
| Error (message : jsstring).

Inductive result (A : Type) : Type :=
| Ok (a : A)
| Throw (e : JsError).

Arguments Ok {A} a.
Arguments Throw {A} e.

Definition bind {A B : Type} (r : result A) (k : A -> result B) : result B :=
  match r with
  | Ok a => k a
  | Throw e => Throw e
  end.

Definition isOk {A : Type} (r : result A) : bool :=
  match r with Ok _ => true | Throw _ => false end.

Notation "'let?' x ':=' r 'in' k" := (bind r (fun x => k))
  (at level 10, x name, r at level 100, k at level 200).

(** Regular-expression class [\d]: the ten ASCII digits only. *)
Definition isDigit (c : N) : bool := ((48 <=? c) && (c <=? 57))%N.

(** Regular-expression class [\s]: WhiteSpace and LineTerminator code
    points of ECMAScript. *)
Definition isWhiteSpace (c : N) : bool :=
  ((9 <=? c) && (c <=? 13)            (* \t \n \v \f \r *)
   || (c =? 32) || (c =? 160)         (* space, no-break space *)
   || (c =? 5760)                     (* U+1680 *)
   || ((8192 <=? c) && (c <=? 8202))  (* U+2000 .. U+200A *)
   || (c =? 8232) || (c =? 8233)      (* U+2028, U+2029 *)
   || (c =? 8239) || (c =? 8287)      (* U+202F, U+205F *)
   || (c =? 12288) || (c =? 65279))%N. (* U+3000, U+FEFF *)

Definition dash : N := 45.
Definition slash : N := 47.
Definition zeroChar : N := 48.

(** [s.length] *)
Definition len (s : jsstring) : Z := Z.of_nat (length s).

(** Clamp of a relative index, as in [String.prototype.slice]. *)
Definition clampIndex (l i : Z) : Z :=
  if (i <? 0)%Z then Z.max (l + i) 0 else Z.min i l.

(** [s.slice(start, end)]; [None] for an omitted [end]. *)
Definition slice (s : jsstring) (start : Z) (stop : option Z) : jsstring :=
  let l := len s in
  let from := clampIndex l start in
  let to := match stop with None => l | Some e => clampIndex l e end in
  if (to <=? from)%Z then []
  else firstn (Z.to_nat (to - from)) (skipn (Z.to_nat from) s).

(** The filler of [padStart]: [fill] repeated and truncated to [n] units. *)
Fixpoint repeatTo (fill cur : jsstring) (n : nat) : jsstring :=
  match n with
  | O => []
  | S n' =>
      match cur with
      | c :: cur' => c :: repeatTo fill cur' n'
      | [] =>
          match fill with
          | c :: cur' => c :: repeatTo fill cur' n'
          | [] => []
          end
      end
  end.

(** [s.padStart(maxLength, fill)] *)
Definition padStart (s : jsstring) (maxLength : Z) (fill : jsstring) : jsstring :=
  if (maxLength <=? len s)%Z then s
  else match fill with
       | [] => s
       | _ => repeatTo fill fill (Z.to_nat (maxLength - len s)) ++ s
       end.

(** Is [p] a prefix of [s]? *)
Fixpoint startsWith (p s : jsstring) : bool :=
  match p, s with
  | [], _ => true
  | _ :: _, [] => false
  | a :: p', b :: s' => (a =? b)%N && startsWith p' s'
  end.

(** [s.replace(pat, rep)] with a string pattern: only the first
    occurrence is replaced. *)
Fixpoint replaceFirst (s pat rep : jsstring) : jsstring :=
  if startsWith pat s then rep ++ skipn (length pat) s
  else match s with
       | [] => []
       | c :: s' => c :: replaceFirst s' pat rep
       end.

(** Decimal digits of a natural number, most significant first. *)
Fixpoint decDigits (fuel : nat) (n : N) (acc : jsstring) : jsstring :=
  match fuel with
  | O => acc
  | S f =>
      let acc' := (zeroChar + n mod 10)%N :: acc in
      if (n / 10 =? 0)%N then acc' else decDigits f (n / 10)%N acc'
  end.

Definition natToString (n : N) : jsstring :=
  decDigits (S (N.to_nat (N.log2 n))) n [].

(** The character of a decimal digit [0..9]. *)
Definition digitChar (x : Z) : N := (zeroChar + Z.to_N x)%N.

(** [String(n)] and [`${n}`] for an integer [n] that is a safe integer
    ([isSafeInteger] below): its decimal digits after a minus sign when it
    is negative.  Beyond the safe integers not every integer is a number
    of the language, and from 10^21 on numbers print with an exponent; the
    statements about printed integers bound them accordingly. *)
Definition intToString (z : Z) : jsstring :=
  if (z <? 0)%Z then dash :: natToString (Z.to_N (- z))
  else natToString (Z.to_N z).

(** [Number.isSafeInteger(z)]: the integers that are exact as numbers.
    [String(z)] and template literals print them in plain decimal, which is
    what [intToString] gives (from [10^21] on they print an exponent). *)
Definition isSafeInteger (z : Z) : bool := (Z.abs z <=? 2 ^ 53 - 1)%Z.

End JS.

Import JS.

(* ================================================================== *)
(** * services/bankAccount.js *)
(* ================================================================== *)

Module BankAccount.

Record ParsedBankAccount : Type := {
  bank : jsstring;
  account : jsstring;
  control : jsstring;
  formatted : jsstring;
  digits : jsstring
}.

Definition errRequired : JsError :=
  Error (lit "Bank account number is required").
Definition errOnlyDigits : JsError :=
  Error (lit "Bank account must contain only digits").
Definition errFormat : JsError :=
  Error (lit "Invalid bank account format. Must be 7-18 digits (e.g., 16054891267 or 160-0000000548912-67)").

(** [input.replace(/[-\s]/g, '')] *)
Definition stripSeparators (input : jsstring) : jsstring :=
  filter (fun c => negb ((c =? dash)%N || isWhiteSpace c)) input.

(** [/^\d+$/.test(digits)] *)
Definition onlyDigits (s : jsstring) : bool :=
  match s with
  | [] => false
  | _ => forallb isDigit s
  end.

Definition parseBankAccount (input : jsstring) : result ParsedBankAccount :=
  match input with
  | [] => Throw errRequired
  | _ =>
      let digits := stripSeparators input in
      if negb (onlyDigits digits) then Throw errOnlyDigits
      else if (len digits =? 18)%Z then
        Ok {| bank := slice digits 0 (Some 3%Z);
              account := slice digits 3 (Some 16%Z);
              control := slice digits 16 (Some 18%Z);
              formatted := slice digits 0 (Some 3%Z) ++ [dash]
                           ++ slice digits 3 (Some 16%Z) ++ [dash]
                           ++ slice digits 16 (Some 18%Z);
              digits := digits |}
      else if ((7 <=? len digits) && (len digits <? 18))%Z then
        let bank := slice digits 0 (Some 3%Z) in
        let control := slice digits (-2) None in
        let accountPart := slice digits 3 (Some (-2)%Z) in
        let account := padStart accountPart 13 [zeroChar] in
        Ok {| bank := bank;
              account := account;
              control := control;
              formatted := bank ++ [dash] ++ account ++ [dash] ++ control;
              digits := bank ++ account ++ control |}
      else Throw errFormat
  end.

Definition formatForDisplay (bankAccount : jsstring) : result jsstring :=
  let? parsed := parseBankAccount bankAccount in Ok (formatted parsed).

Definition formatForQR (bankAccount : jsstring) : result jsstring :=
  let? parsed := parseBankAccount bankAccount in Ok (digits parsed).

(** [try { parseBankAccount(input); return true } catch { return false }] *)
Definition isValidBankAccount (input : jsstring) : bool :=
  match parseBankAccount input with
  | Ok _ => true
  | Throw _ => false
  end.

Definition getBankCode (bankAccount : jsstring) : result jsstring :=
  let? parsed := parseBankAccount bankAccount in Ok (bank parsed).

End BankAccount.

(* ================================================================== *)
(** * Numbers: IEEE doubles as exact dyadic rationals *)
(* ================================================================== *)

Module JSNumber.

(** A JavaScript number.  [Finite neg m e] is the double of value
    [(-1)^neg * m * 2^e]; a real double has [m < 2^53] and
    [-1074 <= e <= 971], which the definitions below do not need. *)
Inductive Number : Type :=
| NaN
| Infinity (negative : bool)
| Finite (negative : bool) (m : N) (e : Z).

(** Integer-valued number. *)
Definition ofZ (z : Z) : Number := Finite (z <? 0)%Z (Z.abs_N z) 0.

(** [ToBoolean] on a number: [NaN], [+0] and [-0] are falsy. *)
Definition truthy (x : Number) : bool :=
  match x with
  | NaN => false
  | Infinity _ => true
  | Finite _ m _ => negb (m =? 0)%N
  end.

(** [a || b] where [a] is a number or [null]. *)
Definition orElse (a : option Number) (b : Number) : Number :=
  match a with
  | Some x => if truthy x then x else b
  | None => b
  end.

Local Open Scope Z_scope.

(** [m * 2^e >= 10^21] *)
Definition atLeast1e21 (m : N) (e : Z) : bool :=
  if 0 <=? e then 10 ^ 21 <=? Z.of_N m * 2 ^ e
  else 10 ^ 21 * 2 ^ (- e) <=? Z.of_N m.

(** The integer [n] for which [n / 10^f - m * 2^e] is closest to zero,
    the larger one when two are equally close. *)
Definition scaledRound (m : N) (e : Z) (f : Z) : Z :=
  if 0 <=? e then Z.of_N m * 2 ^ e * 10 ^ f
  else (2 * Z.of_N m * 10 ^ f + 2 ^ (- e)) / 2 ^ (- e + 1).

(** Round-to-nearest, ties-to-even, of a positive integer to 53 bits. *)
Definition roundToDouble (v : Z) : Z :=
  let l := Z.log2 v + 1 in
  if l <=? 53 then v
  else
    let sh := l - 53 in
    let q := v / 2 ^ sh in
    let r := v mod 2 ^ sh in
    let half := 2 ^ (sh - 1) in
    let q' := if (half <? r) || ((r =? half) && Z.odd q) then q + 1 else q in
    q' * 2 ^ sh.

(** Shortest decimal significand [s] of [k] digits, [k] minimal, with
    [s * 10^(d-k)] rounding to the double [v]; [d] is the number of
    decimal digits of [v]. *)
Fixpoint shortestDigits (fuel : nat) (k d v : Z) : Z :=
  match fuel with
  | O => v
  | S fuel' =>
      let p := 10 ^ (d - k) in
      let lo := v / p in
      let hi := lo + 1 in
      let okLo := (10 ^ (k - 1) <=? lo) && (roundToDouble (lo * p) =? v) in
      let okHi := (hi <? 10 ^ k) && (roundToDouble (hi * p) =? v) in
      if okLo && okHi then (if v - lo * p <=? hi * p - v then lo else hi)
      else if okLo then lo
      else if okHi then hi
      else shortestDigits fuel' (k + 1) d v
  end.

(** [Number::toString] of a finite integer-valued double [v >= 10^21]:
    always the exponential form. *)
Definition largeToString (v : Z) : jsstring :=
  let d := len (natToString (Z.to_N v)) in
  let '(s, n) :=
    if roundToDouble (10 ^ d) =? v then (1, d + 1)
    else (shortestDigits (Z.to_nat d) 1 d v, d) in
  let ds := natToString (Z.to_N s) in
  let expo := lit "e+" ++ natToString (Z.to_N (n - 1)) in
  match ds with
  | [] => expo
  | [c] => c :: expo
  | c :: rest => c :: N_of_ascii "."%char :: rest ++ expo
  end.

(** [x.toFixed(f)] (ECMAScript, Number.prototype.toFixed). *)
Definition toFixed (x : Number) (f : Z) : jsstring :=
  match x with
  | NaN => lit "NaN"
  | Infinity false => lit "Infinity"
  | Infinity true => lit "-Infinity"
  | Finite neg m e =>
      let sign := if neg && negb (m =? 0)%N then [dash] else [] in
      if atLeast1e21 m e then
        sign ++ largeToString (if 0 <=? e then Z.of_N m * 2 ^ e
                               else Z.of_N m / 2 ^ (- e))
      else
        let n := scaledRound m e f in
        let ds := natToString (Z.to_N n) in
        if f =? 0 then sign ++ ds
        else
          let ds' := padStart ds (f + 1) [zeroChar] in
          let k := len ds' in
          sign ++ slice ds' 0 (Some (k - f)) ++ [N_of_ascii "."%char]
               ++ slice ds' (k - f) None
  end.

End JSNumber.

Import JSNumber.

(* ================================================================== *)
(** * Records read from the persistence layer *)
(* ================================================================== *)

(** Binary data ([Buffer] / [ArrayBuffer]). *)
Definition Buffer := list N.

(** Row of [apartments].  [apartment_on_floor] is a column of the backend
    schema only; the worker variant never reads it. *)
Record Apartment : Type := {
  apartment_number : Z;
  owner_name : jsstring;
  floor_number : Z;
  apartment_on_floor : Z;
  override_amount : option Number
}.

Record Building : Type := {
  address : jsstring;
  city : jsstring;
  bank_account : jsstring;
  default_amount : Number;
  recipient_name : jsstring;
  payment_purpose : jsstring
}.

(** The revisions of the pipeline: the first Express backend, with Latin
    labels and PDFKit's built-in font ([BackendEarly]); the current
    Express backend, with Cyrillic labels and bundled fonts ([Backend]);
    and its port to a Cloudflare worker ([Worker]). *)
Inductive Variant : Type := BackendEarly | Backend | Worker.

(* ================================================================== *)
(** * services/qrCode *)
(* ================================================================== *)

Module QRCode.

Record QRParams : Type := {
  bankAccount : jsstring;
  recipientName : jsstring;
  recipientAddress : jsstring;
  recipientCity : jsstring;
  amount : Number;
  referenceNumber : jsstring;
  paymentPurpose : jsstring;
  payerName : jsstring;
  payerAddress : jsstring;
  payerCity : jsstring
}.

(** Payload posted to the NBS generator. *)
Record QRData : Type := {
  K : jsstring;
  V : jsstring;
  C : jsstring;
  R : jsstring;
  N : jsstring;
  I : jsstring;
  SF : jsstring;
  S : jsstring;
  RO : jsstring;
  P : jsstring
}.

Definition crlf : jsstring := [13; 10]%N.

(** [`RSD${Number(amount).toFixed(2).replace(".", ",")}`] *)
Definition formatAmount (amount : Number) : jsstring :=
  lit "RSD" ++ replaceFirst (toFixed amount 2) (lit ".") (lit ",").

(** [referenceNumber.replace("/", "")], followed in the worker by
    [.replace("-", "")]. *)
Definition formatReference (v : Variant) (referenceNumber : jsstring) : jsstring :=
  match v with
  | BackendEarly | Backend => replaceFirst referenceNumber (lit "/") []
  | Worker => replaceFirst (replaceFirst referenceNumber (lit "/") []) (lit "-") []
  end.

Definition generateQRCodeData (v : Variant) (params : QRParams) : result QRData :=
  let? formattedAccount := BankAccount.formatForQR (bankAccount params) in
  let recipientInfo :=
    slice (recipientName params ++ crlf ++ recipientAddress params) 0 (Some 70%Z) in
  let formattedAmount := formatAmount (amount params) in
  let formattedReference := formatReference v (referenceNumber params) in
  let payerInfo :=
    payerName params ++ crlf ++ payerAddress params ++ crlf ++ payerCity params in
  Ok {| K := lit "PR";
        V := lit "01";
        C := lit "1";
        R := formattedAccount;
        N := recipientInfo;
        I := formattedAmount;
        SF := lit "289";
        S := paymentPurpose params;
        RO := formattedReference;
        P := payerInfo |}.

(** The parameters that [generatePaymentQRCode] hands to
    [generateQRCodeData]. *)
Definition paymentParams (apartment : Apartment) (building : Building)
    (month : Z) : QRParams :=
  let amount := orElse (override_amount apartment) (default_amount building) in
  let apartmentNum := padStart (intToString (apartment_number apartment)) 2 (lit "0") in
  let monthNum := padStart (intToString month) 2 (lit "0") in
  let referenceNumber := apartmentNum ++ lit "/" ++ monthNum in
  {| bankAccount := bank_account building;
     recipientName := recipient_name building;
     recipientAddress := address building;
     recipientCity := city building;
     amount := amount;
     referenceNumber := referenceNumber;
     paymentPurpose := payment_purpose building;
     payerName := owner_name apartment;
     payerAddress := address building ++ lit ", "
                     ++ intToString (floor_number apartment) ++ lit ", "
                     ++ intToString (apartment_number apartment);
     payerCity := city building |}.

(** The payload that [generatePaymentQRCode] builds before fetching. *)
Definition paymentQRData (v : Variant) (apartment : Apartment)
    (building : Building) (month : Z) : result QRData :=
  generateQRCodeData v (paymentParams apartment building month).

End QRCode.

(** The parts of a slip that the drawing calls are named after. *)
Module Layout.

Inductive Shape : Type :=
| OuterBorder | Divider | PayerBox | PurposeBox | RecipientBox
| PayerSignatureLine | DatePlaceLine | PaymentCodeBox | CurrencyBox
| AmountBox | AccountBox | ModelBox | ReferenceBox | ValueDateLine
| StampLine.

Inductive Field : Type :=
| PayerLabel | PayerLine | PurposeLabel | PurposeText | RecipientLabel
| RecipientText | PayerSignatureLabel | DatePlaceLabel | Title
| PaymentCodeLabel | CurrencyLabel | AmountLabel | CurrencyText | AmountText
| AccountLabel | AccountText | ModelLabel | ReferenceLabel | ReferenceText
| ValueDateLabel | PaymentCodeText | ModelText | QRLabel | StampLabel.

End Layout.

(** What the services take from their host and from PDFKit:
    - the answer of the NBS endpoint to the QR request issued for the
      apartment at position [i] of the sorted list ([fetchQRCode], which
      throws on a transport or upstream error and otherwise returns the
      body of the response),
    - the locale formatting of amounts,
    - the presence of the two bundled font files that the backend looks
      for,
    - what [doc.image] does with a buffer ([openImage]): it returns when
      the bytes decode as an image and throws otherwise,
    - how often PDFKit's line wrapper continues on a new page of its own
      while setting a text ([pageBreaks]): the pages have no bottom margin
      and the text calls give no [height], so a text that passes the bottom
      of the page is continued on a page that PDFKit adds.  All text calls
      give absolute coordinates and set their font size, so the number
      depends on the band of the slip, the field and the content. *)
Record Host : Type := {
  fetchQRCode : nat -> QRCode.QRData -> Z -> result Buffer;
  toLocaleString : Number -> jsstring;
  fontRegularExists : bool;
  fontBoldExists : bool;
  openImage : Buffer -> result unit;
  pageBreaks : nat -> Layout.Field -> jsstring -> nat
}.

Module QRService.
Import QRCode.

(** [generatePaymentQRCode(apartment, building, month, year, size)], as the
    request number [i] of the batch. *)
Definition generatePaymentQRCode (v : Variant) (h : Host) (i : nat)
    (apartment : Apartment) (building : Building) (month year : Z)
    (size : Z) : result Buffer :=
  let? qrData := paymentQRData v apartment building month in
  fetchQRCode h i qrData size.

End QRService.

(* ================================================================== *)
(** * services/pdfGenerator *)
(* ================================================================== *)

Module PdfGenerator.
Import QRService.
Export Layout.

(** The pixel size requested from the QR generator: [QR_SIZE] in the
    first backend, [QR_GENERATE_SIZE] afterwards. *)
Definition QR_SIZE_EARLY : Z := 120.
Definition QR_GENERATE_SIZE : Z := 130.

Definition qrRequestSize (v : Variant) : Z :=
  match v with
  | BackendEarly => QR_SIZE_EARLY
  | Backend | Worker => QR_GENERATE_SIZE
  end.

Module LABELS.
Definition title : jsstring :=
  [1053; 1040; 1051; 1054; 1043; 32; 1047; 1040; 32; 1059; 1055; 1051; 1040; 1058; 1059]%N.
Definition payer : jsstring :=
  [1091; 1087; 1083; 1072; 1090; 1080; 1083; 1072; 1094]%N.
Definition purpose : jsstring :=
  [1089; 1074; 1088; 1093; 1072; 32; 1091; 1087; 1083; 1072; 1090; 1077]%N.
Definition recipient : jsstring :=
  [1087; 1088; 1080; 1084; 1072; 1083; 1072; 1094]%N.
Definition paymentCode : jsstring :=
  [1096; 1080; 1092; 1088; 1072; 32; 1087; 1083; 1072; 1115; 1072; 1114; 1072]%N.
Definition currency : jsstring :=
  [1074; 1072; 1083; 1091; 1090; 1072]%N.
Definition amount : jsstring :=
  [1080; 1079; 1085; 1086; 1089]%N.
Definition recipientAccount : jsstring :=
  [1088; 1072; 1095; 1091; 1085; 32; 1087; 1088; 1080; 1084; 1072; 1086; 1094; 1072]%N.
Definition model : jsstring :=
  [1073; 1088; 1086; 1112; 32; 1084; 1086; 1076; 1077; 1083; 1072]%N.
Definition reference : jsstring :=
  [1087; 1086; 1079; 1080; 1074; 32; 1085; 1072; 32; 1073; 1088; 1086; 1112; 32; 40;
   1086; 1076; 1086; 1073; 1088; 1077; 1114; 1077; 41]%N.
Definition payerSignature : jsstring :=
  [1087; 1077; 1095; 1072; 1090; 32; 1080; 32; 1087; 1086; 1090; 1087; 1080; 1089; 32;
   1091; 1087; 1083; 1072; 1090; 1080; 1086; 1094; 1072]%N.
Definition datePlace : jsstring :=
  [1084; 1077; 1089; 1090; 1086; 32; 1080; 32; 1076; 1072; 1090; 1091; 1084; 32; 1087;
   1088; 1080; 1112; 1077; 1084; 1072]%N.
Definition valueDate : jsstring :=
  [1076; 1072; 1090; 1091; 1084; 32; 1074; 1072; 1083; 1091; 1090; 1077]%N.
End LABELS.

(** The labels of the first backend, as drawn ([toUpperCase] applied). *)
Module LABELS_EARLY.
Definition payer : jsstring := lit "UPLATILAC".
Definition purpose : jsstring := lit "SVRHA UPLATE".
Definition recipient : jsstring := lit "PRIMALAC".
Definition paymentCode : jsstring := lit "SIFRA PLACANJA".
Definition currency : jsstring := lit "VALUTA".
Definition amount : jsstring := lit "IZNOS".
Definition recipientAccount : jsstring := lit "RACUN PRIMAOCA".
Definition model : jsstring := lit "BROJ MODELA".
Definition reference : jsstring := lit "POZIV NA BROJ (ODOBRENJE)".
Definition qrLabel : jsstring := lit "NBS IPS QR".
End LABELS_EARLY.

(** First-backend constant [PAYMENT_PURPOSE]. *)
Definition PAYMENT_PURPOSE_EARLY : jsstring := lit "Mesecno odrzavanje zgrade".

(** Backend constant [PAYMENT_PURPOSE] (Cyrillic). *)
Definition PAYMENT_PURPOSE : jsstring :=
  [1052; 1077; 1089; 1077; 1095; 1085; 1086; 32; 1086; 1076; 1088; 1078; 1072; 1074;
   1072; 1114; 1077; 32; 1079; 1075; 1088; 1072; 1076; 1077]%N.

(** Backend constant [RECIPIENT_PREFIX] (Cyrillic). *)
Definition RECIPIENT_PREFIX : jsstring :=
  [1057; 1090; 1072; 1084; 1073; 1077; 1085; 1072; 32; 1079; 1072; 1112; 1077; 1076;
   1085; 1080; 1094; 1072]%N.

(** The words of the payer line, [", floor "] and [", apartment "]: Latin
    in the first backend, Cyrillic afterwards. *)
Definition floorWord (v : Variant) : jsstring :=
  match v with
  | BackendEarly => lit ", sprat "
  | Backend | Worker => [44; 32; 1089; 1087; 1088; 1072; 1090; 32]%N
  end.

Definition apartmentWord (v : Variant) : jsstring :=
  match v with
  | BackendEarly => lit ", stan "
  | Backend | Worker => [44; 32; 1089; 1090; 1072; 1085; 32]%N
  end.

(** The apartment component of the payer line: the backend templates read
    [apartment.apartment_on_floor], the worker template
    [apartment.apartment_number]. *)
Definition payerApartmentField (v : Variant) (apartment : Apartment) : Z :=
  match v with
  | BackendEarly | Backend => apartment_on_floor apartment
  | Worker => apartment_number apartment
  end.

Definition generatePayerInfo (v : Variant) (apartment : Apartment)
    (building : Building) : list jsstring :=
  let line1 := owner_name apartment in
  let line2 := address building ++ floorWord v
               ++ intToString (floor_number apartment) ++ apartmentWord v
               ++ intToString (payerApartmentField v apartment) in
  let line3 := city building in
  [line1; line2; line3].

Definition generateRecipientInfo (v : Variant) (building : Building) : jsstring :=
  match v with
  | BackendEarly => lit "Stambena zajednica " ++ address building ++ lit ", "
                    ++ city building
  | Backend => RECIPIENT_PREFIX ++ lit " " ++ address building ++ lit ", " ++ city building
  | Worker => recipient_name building ++ lit " " ++ address building ++ lit ", "
              ++ city building
  end.

(** The delimiter of the displayed reference number. *)
Definition referenceDelimiter (v : Variant) : jsstring :=
  match v with
  | BackendEarly | Backend => lit "/"
  | Worker => lit "-"
  end.

Definition generateReferenceNumber (v : Variant) (apartmentNumber month : Z) : jsstring :=
  let apt := padStart (intToString apartmentNumber) 2 (lit "0") in
  let mon := padStart (intToString month) 2 (lit "0") in
  apt ++ referenceDelimiter v ++ mon.

(** ** The PDFKit document

    Every drawing call of [drawPaymentSlip] takes its vertical position
    from [yOffset = slipIndex * SLIP_HEIGHT]; what is kept of a call is
    that band (its [slot]), what it draws and, for text, its content, in
    the order of the calls.  The offsets inside the band, widths, fonts
    and colours are floating-point layout and are left out.  The cut line
    is kept with its two end points, in hundredths of a point. *)

(** [A4_WIDTH = 595.28], [A4_HEIGHT = 841.89], [SLIP_HEIGHT = A4_HEIGHT / 3]
    and [SLIP_WIDTH = A4_WIDTH], in hundredths of a point; the division is
    exact, a band is 280.63 points high.  PDFKit's A4 page is 595.28
    points wide and 841.89 points high. *)
Definition A4_WIDTH : Z := 59528.
Definition A4_HEIGHT : Z := 84189.
Definition SLIP_HEIGHT : Z := A4_HEIGHT / 3.
Definition SLIP_WIDTH : Z := A4_WIDTH.

Inductive Item : Type :=
| Stroke (slot : nat) (shape : Shape)
| Text (slot : nat) (field : Field) (content : jsstring)
| Image (slot : nat) (image : Buffer)  (* the QR image *)
| DashedLine (slot : nat) (fromX fromY toX toY : Z).
    (* [dash(5, {space: 3}).moveTo(fromX, fromY).lineTo(toX, toY)] *)

(** The band a drawing call was positioned in. *)
Definition itemSlot (it : Item) : nat :=
  match it with
  | Stroke slot _ | Text slot _ _ | Image slot _
  | DashedLine slot _ _ _ _ => slot
  end.

(** What one call of [drawPaymentSlip] put into the document: the
    arguments of the call and the items drawn. *)
Record Slip : Type := {
  slipIndex : nat;
  slipApartment : Apartment;
  slipQR : option Buffer;
  slipItems : list Item
}.

Definition Page := list Slip.

(** A document.  [new PDFDocument(...)] opens the first page by itself.
    The slips are grouped by the pages that the generator's loop opened
    with [doc.addPage()]: the groups already closed and the one being
    drawn.  [autoPages] counts the pages that PDFKit's line wrapper opened
    on its own in between.  While [autoPages] is 0 the groups are the pages
    of the document; after a break of PDFKit's own the remaining calls land
    on the page it opened, which the groups do not show. *)
Record PDFDoc : Type := {
  finishedPages : list Page;
  currentPage : Page;
  autoPages : nat
}.

Definition newDocument : PDFDoc :=
  {| finishedPages := []; currentPage := []; autoPages := 0 |}.

Definition addPage (doc : PDFDoc) : PDFDoc :=
  {| finishedPages := finishedPages doc ++ [currentPage doc];
     currentPage := [];
     autoPages := autoPages doc |}.

Definition pages (doc : PDFDoc) : list Page :=
  finishedPages doc ++ [currentPage doc].

(** The number of pages of the document. *)
Definition pageCount (doc : PDFDoc) : nat :=
  (length (pages doc) + autoPages doc)%nat.

(** The pages PDFKit opens by itself while setting the texts of a
    slip. *)
Definition textBreaks (h : Host) (items : list Item) : nat :=
  fold_right (fun it n => match it with
                          | Text slot field content =>
                              (pageBreaks h slot field content + n)%nat
                          | _ => n
                          end) 0%nat items.

Definition drawOnPage (doc : PDFDoc) (s : Slip) (breaks : nat) : PDFDoc :=
  {| finishedPages := finishedPages doc;
     currentPage := currentPage doc ++ [s];
     autoPages := (autoPages doc + breaks)%nat |}.

Definition errFontNotRegistered : JsError :=
  Error (lit "ENOENT: no such file or directory, open 'Serbian-Bold'").

(** The cut line closing a slip: [if (slipIndex < 2) { const cutLineY =
    yOffset + SLIP_HEIGHT; ... dash ...
    moveTo(0, cutLineY).lineTo(SLIP_WIDTH, cutLineY) ... }]. *)
Definition cutLine (slipIndex : nat) : list Item :=
  let yOffset := (Z.of_nat slipIndex * SLIP_HEIGHT)%Z in
  if (slipIndex <? 2)%nat
  then let cutLineY := (yOffset + SLIP_HEIGHT)%Z in
       [DashedLine slipIndex 0 cutLineY SLIP_WIDTH cutLineY]
  else [].

(** The drawing calls of the first backend's [drawPaymentSlip].  The
    calls that can throw are [formatForDisplay] and, when there is a QR
    buffer, [doc.image], in this order. *)
Definition slipItemsEarly (h : Host) (apartment : Apartment)
    (building : Building) (month : Z) (slipIndex : nat)
    (qrCodeBuffer : option Buffer) : result (list Item) :=
  let payerLines := generatePayerInfo BackendEarly apartment building in
  let amount := orElse (override_amount apartment) (default_amount building) in
  let? account := BankAccount.formatForDisplay (bank_account building) in
  let refNumber :=
    generateReferenceNumber BackendEarly (apartment_number apartment) month in
  let? _ := match qrCodeBuffer with
            | Some image => openImage h image
            | None => Ok tt
            end in
  Ok ([Stroke slipIndex OuterBorder; Text slipIndex PayerLabel LABELS_EARLY.payer]
      ++ map (Text slipIndex PayerLine) payerLines
      ++ [Text slipIndex PurposeLabel LABELS_EARLY.purpose;
          Text slipIndex PurposeText PAYMENT_PURPOSE_EARLY;
          Text slipIndex RecipientLabel LABELS_EARLY.recipient;
          Text slipIndex RecipientText (generateRecipientInfo BackendEarly building);
          Text slipIndex PaymentCodeLabel LABELS_EARLY.paymentCode;
          Text slipIndex PaymentCodeText [];
          Text slipIndex CurrencyLabel LABELS_EARLY.currency;
          Text slipIndex AmountLabel LABELS_EARLY.amount;
          Text slipIndex CurrencyText (lit "RSD");
          Text slipIndex AmountText (toLocaleString h amount);
          Text slipIndex AccountLabel LABELS_EARLY.recipientAccount;
          Text slipIndex AccountText account;
          Text slipIndex ModelLabel LABELS_EARLY.model; Text slipIndex ModelText [];
          Text slipIndex ReferenceLabel LABELS_EARLY.reference;
          Text slipIndex ReferenceText refNumber]
      ++ match qrCodeBuffer with
         | Some image => [Image slipIndex image;
                          Text slipIndex QRLabel LABELS_EARLY.qrLabel]
         | None => []
         end
      ++ [Stroke slipIndex PayerSignatureLine;
          Text slipIndex PayerSignatureLabel (lit "potpis uplatioca");
          Stroke slipIndex StampLine; Text slipIndex StampLabel (lit "pecat i potpis")]
      ++ cutLine slipIndex).

(** The drawing calls of the current [drawPaymentSlip] (backend and
    worker).  In the backend the title is set in the font [Serbian-Bold],
    registered only when its file exists; PDFKit takes the name of an
    unregistered font for a file path and throws.  After it come
    [formatForDisplay] and, when there is a QR buffer, [doc.image]. *)
Definition slipItemsCurrent (v : Variant) (h : Host) (apartment : Apartment)
    (building : Building) (month : Z) (slipIndex : nat)
    (qrCodeBuffer : option Buffer) : result (list Item) :=
  let payerLines := generatePayerInfo v apartment building in
  let purposeText := match v with
                     | Worker => payment_purpose building
                     | _ => PAYMENT_PURPOSE
                     end in
  let amount := orElse (override_amount apartment) (default_amount building) in
  let? _ := match v with
            | Backend => if fontBoldExists h then Ok tt
                         else Throw errFontNotRegistered
            | _ => Ok tt
            end in
  let? account := BankAccount.formatForDisplay (bank_account building) in
  let refNumber := generateReferenceNumber v (apartment_number apartment) month in
  let? _ := match qrCodeBuffer with
            | Some image => openImage h image
            | None => Ok tt
            end in
  Ok ([Stroke slipIndex OuterBorder; Stroke slipIndex Divider;
       Text slipIndex PayerLabel LABELS.payer; Stroke slipIndex PayerBox]
      ++ map (Text slipIndex PayerLine) payerLines
      ++ [Text slipIndex PurposeLabel LABELS.purpose; Stroke slipIndex PurposeBox;
          Text slipIndex PurposeText purposeText;
          Text slipIndex RecipientLabel LABELS.recipient; Stroke slipIndex RecipientBox;
          Text slipIndex RecipientText (generateRecipientInfo v building);
          Stroke slipIndex PayerSignatureLine;
          Text slipIndex PayerSignatureLabel LABELS.payerSignature;
          Stroke slipIndex DatePlaceLine; Text slipIndex DatePlaceLabel LABELS.datePlace;
          Text slipIndex Title LABELS.title;
          Text slipIndex PaymentCodeLabel LABELS.paymentCode;
          Text slipIndex CurrencyLabel LABELS.currency;
          Text slipIndex AmountLabel LABELS.amount;
          Stroke slipIndex PaymentCodeBox; Stroke slipIndex CurrencyBox;
          Text slipIndex CurrencyText (lit "RSD");
          Stroke slipIndex AmountBox; Text slipIndex AmountText (toLocaleString h amount);
          Text slipIndex AccountLabel LABELS.recipientAccount;
          Stroke slipIndex AccountBox;
          Text slipIndex AccountText account;
          Text slipIndex ModelLabel LABELS.model;
          Text slipIndex ReferenceLabel LABELS.reference;
          Stroke slipIndex ModelBox; Stroke slipIndex ReferenceBox;
          Text slipIndex ReferenceText refNumber]
      ++ match qrCodeBuffer with
         | Some image => [Image slipIndex image]
         | None => []
         end
      ++ [Stroke slipIndex ValueDateLine; Text slipIndex ValueDateLabel LABELS.valueDate]
      ++ cutLine slipIndex).

Definition slipItemsOf (v : Variant) (h : Host) (apartment : Apartment)
    (building : Building) (month : Z) (slipIndex : nat)
    (qrCodeBuffer : option Buffer) : result (list Item) :=
  match v with
  | BackendEarly =>
      slipItemsEarly h apartment building month slipIndex qrCodeBuffer
  | Backend | Worker =>
      slipItemsCurrent v h apartment building month slipIndex qrCodeBuffer
  end.

(** [drawPaymentSlip(doc, apartment, building, month, year, slipIndex,
    qrCodeBuffer)]: throws where a drawing call or [formatForDisplay]
    throws. *)
Definition drawPaymentSlip (v : Variant) (h : Host) (doc : PDFDoc)
    (apartment : Apartment) (building : Building) (month year : Z)
    (slipIndex : nat) (qrCodeBuffer : option Buffer) : result PDFDoc :=
  let? items := slipItemsOf v h apartment building month slipIndex qrCodeBuffer in
  Ok (drawOnPage doc {| slipIndex := slipIndex;
                        slipApartment := apartment;
                        slipQR := qrCodeBuffer;
                        slipItems := items |}
                 (textBreaks h items)).

(** [[...apartments].sort((a, b) => a.apartment_number - b.apartment_number)]:
    the sort is stable, so its result is that of a stable insertion. *)
Fixpoint insertByNumber (a : Apartment) (l : list Apartment) : list Apartment :=
  match l with
  | [] => [a]
  | b :: l' =>
      if (apartment_number a - apartment_number b <=? 0)%Z then a :: b :: l'
      else b :: insertByNumber a l'
  end.

Definition sortByNumber (apartments : list Apartment) : list Apartment :=
  fold_right insertByNumber [] apartments.

(** [Promise.all(sortedApartments.map(async (apt) => { try { return await
    generatePaymentQRCode(...) } catch (err) { return null } }))] *)
Fixpoint fetchQRCodes (v : Variant) (h : Host) (i : nat)
    (sortedApartments : list Apartment) (building : Building)
    (month year : Z) : list (option Buffer) :=
  match sortedApartments with
  | [] => []
  | apt :: rest =>
      match generatePaymentQRCode v h i apt building month year (qrRequestSize v) with
      | Ok image => Some image
      | Throw _ => None
      end :: fetchQRCodes v h (S i) rest building month year
  end.

Definition errUndefinedApartment : JsError :=
  Error (lit "Cannot read properties of undefined").

(** [for (let i = ...; i < sortedApartments.length; i++) { ... }], with
    [remaining] iterations left from index [i]. *)
Fixpoint drawSlips (v : Variant) (h : Host) (doc : PDFDoc)
    (sortedApartments : list Apartment) (qrCodes : list (option Buffer))
    (building : Building) (month year : Z) (i remaining : nat) : result PDFDoc :=
  match remaining with
  | O => Ok doc
  | S remaining' =>
      let slipIndex := (i mod 3)%nat in
      let doc1 := if (0 <? i)%nat && (slipIndex =? 0)%nat then addPage doc else doc in
      match nth_error sortedApartments i with
      | None => Throw errUndefinedApartment
      | Some apt =>
          let qr := match nth_error qrCodes i with
                    | Some q => q
                    | None => None
                    end in
          let? doc2 := drawPaymentSlip v h doc1 apt building month year slipIndex qr in
          drawSlips v h doc2 sortedApartments qrCodes building month year
                    (S i) remaining'
      end
  end.

(** The error of the backend's font check (the message also names the path
    of the file, left out here). *)
Definition errFontMissing : JsError :=
  Error (lit "Font file not found. Please ensure NotoSans-Regular.ttf is in backend/fonts/ directory.").

(** [generatePaymentSlipsPDF(apartments, building, month, year)]: [Ok doc]
    when the promise resolves with the finished document, [Throw] when it
    rejects. *)
Definition generatePaymentSlipsPDF (v : Variant) (h : Host)
    (apartments : list Apartment) (building : Building)
    (month year : Z) : result PDFDoc :=
  if match v with Backend => negb (fontRegularExists h) | _ => false end
  then Throw errFontMissing
  else
    let doc := newDocument in
    let sortedApartments := sortByNumber apartments in
    let qrCodes := fetchQRCodes v h 0 sortedApartments building month year in
    drawSlips v h doc sortedApartments qrCodes building month year
              0 (length sortedApartments).

(** All slips of a document, in drawing order. *)
Definition slipsOf (doc : PDFDoc) : list Slip := concat (pages doc).

Definition hasImage (s : Slip) : bool :=
  existsb (fun it => match it with Image _ _ => true | _ => false end) (slipItems s).


(** The text items of a field, in drawing order. *)
Definition textsOf (f : Field -> bool) (s : Slip) : list jsstring :=
  flat_map (fun it => match it with
                      | Text _ fld c => if f fld then [c] else []
                      | _ => []
                      end) (slipItems s).



End PdfGenerator.

(* ================================================================== *)
(** * routes/billings: GET /pdf/:year/:month *)
(* ================================================================== *)

Module BillingsRoute.
Import PdfGenerator.

Inductive Response : Type :=
| PdfResponse (body : PDFDoc)
| JsonError (status : Z) (error : jsstring).

(** The handler once authentication and the validation of [year] and
    [month] have passed; [building] and [apartments] are the rows read from
    the database. *)
Definition getPdf (v : Variant) (h : Host) (building : option Building)
    (apartments : list Apartment) (month year : Z) : Response :=
  match building with
  | None => JsonError 400 (lit "Podaci o zgradi nisu konfigurisani")
  | Some building =>
      if (length apartments =? 0)%nat
      then JsonError 400 (lit "Nema registrovanih stanova")
      else match generatePaymentSlipsPDF v h apartments building month year with
           | Ok doc => PdfResponse doc
           | Throw _ => JsonError 500 (lit "Greska prilikom generisanja PDF-a")
           end
  end.

End BillingsRoute.

(* ================================================================== *)
(** * Sample data *)
(* ================================================================== *)

Module Samples.

(** A PNG image of one black pixel: signature, [IHDR] (1 x 1, 8-bit RGB),
    [IDAT], [IEND]. *)
Definition samplePng : Buffer :=
  [137; 80; 78; 71; 13; 10; 26; 10;
   0; 0; 0; 13; 73; 72; 68; 82; 0; 0; 0; 1; 0; 0; 0; 1; 8; 2; 0; 0; 0;
   144; 119; 83; 222;
   0; 0; 0; 12; 73; 68; 65; 84; 120; 218; 99; 96; 96; 96; 0; 0; 0; 4; 0; 1;
   200; 234; 235; 249;
   0; 0; 0; 0; 73; 69; 78; 68; 174; 66; 96; 130]%N.

Definition sameBytes (a b : Buffer) : bool :=
  if list_eq_dec N.eq_dec a b then true else false.

(** A host with the fonts installed whose QR endpoint answers every
    request but the one for position 1 of the batch with [samplePng].  Of
    PDFKit it takes that [samplePng] decodes (other bytes are refused) and
    that a text of at most 60 UTF-16 units is set without leaving the
    page, wherever on a slip it is (longer ones are counted as breaking
    once). *)
Definition sampleHost : Host :=
  {| fetchQRCode := fun i _ _ =>
       if (i =? 1)%nat then Throw (Error (lit "Failed to generate QR code: timeout"))
       else Ok samplePng;
     toLocaleString := fun x => replaceFirst (toFixed x 2) (lit ".") (lit ",");
     fontRegularExists := true;
     fontBoldExists := true;
     openImage := fun image =>
       if sameBytes image samplePng then Ok tt
       else Throw (Error (lit "Unknown image format."));
     pageBreaks := fun _ _ content =>
       if (length content <=? 60)%nat then 0%nat else 1%nat |}.

Definition sampleBuilding : Building :=
  {| address := lit "Marka Celebonovica 73";
     city := lit "Beograd";
     bank_account := lit "16054891267";
     default_amount := ofZ 3500;
     recipient_name := lit "Stambena zajednica";
     payment_purpose := lit "Mesecno odrzavanje zgrade" |}.

Definition sampleApartment (number floor onFloor : Z) : Apartment :=
  {| apartment_number := number;
     owner_name := lit "Petar Petrovic";
     floor_number := floor;
     apartment_on_floor := onFloor;
     override_amount := None |}.

Definition sampleApartments : list Apartment :=
  [sampleApartment 7 2 1; sampleApartment 3 1 1;
   sampleApartment 12 3 2; sampleApartment 5 1 2].

Definition sampleParams (amount : Number) (referenceNumber : jsstring) :
    QRCode.QRParams :=
  {| QRCode.bankAccount := lit "16054891267";
     QRCode.recipientName := lit "Stambena zajednica";
     QRCode.recipientAddress := lit "Marka Celebonovica 73";
     QRCode.recipientCity := lit "Beograd";
     QRCode.amount := amount;
     QRCode.referenceNumber := referenceNumber;
     QRCode.paymentPurpose := lit "Mesecno odrzavanje zgrade";
     QRCode.payerName := lit "Petar Petrovic";
     QRCode.payerAddress := lit "Marka Celebonovica 73, 2, 3";
     QRCode.payerCity := lit "Beograd" |}.

End Samples.

(* ================================================================== *)
(** * services/pdfGenerator: the download name *)
(* ================================================================== *)

Module PdfFilename.

(** [generatePDFFilename(month, year)], the same in every revision. *)
Definition generatePDFFilename (month year : Z) : jsstring :=
  let monthStr := padStart (intToString month) 2 (lit "0") in
  lit "uplatnice_" ++ intToString year ++ lit "_" ++ monthStr ++ lit ".pdf".

End PdfFilename.

(* ================================================================== *)
(** * middleware/validation: the integer validators *)
(* ================================================================== *)

Module Validation.

(** Leading [StrWhiteSpaceChar]s removed, as [parseInt] does. *)
Fixpoint skipWhiteSpace (s : jsstring) : jsstring :=
  match s with
  | c :: s' => if isWhiteSpace c then skipWhiteSpace s' else s
  | [] => []
  end.

(** The longest prefix of decimal digits. *)
Fixpoint digitsPrefix (s : jsstring) : jsstring :=
  match s with
  | c :: s' => if isDigit c then c :: digitsPrefix s' else []
  | [] => []
  end.

(** The integer written by a string of decimal digits. *)
Definition digitsValue (ds : jsstring) : Z :=
  fold_left (fun acc c => 10 * acc + (Z.of_N c - 48))%Z ds 0%Z.

(** [parseInt(s, 10)]: [None] is [NaN].  The value is kept as the exact
    integer; the validators below compare it with bounds far below 2^53,
    where rounding to a double cannot change the comparison. *)
Definition parseInt10 (s : jsstring) : option Z :=
  let t := skipWhiteSpace s in
  let '(sign, body) :=
    match t with
    | c :: t' =>
        if (c =? 45)%N then ((-1)%Z, t')
        else if (c =? 43)%N then (1%Z, t')
        else (1%Z, t)
    | [] => (1%Z, [])
    end in
  match digitsPrefix body with
  | [] => None
  | ds => Some (sign * digitsValue ds)%Z
  end.

(** The validators take [String(value)]; [value] is given by that string. *)
Definition isValidApartmentNumber (value : jsstring) : bool :=
  match parseInt10 value with
  | None => false
  | Some num => ((1 <=? num) && (num <=? 99))%Z
  end.

Definition isValidMonth (value : jsstring) : bool :=
  match parseInt10 value with
  | None => false
  | Some num => ((1 <=? num) && (num <=? 12))%Z
  end.

(** [currentYear] is [new Date().getFullYear()]. *)
Definition isValidYear (currentYear : Z) (value : jsstring) : bool :=
  match parseInt10 value with
  | None => false
  | Some num => ((2020 <=? num) && (num <=? currentYear + 5))%Z
  end.

End Validation.

(* ================================================================== *)
(** * routes/billings: generating and deleting a month's billings *)
(* ================================================================== *)

Module BillingsGenerate.

(** A row of [apartments] with its primary key. *)
Record ApartmentRow : Type := {
  row_id : Z;
  row_apartment : Apartment
}.

(** A row of [billings]. *)
Record Billing : Type := {
  billing_id : Z;
  apartment_id : Z;
  billing_month : Z;
  billing_year : Z;
  billing_amount : Number;
  reference_number : jsstring
}.

(** The tables the handlers touch.  [apartments] is the table as
    [getAllApartments] returns it; [billings] is in insertion order;
    [billing_seq] is the largest id the table has ever held, which the
    worker's [AUTOINCREMENT] column keeps. *)
Record Db : Type := {
  apartments : list ApartmentRow;
  billings : list Billing;
  billing_seq : Z
}.

Definition sameMonth (year month : Z) (b : Billing) : bool :=
  ((billing_year b =? year) && (billing_month b =? month))%Z.

Definition hasApartment (db : Db) (aid : Z) : bool :=
  existsb (fun a => (row_id a =? aid)%Z) (apartments db).

(** [getBillingsByMonth]: the month's billings joined with their
    apartments (the [ORDER BY] is left out: the callers here only take the
    length). *)
Definition getBillingsByMonth (db : Db) (year month : Z) : list Billing :=
  filter (fun b => sameMonth year month b && hasApartment db (apartment_id b))
         (billings db).

(** The largest id in the table. *)
Definition maxBillingId (db : Db) : option Z :=
  match billings db with
  | [] => None
  | b :: rest => Some (fold_right Z.max (billing_id b) (map billing_id rest))
  end.

(** The id of the next row.  [id INTEGER PRIMARY KEY] (backend): one more
    than the largest in the table, 1 for an empty table.  With
    [AUTOINCREMENT] (worker): one more than the largest ever held. *)
Definition nextBillingId (v : Variant) (db : Db) : Z :=
  match v, maxBillingId db with
  | Worker, Some m => (Z.max (billing_seq db) m + 1)%Z
  | Worker, None => (Z.max (billing_seq db) 0 + 1)%Z
  | _, Some m => (m + 1)%Z
  | _, None => 1%Z
  end.

Definition errUnique : JsError :=
  Error (lit "UNIQUE constraint failed: billings.apartment_id, billings.billing_month, billings.billing_year").
Definition errForeignKey : JsError :=
  Error (lit "FOREIGN KEY constraint failed").
Definition errNotNull : JsError :=
  Error (lit "NOT NULL constraint failed: billings.amount").

(** [insertBilling]: fails on [amount ... NOT NULL] (SQLite binds NaN as
    NULL), on [UNIQUE(apartment_id, billing_month, billing_year)] and on
    the foreign key; otherwise appends the row and returns its id. *)
Definition insertBilling (v : Variant) (db : Db) (aid month year : Z)
    (amount : Number) (referenceNumber : jsstring) : result (Db * Z) :=
  if match amount with NaN => true | _ => false end then Throw errNotNull
  else if existsb (fun b => (apartment_id b =? aid)%Z && sameMonth year month b)
                  (billings db)
  then Throw errUnique
  else if negb (hasApartment db aid) then Throw errForeignKey
  else
    let newId := nextBillingId v db in
    Ok ({| apartments := apartments db;
           billings := billings db
                       ++ [{| billing_id := newId;
                              apartment_id := aid;
                              billing_month := month;
                              billing_year := year;
                              billing_amount := amount;
                              reference_number := referenceNumber |}];
           billing_seq := Z.max (billing_seq db) newId |},
        newId).

(** [deleteBillingsByMonth]: the table without the month's rows, and the
    number of rows removed. *)
Definition deleteBillingsByMonth (db : Db) (year month : Z) : Db * Z :=
  ({| apartments := apartments db;
      billings := filter (fun b => negb (sameMonth year month b)) (billings db);
      billing_seq := billing_seq db |},
   Z.of_nat (length (filter (sameMonth year month) (billings db)))).

(** An element of the [billings] array of the 201 response. *)
Record BillingOut : Type := {
  out_id : Z;
  out_apartment_id : Z;
  out_apartment_number : Z;
  out_owner_name : jsstring;
  out_billing_month : Z;
  out_billing_year : Z;
  out_amount : Number;
  out_reference_number : jsstring
}.

Inductive Response : Type :=
| Created (message : jsstring) (billings : list BillingOut)
| Deleted (message : jsstring)
| JsonError (status : Z) (error : jsstring).

(** [for (const apartment of apartments) { ... insertBilling ... push }]:
    the inserts made before a failing one stay in the table. *)
Fixpoint insertAll (v : Variant) (db : Db) (building : Building)
    (rows : list ApartmentRow) (month year : Z) (out : list BillingOut)
    : Db * result (list BillingOut) :=
  match rows with
  | [] => (db, Ok out)
  | row :: rest =>
      let apartment := row_apartment row in
      let amount := orElse (override_amount apartment) (default_amount building) in
      let referenceNumber :=
        PdfGenerator.generateReferenceNumber v (apartment_number apartment) month in
      match insertBilling v db (row_id row) month year amount referenceNumber with
      | Throw e => (db, Throw e)
      | Ok (db', newId) =>
          insertAll v db' building rest month year
            (out ++ [{| out_id := newId;
                        out_apartment_id := row_id row;
                        out_apartment_number := apartment_number apartment;
                        out_owner_name := owner_name apartment;
                        out_billing_month := month;
                        out_billing_year := year;
                        out_amount := amount;
                        out_reference_number := referenceNumber |}])
      end
  end.

(** [POST /generate] once authentication and the validation of [year] and
    [month] have passed, for a numeric [year] and [month]; [building] is the
    row read by [getBuilding]. *)
Definition postGenerate (v : Variant) (db : Db) (building : option Building)
    (month year : Z) : Db * Response :=
  match building with
  | None => (db, JsonError 400 (lit "Podaci o zgradi nisu konfigurisani"))
  | Some building =>
      if (length (apartments db) =? 0)%nat
      then (db, JsonError 400 (lit "Nema registrovanih stanova"))
      else if (0 <? length (getBillingsByMonth db year month))%nat
      then (db, JsonError 400
                  (lit "Zaduzenja za " ++ intToString month ++ lit "/"
                   ++ intToString year
                   ++ lit " vec postoje. Obrisite ih pre generisanja novih."))
      else
        match insertAll v db building (apartments db) month year [] with
        | (db', Ok out) =>
            (db', Created (lit "Generisano "
                           ++ intToString (Z.of_nat (length out))
                           ++ lit " zaduzenja za " ++ intToString month
                           ++ lit "/" ++ intToString year) out)
        | (db', Throw _) =>
            (db', JsonError 500 (lit "Greska prilikom generisanja zaduzenja"))
        end
  end.

(** [DELETE /:year/:month] once authentication and validation have
    passed.  The worker writes the parsed integers into the message; the
    backend writes the URL parameters as they came, which is the same text
    when they are plain decimals without leading zeros. *)
Definition deleteMonth (db : Db) (month year : Z) : Db * Response :=
  let '(db', changes) := deleteBillingsByMonth db year month in
  (db', Deleted (lit "Obrisano " ++ intToString changes ++ lit " zaduzenja za "
                 ++ intToString month ++ lit "/" ++ intToString year)).

End BillingsGenerate.

(* ================================================================== *)
(** * routes/building: the account on its way into the database *)
(* ================================================================== *)

Module BuildingRoute.

(** [String.prototype.trim], also what the [.trim()] sanitizer of the
    backend's validation chain does. *)
Definition trim (s : jsstring) : jsstring :=
  rev (Validation.skipWhiteSpace (rev (Validation.skipWhiteSpace s))).

(** [isNotEmpty(value)] of the worker's validation, on a string. *)
Definition isNotEmpty (value : jsstring) : bool :=
  (0 <? length (trim value))%nat.

Inductive AccountOutcome : Type :=
| Stored (bank_account : jsstring)
| Refused (status : Z).

Definition errTooManyValues : JsError :=
  Error (lit "RangeError: Too many parameter values were provided").

(** [upsertBuilding] with the six values the routes pass.  The backend's
    prepared statement [INSERT INTO building (id, address, city,
    bank_account, default_amount) VALUES (1, ?, ?, ?, ?)] has four
    placeholders, so its [run] with six values throws and stores nothing;
    the worker's statement has the six.  The result is the account now in
    the table. *)
Definition upsertBuilding (v : Variant) (formattedBankAccount : jsstring)
    : result jsstring :=
  match v with
  | Worker => Ok formattedBankAccount
  | BackendEarly | Backend => Throw errTooManyValues
  end.

(** The [bank_account] field in [PUT /api/building], when the other fields
    pass their validation.  The backend trims the field, requires it
    non-empty and valid, and formats the trimmed value; the worker requires
    the field truthy, non-blank and valid, and formats it as sent.  Both
    then call [upsertBuilding] inside the [try] whose [catch] answers
    500. *)
Definition putBankAccount (v : Variant) (bank_account : jsstring)
    : AccountOutcome :=
  let value := match v with
               | Worker => bank_account
               | _ => trim bank_account
               end in
  let accepted :=
    match v with
    | Worker =>
        (0 <? length bank_account)%nat && isNotEmpty bank_account
        && BankAccount.isValidBankAccount bank_account
    | _ => (0 <? length value)%nat && BankAccount.isValidBankAccount value
    end in
  if accepted then
    match (let? formattedBankAccount := BankAccount.formatForDisplay value in
           upsertBuilding v formattedBankAccount) with
    | Ok stored => Stored stored
    | Throw _ => Refused 500
    end
  else Refused 400.

End BuildingRoute.

(* ================================================================== *)
(** * frontend/js/app.js: the account field of the form *)
(* ================================================================== *)

Module Frontend.

(** [input.replace(/\D/g, '')] *)
Definition digitsOnly (input : jsstring) : jsstring := filter isDigit input.

(** [formatBankAccount(input)], run when the account field loses focus. *)
Definition formatBankAccount (input : jsstring) : jsstring :=
  match input with
  | [] => []
  | _ =>
      let digits := digitsOnly input in
      if (len digits =? 18)%Z then
        slice digits 0 (Some 3%Z) ++ [dash]
        ++ slice digits 3 (Some 16%Z) ++ [dash]
        ++ slice digits 16 (Some 18%Z)
      else if ((7 <=? len digits) && (len digits <? 18))%Z then
        let bank := slice digits 0 (Some 3%Z) in
        let control := slice digits (-2) None in
        let account := padStart (slice digits 3 (Some (-2)%Z)) 13 [zeroChar] in
        bank ++ [dash] ++ account ++ [dash] ++ control
      else input
  end.

End Frontend.

(* ================================================================== *)
(** * Facts about the string primitives *)
(* ================================================================== *)

Section StringFacts.

Lemma len_length (s : jsstring) : len s = Z.of_nat (length s).
Proof. reflexivity. Qed.

(** A slice between two in-range, ordered, non-negative positions. *)
Lemma slice_within (s : jsstring) (a b : nat) :
  (a <= b <= length s)%nat ->
  slice s (Z.of_nat a) (Some (Z.of_nat b)) = firstn (b - a) (skipn a s).
Proof.
  intros [Hab Hb]. unfold slice, clampIndex, len.
  destruct (Z.ltb_spec (Z.of_nat a) 0); [lia|].
  destruct (Z.ltb_spec (Z.of_nat b) 0); [lia|].
  rewrite !Z.min_l by lia.
  destruct (Z.leb_spec (Z.of_nat b) (Z.of_nat a)).
  - replace (b - a)%nat with O by lia. reflexivity.
  - rewrite Nat2Z.id. f_equal. lia.
Qed.

(** [s.slice(-k)]: the last [k] units. *)
Lemma slice_last (s : jsstring) (k : nat) :
  (0 < k <= length s)%nat ->
  slice s (- Z.of_nat k) None = skipn (length s - k) s.
Proof.
  intros Hk. unfold slice, clampIndex, len.
  destruct (Z.ltb_spec (- Z.of_nat k) 0); [|lia].
  rewrite Z.max_l by lia.
  destruct (Z.leb_spec (Z.of_nat (length s)) (Z.of_nat (length s) + - Z.of_nat k)); [lia|].
  replace (Z.to_nat (Z.of_nat (length s) + - Z.of_nat k)) with (length s - k)%nat by lia.
  apply firstn_all2. rewrite length_skipn. lia.
Qed.

(** [s.slice(a, -k)]: from [a] up to the last [k] units, excluded. *)
Lemma slice_inner (s : jsstring) (a k : nat) :
  (0 < k)%nat -> (a + k <= length s)%nat ->
  slice s (Z.of_nat a) (Some (- Z.of_nat k)%Z)
  = firstn (length s - k - a) (skipn a s).
Proof.
  intros Hk Hlen. unfold slice, clampIndex, len.
  destruct (Z.ltb_spec (Z.of_nat a) 0); [lia|].
  destruct (Z.ltb_spec (- Z.of_nat k) 0); [|lia].
  rewrite Z.max_l by lia. rewrite Z.min_l by lia.
  destruct (Z.leb_spec (Z.of_nat (length s) + - Z.of_nat k) (Z.of_nat a)).
  - replace (length s - k - a)%nat with O by lia. reflexivity.
  - rewrite Nat2Z.id. f_equal. lia.
Qed.

Lemma repeatTo_single (c : N) (cur : jsstring) (n : nat) :
  Forall (eq c) cur -> repeatTo [c] cur n = repeat c n.
Proof.
  revert cur. induction n as [|n IH]; intros cur Hcur; [reflexivity|].
  simpl. destruct cur as [|x cur'].
  - f_equal. apply IH. constructor.
  - inversion Hcur; subst. f_equal. apply IH. assumption.
Qed.

(** Left padding with a single character. *)
Lemma padStart_single (s : jsstring) (width : nat) (c : N) :
  padStart s (Z.of_nat width) [c] = repeat c (width - length s) ++ s.
Proof.
  unfold padStart, len.
  destruct (Z.leb_spec (Z.of_nat width) (Z.of_nat (length s))).
  - replace (width - length s)%nat with O by lia. reflexivity.
  - rewrite repeatTo_single by (repeat constructor).
    do 2 f_equal. lia.
Qed.

Lemma startsWith_single (p c : N) (s : jsstring) :
  startsWith [p] (c :: s) = (p =? c)%N.
Proof. simpl. apply andb_true_r. Qed.

(** [replace] of a one-character pattern skips a prefix free of it. *)
Lemma replaceFirst_after_prefix (pre rest rep : jsstring) (p : N) :
  Forall (fun c => c <> p) pre ->
  replaceFirst (pre ++ p :: rest) [p] rep = pre ++ rep ++ rest.
Proof.
  induction 1 as [|c pre Hc _ IH]; simpl.
  - rewrite N.eqb_refl. reflexivity.
  - destruct (N.eqb_spec p c) as [->|_]; [contradiction|].
    simpl. rewrite <- IH. reflexivity.
Qed.

(** [replace] leaves a string without the pattern character unchanged. *)
Lemma replaceFirst_absent (s rep : jsstring) (p : N) :
  Forall (fun c => c <> p) s -> replaceFirst s [p] rep = s.
Proof.
  induction 1 as [|c s Hc _ IH]; [reflexivity|].
  simpl. destruct (N.eqb_spec p c) as [->|_]; [contradiction|].
  simpl. rewrite <- IH at 2. reflexivity.
Qed.

Lemma isDigit_range (c : N) : isDigit c = true <-> (48 <= c <= 57)%N.
Proof.
  unfold isDigit. rewrite andb_true_iff, !N.leb_le. reflexivity.
Qed.

Lemma digits_not_char (s : jsstring) (p : N) :
  isDigit p = false -> forallb isDigit s = true -> Forall (fun c => c <> p) s.
Proof.
  intros Hp Hs. rewrite forallb_forall in Hs. apply Forall_forall.
  intros c Hin ->. rewrite (Hs _ Hin) in Hp. discriminate.
Qed.

End StringFacts.

(* ================================================================== *)
(** * Bank accounts *)
(* ================================================================== *)

Module BankAccountFacts.
Import BankAccount.

Lemma stripSeparators_digits (s : jsstring) :
  forallb isDigit s = true -> stripSeparators s = s.
Proof.
  unfold stripSeparators. induction s as [|c s IH]; [reflexivity|].
  simpl. rewrite andb_true_iff. intros [Hc Hs].
  apply isDigit_range in Hc.
  assert (Hkeep : negb ((c =? dash)%N || isWhiteSpace c) = true).
  { unfold isWhiteSpace, dash.
    repeat match goal with
           | |- context [(?a =? ?b)%N] => destruct (N.eqb_spec a b); [lia|]
           | |- context [(?a <=? ?b)%N] => destruct (N.leb_spec a b); try lia
           end; reflexivity. }
  rewrite Hkeep, IH by assumption. reflexivity.
Qed.

Lemma onlyDigits_spec (s : jsstring) :
  onlyDigits s = true <-> s <> [] /\ forallb isDigit s = true.
Proof.
  destruct s as [|c s]; simpl.
  - split; [discriminate | intros [H _]; contradiction].
  - split; [intros H; split; [discriminate | exact H] | intros [_ H]; exact H].
Qed.

Lemma onlyDigits_false (s : jsstring) :
  onlyDigits s = false <->
  s = [] \/ existsb (fun c => negb (isDigit c)) s = true.
Proof.
  destruct s as [|c s].
  - simpl. split; [left; reflexivity | reflexivity].
  - change (onlyDigits (c :: s)) with (forallb isDigit (c :: s)).
    split.
    + intros H. right.
      rewrite <- negb_true_iff in H.
      rewrite <- H. clear H. induction (c :: s) as [|x l IH]; [reflexivity|].
      simpl. rewrite negb_andb, IH. reflexivity.
    + intros [H | H]; [discriminate|].
      rewrite <- negb_true_iff. rewrite <- H. clear H.
      induction (c :: s) as [|x l IH]; [reflexivity|].
      simpl. rewrite negb_andb, IH. reflexivity.
Qed.

Lemma stripSeparators_nil_input (input : jsstring) :
  stripSeparators input <> [] -> input <> [].
Proof. intros H ->. apply H. reflexivity. Qed.

(** The body of [parseBankAccount] once the input is known to be
    non-empty. *)
Lemma parseBankAccount_nonempty (input : jsstring) :
  input <> [] ->
  parseBankAccount input =
  let d := stripSeparators input in
  if negb (onlyDigits d) then Throw errOnlyDigits
  else if (len d =? 18)%Z then
    Ok {| bank := slice d 0 (Some 3%Z);
          account := slice d 3 (Some 16%Z);
          control := slice d 16 (Some 18%Z);
          formatted := slice d 0 (Some 3%Z) ++ [dash]
                       ++ slice d 3 (Some 16%Z) ++ [dash]
                       ++ slice d 16 (Some 18%Z);
          digits := d |}
  else if ((7 <=? len d) && (len d <? 18))%Z then
    Ok {| bank := slice d 0 (Some 3%Z);
          account := padStart (slice d 3 (Some (-2)%Z)) 13 [zeroChar];
          control := slice d (-2) None;
          formatted := slice d 0 (Some 3%Z) ++ [dash]
                       ++ padStart (slice d 3 (Some (-2)%Z)) 13 [zeroChar]
                       ++ [dash] ++ slice d (-2) None;
          digits := slice d 0 (Some 3%Z)
                    ++ padStart (slice d 3 (Some (-2)%Z)) 13 [zeroChar]
                    ++ slice d (-2) None |}
  else Throw errFormat.
Proof.
  destruct input as [|c input]; [contradiction | reflexivity].
Qed.

Lemma forallb_firstn (f : N -> bool) (n : nat) (s : jsstring) :
  forallb f s = true -> forallb f (firstn n s) = true.
Proof.
  intros H. rewrite <- (firstn_skipn n s), forallb_app in H.
  apply andb_true_iff in H. apply H.
Qed.

Lemma forallb_skipn (f : N -> bool) (n : nat) (s : jsstring) :
  forallb f s = true -> forallb f (skipn n s) = true.
Proof.
  intros H. rewrite <- (firstn_skipn n s), forallb_app in H.
  apply andb_true_iff in H. apply H.
Qed.

Lemma forallb_repeat (f : N -> bool) (c : N) (n : nat) :
  f c = true -> forallb f (repeat c n) = true.
Proof. intros H. induction n; simpl; [reflexivity | now rewrite H]. Qed.

(** Bank, middle part and control of a digit string put back together. *)
Lemma split_three (d : jsstring) :
  (5 <= length d)%nat ->
  firstn 3 d ++ firstn (length d - 5) (skipn 3 d) ++ skipn (length d - 2) d = d.
Proof.
  intros H.
  replace (skipn (length d - 2) d)
    with (skipn (length d - 5) (skipn 3 d))
    by (rewrite skipn_skipn; f_equal; lia).
  rewrite (firstn_skipn (length d - 5) (skipn 3 d)).
  apply firstn_skipn.
Qed.

(** C1.  Every input whose digits (after removing dashes and whitespace)
    number 7 to 18 is normalised to the 18-digit decomposition: bank is
    the first 3 digits, control the last 2, account the digits between
    them left-padded with zeros to 13 characters; the digits serialisation
    is their concatenation and has 18 digits, the display form joins them
    with dashes; an 18-digit input is its own digits serialisation. *)
Theorem parseBankAccount_canonical (input : jsstring) :
  let d := stripSeparators input in
  onlyDigits d = true ->
  (7 <= length d <= 18)%nat ->
  exists r,
    parseBankAccount input = Ok r
    /\ bank r = firstn 3 d
    /\ control r = skipn (length d - 2) d
    /\ account r = repeat zeroChar (18 - length d)
                   ++ firstn (length d - 5) (skipn 3 d)
    /\ length (bank r) = 3%nat
    /\ length (account r) = 13%nat
    /\ length (control r) = 2%nat
    /\ digits r = bank r ++ account r ++ control r
    /\ length (digits r) = 18%nat
    /\ forallb isDigit (digits r) = true
    /\ formatted r = bank r ++ [dash] ++ account r ++ [dash] ++ control r
    /\ (length d = 18%nat -> digits r = d)
    /\ (forallb isDigit input = true -> d = input).
Proof.
  intros d Hdig Hlen.
  pose proof Hdig as Hdig'. apply onlyDigits_spec in Hdig' as [Hne Hall].
  assert (Hin : input <> []) by (apply stripSeparators_nil_input; exact Hne).
  rewrite (parseBankAccount_nonempty Hin). fold d. cbv zeta.
  rewrite Hdig. cbv [negb].
  assert (Hbank : slice d 0 (Some 3%Z) = firstn 3 d).
  { apply (@slice_within d 0 3). lia. }
  assert (Hb3 : length (firstn 3 d) = 3%nat) by (rewrite length_firstn; lia).
  assert (Hmid : length (firstn (length d - 5) (skipn 3 d)) = (length d - 5)%nat).
  { rewrite length_firstn, length_skipn. lia. }
  assert (Hc2 : length (skipn (length d - 2) d) = 2%nat)
    by (rewrite length_skipn; lia).
  assert (Hfinal : forallb isDigit input = true -> d = input)
    by (intros Hi; apply stripSeparators_digits; exact Hi).
  destruct (Z.eqb_spec (len d) 18) as [H18 | Hn18].
  - assert (Hl : length d = 18%nat) by (unfold len in H18; lia).
    assert (Hacc : slice d 3 (Some 16%Z) = firstn (length d - 5) (skipn 3 d)).
    { rewrite Hl. apply (@slice_within d 3 16). lia. }
    assert (Hctl : slice d 16 (Some 18%Z) = skipn (length d - 2) d).
    { rewrite Hl. etransitivity; [apply (@slice_within d 16 18); lia|].
      apply firstn_all2. rewrite length_skipn. lia. }
    eexists. split; [reflexivity|]. cbn [bank control account digits formatted].
    rewrite Hbank, Hacc, Hctl.
    replace (18 - length d)%nat with O by lia. cbn [repeat app].
    repeat split; try assumption; try lia.
    + symmetry. apply split_three. lia.
  - assert (Hl : (7 <= length d < 18)%nat) by (unfold len in Hn18; lia).
    replace ((7 <=? len d) && (len d <? 18))%Z with true
      by (unfold len; symmetry; apply andb_true_iff; split;
          [apply Z.leb_le | apply Z.ltb_lt]; lia).
    assert (Hctl : slice d (-2) None = skipn (length d - 2) d).
    { apply (@slice_last d 2). lia. }
    assert (Hacc : padStart (slice d 3 (Some (-2)%Z)) 13 [zeroChar]
                   = repeat zeroChar (18 - length d)
                     ++ firstn (length d - 5) (skipn 3 d)).
    { replace (slice d 3 (Some (-2)%Z))
        with (firstn (length d - 2 - 3) (skipn 3 d))
        by (symmetry; apply (@slice_inner d 3 2); lia).
      etransitivity; [apply (padStart_single _ 13 zeroChar)|].
      rewrite length_firstn, length_skipn.
      f_equal; [f_equal; lia | f_equal; lia]. }
    eexists. split; [reflexivity|]. cbn [bank control account digits formatted].
    rewrite Hbank, Hacc, Hctl.
    assert (Hal : length (repeat zeroChar (18 - length d)
                          ++ firstn (length d - 5) (skipn 3 d)) = 13%nat).
    { rewrite length_app, repeat_length, Hmid. lia. }
    repeat split; try assumption; try lia.
    + rewrite !length_app, Hb3, Hc2. rewrite length_app in Hal. lia.
    + rewrite !forallb_app. rewrite forallb_repeat by reflexivity.
      rewrite !forallb_firstn, !forallb_skipn by (try apply forallb_skipn; assumption).
      reflexivity.
Qed.

(** The specification's example: the short form [16054891267]. *)
Example parseBankAccount_short_example :
  parseBankAccount (lit "16054891267")
  = Ok {| bank := lit "160";
          account := lit "0000000548912";
          control := lit "67";
          formatted := lit "160-0000000548912-67";
          digits := lit "160000000054891267" |}.
Proof. reflexivity. Qed.

Lemma parseBankAccount_canonical_witness :
  onlyDigits (stripSeparators (lit "160-54891267")) = true
  /\ (7 <= length (stripSeparators (lit "160-54891267")) <= 18)%nat
  /\ exists r,
       parseBankAccount (lit "160-54891267") = Ok r
       /\ bank r = lit "160"
       /\ control r = lit "67"
       /\ account r = lit "0000000548912".
Proof.
  split; [reflexivity|]. split; [vm_compute; lia|].
  destruct (parseBankAccount_canonical (lit "160-54891267"))
    as (r & Hr & Hb & Hc & Ha & _); [reflexivity | vm_compute; lia |].
  exists r. repeat split; assumption.
Defined.

(** C7.  [parseBankAccount] throws exactly for the empty input, for
    inputs that keep a non-digit character once dashes and whitespace are
    removed, and for inputs whose remaining digits number 6 or fewer, or 19
    or more; [isValidBankAccount], a total boolean function, is [false]
    exactly on the inputs for which [parseBankAccount] throws. *)
Theorem parseBankAccount_failure_cases (input : jsstring) :
  ((exists e, parseBankAccount input = Throw e) <->
   (input = []
    \/ existsb (fun c => negb (isDigit c)) (stripSeparators input) = true
    \/ (length (stripSeparators input) <= 6)%nat
    \/ (19 <= length (stripSeparators input))%nat))
  /\ (isValidBankAccount input = false <->
      exists e, parseBankAccount input = Throw e).
Proof.
  split.
  - destruct (list_eq_dec N.eq_dec input []) as [-> | Hin].
    { split; [intros _; left; reflexivity | intros _; eexists; reflexivity]. }
    rewrite (parseBankAccount_nonempty Hin). cbv zeta.
    set (d := stripSeparators input).
    destruct (onlyDigits d) eqn:Hd; cbn [negb].
    + assert (Hnot : existsb (fun c => negb (isDigit c)) d = false).
      { destruct (existsb (fun c => negb (isDigit c)) d) eqn:E; [|reflexivity].
        assert (onlyDigits d = false) by (apply onlyDigits_false; right; exact E).
        congruence. }
      rewrite Hnot. unfold len.
      destruct (Z.eqb_spec (Z.of_nat (length d)) 18) as [E18 | E18].
      * split; [intros [err Herr]; discriminate|].
        intros [Hc | [Hc | [Hc | Hc]]]; [congruence | discriminate | lia | lia].
      * destruct (Z.leb_spec 7 (Z.of_nat (length d))) as [L7 | L7];
          destruct (Z.ltb_spec (Z.of_nat (length d)) 18) as [L18 | L18]; cbn [andb].
        -- split; [intros [err Herr]; discriminate|].
           intros [Hc | [Hc | [Hc | Hc]]]; [congruence | discriminate | lia | lia].
        -- split; [intros _; right; right; right; lia | intros _; eexists; reflexivity].
        -- split; [intros _; right; right; left; lia | intros _; eexists; reflexivity].
        -- lia.
    + split; [|intros _; eexists; reflexivity].
      intros _. apply onlyDigits_false in Hd as [Hd | Hd].
      * right; right; left. rewrite Hd. simpl. lia.
      * right; left. exact Hd.
  - unfold isValidBankAccount. destruct (parseBankAccount input) as [r | e].
    + split; [discriminate | intros [err Herr]; discriminate].
    + split; [intros _; eexists; reflexivity | reflexivity].
Qed.

End BankAccountFacts.

(* ================================================================== *)
(** * Decimal rendering of integers *)
(* ================================================================== *)

Section DecimalFacts.
Local Open Scope N_scope.

Lemma decDigits_acc (fuel : nat) (n : N) (acc : jsstring) :
  decDigits fuel n acc = decDigits fuel n [] ++ acc.
Proof.
  revert n acc. induction fuel as [|f IH]; intros n acc; [reflexivity|].
  simpl. destruct (n / 10 =? 0); [reflexivity|].
  rewrite IH. rewrite (IH _ [_]). rewrite <- app_assoc. reflexivity.
Qed.

(** Any two sufficient amounts of fuel give the same digits. *)
Lemma decDigits_fuel (f1 f2 : nat) (n : N) (acc : jsstring) :
  (1 <= f1)%nat -> n < 10 ^ N.of_nat f1 ->
  (1 <= f2)%nat -> n < 10 ^ N.of_nat f2 ->
  decDigits f1 n acc = decDigits f2 n acc.
Proof.
  revert f2 n acc. induction f1 as [|f1 IH]; intros f2 n acc H1 Hn1 H2 Hn2; [lia|].
  destruct f2 as [|f2]; [lia|]. simpl.
  destruct (N.eqb_spec (n / 10) 0) as [|Hq]; [reflexivity|].
  assert (Hge : 10 <= n).
  { destruct (N.lt_ge_cases n 10) as [Hlt|]; [|assumption].
    rewrite (N.div_small n 10 Hlt) in Hq. contradiction. }
  rewrite Nat2N.inj_succ, N.pow_succ_r' in Hn1, Hn2.
  assert (Hf1 : (1 <= f1)%nat).
  { destruct f1; [simpl in Hn1; lia | lia]. }
  assert (Hf2 : (1 <= f2)%nat).
  { destruct f2; [simpl in Hn2; lia | lia]. }
  apply IH; try assumption.
  - apply N.Div0.div_lt_upper_bound; assumption.
  - apply N.Div0.div_lt_upper_bound; assumption.
Qed.

Lemma natToString_fuel (n : N) :
  n < 10 ^ N.of_nat (S (N.to_nat (N.log2 n))).
Proof.
  rewrite Nat2N.inj_succ, N2Nat.id.
  destruct (N.eq_dec n 0) as [-> | Hn]; [reflexivity|].
  apply N.lt_le_trans with (2 ^ N.succ (N.log2 n)).
  - apply N.log2_spec. lia.
  - apply N.pow_le_mono_l. lia.
Qed.

Lemma natToString_small (n : N) : n < 10 -> natToString n = [zeroChar + n].
Proof.
  intros Hn. unfold natToString. simpl.
  rewrite (N.div_small n 10 Hn), (N.mod_small n 10 Hn). reflexivity.
Qed.

Lemma natToString_step (n : N) :
  10 <= n -> natToString n = natToString (n / 10) ++ [zeroChar + n mod 10].
Proof.
  intros Hn. unfold natToString at 1.
  pose proof (natToString_fuel n) as Hfuel.
  remember (N.to_nat (N.log2 n)) as f eqn:Ef.
  simpl.
  destruct (N.eqb_spec (n / 10) 0) as [Hq|Hq].
  { apply N.div_small_iff in Hq; lia. }
  rewrite decDigits_acc. f_equal.
  assert (Hf : (1 <= f)%nat).
  { assert (3 <= N.log2 n); [|lia].
    apply N.log2_le_pow2; [lia|]. simpl. lia. }
  rewrite Nat2N.inj_succ, N.pow_succ_r' in Hfuel.
  apply decDigits_fuel.
  - exact Hf.
  - apply N.Div0.div_lt_upper_bound. exact Hfuel.
  - lia.
  - apply natToString_fuel.
Qed.

Lemma decDigits_isDigit (fuel : nat) (n : N) (acc : jsstring) :
  forallb isDigit acc = true -> forallb isDigit (decDigits fuel n acc) = true.
Proof.
  revert n acc. induction fuel as [|f IH]; intros n acc Hacc; [exact Hacc|].
  simpl.
  assert (Hd : forallb isDigit (zeroChar + n mod 10 :: acc) = true).
  { cbn [forallb]. rewrite Hacc, andb_true_r. apply isDigit_range.
    assert (Hr : n mod 10 < 10) by (apply N.mod_upper_bound; lia).
    unfold zeroChar. revert Hr. generalize (n mod 10). intros r Hr. lia. }
  destruct (n / 10 =? 0); [exact Hd | apply IH; exact Hd].
Qed.

Lemma natToString_isDigit (n : N) : forallb isDigit (natToString n) = true.
Proof. apply decDigits_isDigit. reflexivity. Qed.

Lemma natToString_length (n : N) : (1 <= length (natToString n))%nat.
Proof.
  unfold natToString. simpl.
  destruct (n / 10 =? 0); [simpl; lia|].
  rewrite decDigits_acc, length_app. simpl. lia.
Qed.

(** Two-digit, zero-padded rendering of an integer in [0, 99]. *)
Lemma pad2_digits (a : Z) :
  (0 <= a <= 99)%Z ->
  padStart (intToString a) 2 (lit "0")
  = [digitChar (a / 10); digitChar (a mod 10)].
Proof.
  intros Ha. unfold intToString, digitChar.
  destruct (Z.ltb_spec a 0); [lia|].
  change (lit "0") with [zeroChar].
  etransitivity; [apply (padStart_single _ 2 zeroChar)|].
  destruct (Z.lt_ge_cases a 10) as [Hlt | Hge].
  - rewrite natToString_small by lia.
    rewrite Z.div_small, Z.mod_small by lia. reflexivity.
  - rewrite natToString_step by lia.
    rewrite natToString_small by (apply N.Div0.div_lt_upper_bound; lia).
    rewrite Z2N.inj_div, Z2N.inj_mod by lia. reflexivity.
Qed.

(** The digits of [x] padded to three: integer part of [x / 100] and the
    two digits of the remainder. *)
Lemma pad3_split (x : N) :
  padStart (natToString x) 3 [zeroChar]
  = natToString (x / 100) ++ [zeroChar + (x / 10) mod 10; zeroChar + x mod 10].
Proof.
  etransitivity; [apply (padStart_single _ 3 zeroChar)|].
  destruct (N.lt_ge_cases x 10) as [H10 | H10].
  - rewrite (natToString_small H10).
    rewrite (N.div_small x 100), (N.div_small x 10) by lia.
    rewrite (N.mod_small x 10) by lia. reflexivity.
  - rewrite (natToString_step H10).
    destruct (N.lt_ge_cases x 100) as [H100 | H100].
    + assert (Hq : x / 10 < 10) by (apply N.Div0.div_lt_upper_bound; lia).
      rewrite (natToString_small Hq).
      rewrite (N.div_small x 100 H100), (N.mod_small (x / 10) 10 Hq).
      reflexivity.
    + assert (Hq : 10 <= x / 10) by (apply N.div_le_lower_bound; lia).
      rewrite (natToString_step Hq).
      rewrite N.Div0.div_div. change (10 * 10) with 100.
      rewrite <- app_assoc. simpl app at 2.
      pose proof (natToString_length (x / 100)) as Hl.
      rewrite length_app. simpl length.
      replace (3 - _)%nat with O by lia. reflexivity.
Qed.

End DecimalFacts.

(* ================================================================== *)
(** * The QR payload *)
(* ================================================================== *)

Module QRCodeFacts.
Import Samples.

Lemma slice_from (s : jsstring) (a : nat) :
  (a <= length s)%nat -> slice s (Z.of_nat a) None = skipn a s.
Proof.
  intros Ha. unfold slice, clampIndex, len.
  destruct (Z.ltb_spec (Z.of_nat a) 0); [lia|].
  rewrite Z.min_l by lia.
  destruct (Z.leb_spec (Z.of_nat (length s)) (Z.of_nat a)).
  - assert (a = length s) by lia. subst a. rewrite skipn_all. reflexivity.
  - rewrite Nat2Z.id. apply firstn_all2. rewrite length_skipn. lia.
Qed.

(** Cutting a string before its last [length b] units. *)
Lemma slice_split (a b : jsstring) :
  slice (a ++ b) 0 (Some (len (a ++ b) - len b)%Z) = a
  /\ slice (a ++ b) (len (a ++ b) - len b) None = b.
Proof.
  assert (E : (len (a ++ b) - len b)%Z = Z.of_nat (length a)).
  { unfold len. rewrite length_app. lia. }
  rewrite E. split.
  - etransitivity; [apply (@slice_within (a ++ b) 0 (length a))|].
    + rewrite length_app. lia.
    + rewrite Nat.sub_0_r. simpl skipn. rewrite firstn_app, Nat.sub_diag.
      rewrite firstn_all, firstn_O, app_nil_r. reflexivity.
  - rewrite slice_from by (rewrite length_app; lia).
    rewrite skipn_app, skipn_all, Nat.sub_diag. reflexivity.
Qed.

Lemma scaledRound_nonneg (m : N) (e f : Z) : (0 <= scaledRound m e f)%Z.
Proof.
  unfold scaledRound. destruct (Z.leb_spec 0 e).
  - assert (0 <= 2 ^ e)%Z by (apply Z.pow_nonneg; lia).
    assert (0 <= 10 ^ f)%Z by (apply Z.pow_nonneg; lia).
    assert (0 <= Z.of_N m)%Z by lia. nia.
  - apply Z.div_pos.
    + assert (0 <= 2 ^ (- e))%Z by (apply Z.pow_nonneg; lia).
      assert (0 <= 10 ^ f)%Z by (apply Z.pow_nonneg; lia).
      assert (0 <= Z.of_N m)%Z by lia. nia.
    + apply Z.pow_pos_nonneg; lia.
Qed.

(** [scaledRound m e 2] is the nearest integer to a hundred times
    [m * 2^e], the upper one on a tie. *)
Lemma scaledRound_nearest (m : N) (e : Z) :
  let n := scaledRound m e 2 in
  let num := (Z.of_N m * 2 ^ Z.max e 0)%Z in
  let den := (2 ^ Z.max (- e) 0)%Z in
  (- den < 2 * (n * den - 100 * num) <= den)%Z.
Proof.
  unfold scaledRound. destruct (Z.leb_spec 0 e) as [He | He]; cbv zeta.
  - rewrite (Z.max_l e 0), (Z.max_r (- e) 0) by lia.
    change (2 ^ 0)%Z with 1%Z. change (10 ^ 2)%Z with 100%Z. lia.
  - rewrite (Z.max_r e 0), (Z.max_l (- e) 0) by lia.
    change (2 ^ 0)%Z with 1%Z. change (10 ^ 2)%Z with 100%Z.
    replace (- e + 1)%Z with (Z.succ (- e)) by lia.
    rewrite Z.pow_succ_r by lia.
    assert (Hd : (0 < 2 ^ (- e))%Z) by (apply Z.pow_pos_nonneg; lia).
    set (d := (2 ^ (- e))%Z) in *.
    set (x := (2 * Z.of_N m * 100 + d)%Z).
    pose proof (Z.div_mod x (2 * d) ltac:(lia)) as Hdm.
    pose proof (Z.mod_pos_bound x (2 * d) ltac:(lia)) as Hmb.
    set (q := (x / (2 * d))%Z) in *. set (r := (x mod (2 * d))%Z) in *.
    unfold x in Hdm. nia.
Qed.

(** The amount field of a finite amount below 10^21 in magnitude. *)
Lemma formatAmount_finite (neg : bool) (m : N) (e : Z) :
  atLeast1e21 m e = false ->
  let n := scaledRound m e 2 in
  let sign := if neg && negb (m =? 0)%N then [dash] else [] in
  QRCode.formatAmount (Finite neg m e)
  = lit "RSD" ++ sign ++ intToString (n / 100) ++ lit ","
    ++ [digitChar (n / 10 mod 10); digitChar (n mod 10)]
  /\ forallb isDigit (intToString (n / 100)) = true.
Proof.
  intros Hsmall n sign.
  pose proof (scaledRound_nonneg m e 2) as Hn. fold n in Hn.
  assert (Hq : (0 <= n / 100)%Z) by (apply Z.div_pos; lia).
  assert (Hint : intToString (n / 100) = natToString (Z.to_N n / 100)).
  { unfold intToString. destruct (Z.ltb_spec (n / 100) 0); [lia|].
    rewrite Z2N.inj_div by lia. reflexivity. }
  split.
  - unfold QRCode.formatAmount, toFixed. rewrite Hsmall.
    change (2 =? 0)%Z with false. cbv iota. fold n. fold sign.
    change (2 + 1)%Z with 3%Z.
    rewrite pad3_split.
    set (ip := natToString (Z.to_N n / 100)).
    set (frac := [(zeroChar + (Z.to_N n / 10) mod 10)%N; (zeroChar + Z.to_N n mod 10)%N]).
    destruct (slice_split ip frac) as [Hl Hr].
    change (len frac) with 2%Z in Hl, Hr. rewrite Hl, Hr.
    f_equal.
    replace (sign ++ ip ++ [N_of_ascii "."%char] ++ frac)
      with ((sign ++ ip) ++ N_of_ascii "."%char :: frac)
      by (rewrite <- app_assoc; reflexivity).
    change (lit ".") with [N_of_ascii "."%char].
    rewrite replaceFirst_after_prefix.
    + rewrite Hint. fold ip. rewrite <- !app_assoc. do 3 f_equal.
      unfold frac, digitChar.
      rewrite Z2N.inj_mod, Z2N.inj_div, Z2N.inj_mod by (try apply Z.div_pos; lia).
      reflexivity.
    + apply Forall_app. split.
      * unfold sign. destruct (neg && negb (m =? 0)%N); repeat constructor.
        discriminate.
      * apply digits_not_char; [reflexivity | apply natToString_isDigit].
  - rewrite Hint. apply natToString_isDigit.
Qed.

Lemma valid_parses (b : jsstring) :
  BankAccount.isValidBankAccount b = true ->
  exists r, BankAccount.parseBankAccount b = Ok r.
Proof.
  unfold BankAccount.isValidBankAccount.
  destruct (BankAccount.parseBankAccount b) as [r | err];
    [intros _; exists r; reflexivity | discriminate].
Qed.

(** The amount field within the range of [toFixed].  For every finite
    amount [m * 2^e]
    below 10^21 in magnitude, of either sign, the payload field [I] is
    ["RSD"], the sign, the decimal integer part, a comma and exactly two
    fractional digits, the number written being the amount rounded to the
    nearest hundredth (upwards in magnitude on a tie). *)
Theorem amount_field_two_decimals (v : Variant) (params : QRCode.QRParams)
    (neg : bool) (m : N) (e : Z) :
  QRCode.amount params = Finite neg m e ->
  atLeast1e21 m e = false ->
  BankAccount.isValidBankAccount (QRCode.bankAccount params) = true ->
  let n := scaledRound m e 2 in
  let sign := if neg && negb (m =? 0)%N then [dash] else [] in
  let num := (Z.of_N m * 2 ^ Z.max e 0)%Z in
  let den := (2 ^ Z.max (- e) 0)%Z in
  exists q,
    QRCode.generateQRCodeData v params = Ok q
    /\ QRCode.I q
       = lit "RSD" ++ sign ++ intToString (n / 100) ++ lit ","
         ++ [digitChar (n / 10 mod 10); digitChar (n mod 10)]
    /\ forallb isDigit (intToString (n / 100)) = true
    /\ (- den < 2 * (n * den - 100 * num) <= den)%Z.
Proof.
  intros Hamount Hsmall Hvalid n sign num den.
  destruct (valid_parses _ Hvalid) as [r Hr].
  destruct (formatAmount_finite neg m e Hsmall) as [Hfmt Hdig].
  unfold QRCode.generateQRCodeData, BankAccount.formatForQR.
  rewrite Hr. cbn [bind]. eexists. split; [reflexivity|].
  cbn [QRCode.I]. rewrite Hamount.
  split; [exact Hfmt|]. split; [exact Hdig|].
  apply scaledRound_nearest.
Qed.

(** The specification's two examples: 3500 and 3500.5 (= 7001 / 2). *)
Example formatAmount_examples :
  QRCode.formatAmount (ofZ 3500) = lit "RSD3500,00"
  /\ QRCode.formatAmount (Finite false 7001 (-1)) = lit "RSD3500,50".
Proof. split; reflexivity. Qed.

Lemma amount_field_two_decimals_witness :
  atLeast1e21 7001 (-1) = false
  /\ BankAccount.isValidBankAccount (lit "16054891267") = true
  /\ exists q,
       QRCode.generateQRCodeData Backend
         (sampleParams (Finite false 7001 (-1)) (lit "03/02")) = Ok q
       /\ QRCode.I q = lit "RSD3500,50".
Proof.
  split; [reflexivity|]. split; [reflexivity|].
  destruct (@amount_field_two_decimals Backend
              (sampleParams (Finite false 7001 (-1)) (lit "03/02"))
              false 7001 (-1) eq_refl eq_refl eq_refl)
    as (q & Hq & HI & _).
  exists q. split; [exact Hq | rewrite HI; reflexivity].
Defined.

(** C5.  At the amount 10^21 (the double [5^21 * 2^21]), in every revision,
    [toFixed] answers in exponential notation and the payload field [I] is
    ["RSD1e+21"]: it has neither the comma nor the two fractional digits
    of ["RSD1000000000000000000000,00"]. *)
Theorem amount_field_at_1e21 (v : Variant) :
  exists q,
    QRCode.generateQRCodeData v
      (sampleParams (Finite false (5 ^ 21) 21) (lit "03/02")) = Ok q
    /\ QRCode.I q = lit "RSD1e+21"
    /\ ~ In (N_of_ascii ","%char) (QRCode.I q)
    /\ QRCode.I q <> lit "RSD1000000000000000000000,00".
Proof.
  destruct v; (eexists; split; [vm_compute; reflexivity|]);
    (split; [reflexivity|]); (split; [|discriminate]);
    vm_compute; intros H;
    repeat (destruct H as [H | H]; [discriminate H|]); exact H.
Qed.

Lemma digitChar_isDigit (x : Z) : (0 <= x <= 9)%Z -> isDigit (digitChar x) = true.
Proof.
  intros Hx. apply isDigit_range. unfold digitChar, zeroChar. lia.
Qed.

Lemma pad2_isDigit (a : Z) :
  (0 <= a <= 99)%Z ->
  forallb isDigit [digitChar (a / 10); digitChar (a mod 10)] = true.
Proof.
  intros Ha. cbn [forallb].
  assert (0 <= a / 10 <= 9)%Z.
  { pose proof (Z.div_pos a 10). pose proof (Z.div_lt_upper_bound a 10 10). lia. }
  assert (0 <= a mod 10 <= 9)%Z by (pose proof (Z.mod_pos_bound a 10); lia).
  rewrite !digitChar_isDigit by assumption. reflexivity.
Qed.

(** The payload reference of a displayed reference [xx<delimiter>yy] of
    the same variant, and of the slash form in either variant. *)
Lemma formatReference_digits (v : Variant) (x y : jsstring) :
  forallb isDigit x = true -> forallb isDigit y = true ->
  QRCode.formatReference v (x ++ PdfGenerator.referenceDelimiter v ++ y) = x ++ y
  /\ QRCode.formatReference v (x ++ lit "/" ++ y) = x ++ y.
Proof.
  intros Hx Hy.
  assert (Hxs : Forall (fun c => c <> slash) x) by (apply digits_not_char; auto).
  assert (Hxd : Forall (fun c => c <> dash) x) by (apply digits_not_char; auto).
  assert (Hys : Forall (fun c => c <> slash) y) by (apply digits_not_char; auto).
  assert (Hyd : Forall (fun c => c <> dash) y) by (apply digits_not_char; auto).
  assert (Hslash : replaceFirst (x ++ lit "/" ++ y) (lit "/") [] = x ++ y)
    by (apply (@replaceFirst_after_prefix x y [] slash Hxs)).
  destruct v; unfold QRCode.formatReference, PdfGenerator.referenceDelimiter.
  - split; exact Hslash.
  - split; exact Hslash.
  - split.
    + change (lit "/") with [slash]. rewrite replaceFirst_absent.
      * apply (@replaceFirst_after_prefix x y [] dash Hxd).
      * apply Forall_app. split; [exact Hxs|].
        constructor; [discriminate | exact Hys].
    + rewrite Hslash. change (lit "-") with [dash].
      apply replaceFirst_absent. apply Forall_app. split; assumption.
Qed.

(** C6.  For an apartment number in [1, 99] and a month in [1, 12] the
    displayed reference is the two zero-padded two-digit segments joined by
    the variant's delimiter, and the payload built from it carries in [RO]
    the same four digits without the delimiter. *)
Theorem reference_number_padded (v : Variant) (a m : Z)
    (params : QRCode.QRParams) :
  (1 <= a <= 99)%Z -> (1 <= m <= 12)%Z ->
  QRCode.referenceNumber params = PdfGenerator.generateReferenceNumber v a m ->
  BankAccount.isValidBankAccount (QRCode.bankAccount params) = true ->
  PdfGenerator.generateReferenceNumber v a m
  = [digitChar (a / 10); digitChar (a mod 10)]
    ++ PdfGenerator.referenceDelimiter v
    ++ [digitChar (m / 10); digitChar (m mod 10)]
  /\ exists q,
       QRCode.generateQRCodeData v params = Ok q
       /\ QRCode.RO q = [digitChar (a / 10); digitChar (a mod 10);
                         digitChar (m / 10); digitChar (m mod 10)].
Proof.
  intros Ha Hm Href Hvalid.
  assert (Hgen : PdfGenerator.generateReferenceNumber v a m
                 = [digitChar (a / 10); digitChar (a mod 10)]
                   ++ PdfGenerator.referenceDelimiter v
                   ++ [digitChar (m / 10); digitChar (m mod 10)]).
  { unfold PdfGenerator.generateReferenceNumber.
    rewrite !pad2_digits by lia. reflexivity. }
  split; [exact Hgen|].
  destruct (valid_parses _ Hvalid) as [r Hr].
  unfold QRCode.generateQRCodeData, BankAccount.formatForQR.
  rewrite Hr. cbn [bind]. eexists. split; [reflexivity|].
  cbn [QRCode.RO]. rewrite Href, Hgen.
  apply formatReference_digits; apply pad2_isDigit; lia.
Qed.

(** The specification's example: apartment 3, month 2. *)
Example reference_number_examples :
  PdfGenerator.generateReferenceNumber Backend 3 2 = lit "03/02"
  /\ PdfGenerator.generateReferenceNumber Worker 3 2 = lit "03-02"
  /\ QRCode.formatReference Backend (lit "03/02") = lit "0302"
  /\ QRCode.formatReference Worker (lit "03-02") = lit "0302".
Proof. repeat split; reflexivity. Qed.

Lemma reference_number_padded_witness :
  (1 <= 3 <= 99)%Z /\ (1 <= 2 <= 12)%Z
  /\ PdfGenerator.generateReferenceNumber Backend 3 2 = lit "03/02"
  /\ exists q,
       QRCode.generateQRCodeData Backend
         (sampleParams (ofZ 3500) (lit "03/02")) = Ok q
       /\ QRCode.RO q = lit "0302".
Proof.
  split; [lia|]. split; [lia|].
  destruct (@reference_number_padded Backend 3 2
              (sampleParams (ofZ 3500) (lit "03/02")))
    as [Hd Hq]; [lia | lia | reflexivity | reflexivity |].
  split; [rewrite Hd; reflexivity | exact Hq].
Defined.

(** C10.  For an apartment number in [1, 99] and a month in [1, 12] the
    payload that [generatePaymentQRCode] sends carries in [RO] exactly four
    decimal digits: the zero-padded apartment number followed by the
    zero-padded month, with no delimiter left. *)
Theorem payment_qr_reference_four_digits (v : Variant)
    (apartment : Apartment) (building : Building) (month : Z) :
  (1 <= apartment_number apartment <= 99)%Z ->
  (1 <= month <= 12)%Z ->
  BankAccount.isValidBankAccount (bank_account building) = true ->
  exists q,
    QRCode.paymentQRData v apartment building month = Ok q
    /\ QRCode.RO q
       = [digitChar (apartment_number apartment / 10);
          digitChar (apartment_number apartment mod 10);
          digitChar (month / 10); digitChar (month mod 10)]
    /\ length (QRCode.RO q) = 4%nat
    /\ forallb isDigit (QRCode.RO q) = true
    /\ forall (h : Host) (i : nat) (year size : Z),
         QRService.generatePaymentQRCode v h i apartment building month year size
         = fetchQRCode h i q size.
Proof.
  intros Ha Hm Hvalid.
  destruct (valid_parses _ Hvalid) as [r Hr].
  unfold QRService.generatePaymentQRCode, QRCode.paymentQRData,
    QRCode.generateQRCodeData, BankAccount.formatForQR, QRCode.paymentParams.
  cbn [QRCode.bankAccount]. rewrite Hr. cbn [bind].
  eexists. split; [reflexivity|].
  cbn [QRCode.RO QRCode.referenceNumber].
  rewrite !pad2_digits by lia.
  pose proof (@pad2_isDigit (apartment_number apartment) ltac:(lia)) as Hda.
  pose proof (@pad2_isDigit month ltac:(lia)) as Hdm.
  destruct (formatReference_digits v _ _ Hda Hdm) as [_ Hfmt].
  rewrite Hfmt. repeat split.
  cbn [app forallb] in *. apply andb_true_iff in Hda as [-> Hda].
  rewrite andb_true_r in Hda. rewrite Hda, Hdm. reflexivity.
Qed.

Lemma payment_qr_reference_four_digits_witness :
  (1 <= apartment_number (sampleApartment 3 2 1) <= 99)%Z
  /\ (1 <= 2 <= 12)%Z
  /\ BankAccount.isValidBankAccount (bank_account sampleBuilding) = true
  /\ exists q,
       QRCode.paymentQRData Worker (sampleApartment 3 2 1) sampleBuilding 2 = Ok q
       /\ QRCode.RO q = lit "0302".
Proof.
  split; [simpl; lia|]. split; [lia|]. split; [reflexivity|].
  destruct (@payment_qr_reference_four_digits Worker (sampleApartment 3 2 1)
              sampleBuilding 2)
    as (q & Hq & Hro & _); [simpl; lia | lia | reflexivity |].
  exists q. split; [exact Hq | rewrite Hro; reflexivity].
Defined.

End QRCodeFacts.

(* ================================================================== *)
(** * Sorting by apartment number *)
(* ================================================================== *)

Module SortFacts.
Import PdfGenerator.

Lemma insertByNumber_perm (a : Apartment) (l : list Apartment) :
  Permutation (insertByNumber a l) (a :: l).
Proof.
  induction l as [|b l IH]; simpl; [reflexivity|].
  destruct (apartment_number a - apartment_number b <=? 0)%Z; [reflexivity|].
  rewrite IH. apply perm_swap.
Qed.

Lemma sortByNumber_perm (l : list Apartment) : Permutation (sortByNumber l) l.
Proof.
  induction l as [|a l IH]; simpl; [reflexivity|].
  rewrite insertByNumber_perm. apply perm_skip. exact IH.
Qed.

Lemma sortByNumber_length (l : list Apartment) :
  length (sortByNumber l) = length l.
Proof. apply Permutation_length, sortByNumber_perm. Qed.

Lemma insertByNumber_sorted (a : Apartment) (l : list Apartment) :
  StronglySorted Z.le (map apartment_number l) ->
  StronglySorted Z.le (map apartment_number (insertByNumber a l)).
Proof.
  induction l as [|b l IH]; simpl; intros Hs.
  - repeat constructor.
  - inversion Hs as [|x xs Hs' Hall]; subst.
    destruct (Z.leb_spec (apartment_number a - apartment_number b) 0) as [Hle | Hgt].
    + simpl. constructor; [exact Hs|].
      constructor; [lia|].
      eapply Forall_impl; [|exact Hall]. intros; simpl in *; lia.
    + simpl. constructor; [apply IH; exact Hs'|].
      eapply Permutation_Forall.
      * apply Permutation_map, Permutation_sym, insertByNumber_perm.
      * simpl. constructor; [lia | exact Hall].
Qed.

Lemma sortByNumber_sorted (l : list Apartment) :
  StronglySorted Z.le (map apartment_number (sortByNumber l)).
Proof.
  induction l as [|a l IH]; simpl; [constructor|].
  apply insertByNumber_sorted. exact IH.
Qed.





End SortFacts.

(* ================================================================== *)
(** * Slip drawing and pagination *)
(* ================================================================== *)

Ltac Zify.zify_post_hook ::= Z.to_euclidean_division_equations.

Module PdfFacts.
Import PdfGenerator Samples.

Lemma slipsOf_addPage (doc : PDFDoc) : slipsOf (addPage doc) = slipsOf doc.
Proof.
  unfold slipsOf, pages, addPage. cbn [finishedPages currentPage].
  rewrite !concat_app. simpl. rewrite !app_nil_r. reflexivity.
Qed.

Lemma slipsOf_drawOnPage (doc : PDFDoc) (s : Slip) (breaks : nat) :
  slipsOf (drawOnPage doc s breaks) = slipsOf doc ++ [s].
Proof.
  unfold slipsOf, pages, drawOnPage. cbn [finishedPages currentPage].
  rewrite !concat_app. simpl. rewrite !app_nil_r, app_assoc. reflexivity.
Qed.

Lemma firstn_snoc {A : Type} (l : list A) (i : nat) (x : A) :
  nth_error l i = Some x -> firstn (S i) l = firstn i l ++ [x].
Proof.
  revert i. induction l as [|a l IH]; intros [|i] H; try discriminate.
  - injection H as ->. reflexivity.
  - simpl in H. change (a :: firstn (S i) l = a :: (firstn i l ++ [x])).
    f_equal. apply IH. exact H.
Qed.

Lemma firstn_snoc_default {A : Type} (l : list (option A)) (i : nat) :
  (i < length l)%nat ->
  firstn (S i) l
  = firstn i l ++ [match nth_error l i with Some q => q | None => None end].
Proof.
  intros Hi. destruct (nth_error l i) as [q|] eqn:E.
  - apply firstn_snoc. exact E.
  - apply nth_error_None in E. lia.
Qed.

(** ** What a drawn slip contains *)


(** [doc.image] accepts the buffer, when there is one. *)
Definition opens (h : Host) (qr : option Buffer) : Prop :=
  match qr with
  | Some image => openImage h image = Ok tt
  | None => True
  end.

Lemma textBreaks_fit (h : Host) (slot : nat) (items : list Item) :
  Forall (fun it => itemSlot it = slot) items ->
  (forall f c, In (Text slot f c) items -> pageBreaks h slot f c = 0%nat) ->
  textBreaks h items = 0%nat.
Proof.
  induction 1 as [|it items Hit _ IH]; intros Hfit; [reflexivity|].
  cbn [textBreaks fold_right]. fold (textBreaks h items).
  rewrite IH by (intros f c Hin; apply Hfit; right; exact Hin).
  destruct it as [sl sh | sl f c | sl b | x1 x2 sl]; try reflexivity.
  cbn [itemSlot] in Hit. subst sl.
  rewrite (Hfit f c (or_introl eq_refl)). reflexivity.
Qed.

Section Rendering.

Variables (v : Variant) (h : Host) (building : Building) (month : Z).

(** The slip is what [drawPaymentSlip] draws for its recorded arguments. *)
Definition rendered (s : Slip) : Prop :=
  slipItemsOf v h (slipApartment s) building month (slipIndex s) (slipQR s)
  = Ok (slipItems s).

(** Case analysis of a successful [slipItemsOf]: the items are those of
    the variant's drawing function, and no call has thrown. *)
Ltac items_cases s H :=
  unfold rendered, slipItemsOf, slipItemsEarly, slipItemsCurrent, cutLine in H;
  destruct v;
  try (destruct (fontBoldExists h); [|discriminate H]);
  cbn [bind] in H;
  (destruct (BankAccount.formatForDisplay (bank_account building))
     as [acct|err]; [|discriminate H]);
  cbn [bind] in H;
  (destruct (slipQR s) as [image|];
   [destruct (openImage h image) as [[]|err] eqn:Hopen; [|discriminate H]|]);
  cbn [bind] in H; injection H as H.

Lemma rendered_hasImage (s : Slip) :
  rendered s ->
  hasImage s = match slipQR s with Some _ => true | None => false end.
Proof.
  intros H. unfold hasImage. items_cases s H; rewrite <- H;
    destruct (slipIndex s <? 2)%nat; reflexivity.
Qed.




(** Every drawing call of a slip is positioned in the slip's band, and the
    border of the slip is among them. *)
Lemma rendered_slots (s : Slip) :
  rendered s ->
  In (Stroke (slipIndex s) OuterBorder) (slipItems s)
  /\ Forall (fun it => itemSlot it = slipIndex s) (slipItems s).
Proof.
  intros H. items_cases s H; rewrite <- H;
    (split; [left; reflexivity|]);
    destruct (slipIndex s <? 2)%nat;
    unfold generatePayerInfo; cbn [map app];
    repeat (constructor; [reflexivity|]); constructor.
Qed.

(** The image of a drawn slip was accepted by [doc.image]. *)
Lemma rendered_opens (s : Slip) : rendered s -> opens h (slipQR s).
Proof.
  intros H. unfold opens. items_cases s H; first [reflexivity | exact Logic.I].
Qed.

End Rendering.

(** ** The drawing loop *)

Section Loop.

Variables (v : Variant) (h : Host) (building : Building) (month year : Z).
Variable acct : jsstring.
Hypothesis Hacct : BankAccount.formatForDisplay (bank_account building) = Ok acct.
Hypothesis Hbold : v = Backend -> fontBoldExists h = true.
Variables (sorted : list Apartment) (qrs : list (option Buffer)).
Hypothesis Hqrs : length qrs = length sorted.
Hypothesis Hopens : Forall (opens h) qrs.
Hypothesis Hfit :
  forall apt slot qr items f c,
    In apt sorted -> (slot < 3)%nat ->
    slipItemsOf v h apt building month slot qr = Ok items ->
    In (Text slot f c) items ->
    pageBreaks h slot f c = 0%nat.

(** State of the document once the first [i] sorted apartments are drawn. *)
Record DocInv (doc : PDFDoc) (i : nat) : Prop := {
  inv_apartments : map slipApartment (slipsOf doc) = firstn i sorted;
  inv_qr : map slipQR (slipsOf doc) = firstn i qrs;
  inv_index : map slipIndex (slipsOf doc) = map (fun j => j mod 3)%nat (seq 0 i);
  inv_rendered : Forall (rendered v h building month) (slipsOf doc);
  inv_full : Forall (fun p : Page => length p = 3%nat) (finishedPages doc);
  inv_finished : length (finishedPages doc) = ((i - 1) / 3)%nat;
  inv_current : length (currentPage doc)
                = if (i =? 0)%nat then 0%nat else ((i - 1) mod 3 + 1)%nat;
  inv_auto : autoPages doc = 0%nat
}.

Lemma DocInv_new : DocInv newDocument 0.
Proof. constructor; try reflexivity; constructor. Qed.

Lemma drawPaymentSlip_ok (doc : PDFDoc) (apt : Apartment) (idx : nat)
    (qr : option Buffer) :
  In apt sorted -> (idx < 3)%nat -> opens h qr ->
  exists s,
    drawPaymentSlip v h doc apt building month year idx qr
    = Ok (drawOnPage doc s 0)
    /\ slipApartment s = apt /\ slipIndex s = idx /\ slipQR s = qr
    /\ rendered v h building month s.
Proof.
  intros Hin Hidx Hqr. unfold drawPaymentSlip.
  assert (Hitems : exists items,
             slipItemsOf v h apt building month idx qr = Ok items).
  { unfold slipItemsOf, slipItemsEarly, slipItemsCurrent.
    destruct v; try rewrite (Hbold eq_refl); rewrite Hacct; cbn [bind];
      (destruct qr as [image|];
       [unfold opens in Hqr; rewrite Hqr|]); cbn [bind];
      eexists; reflexivity. }
  destruct Hitems as [items Hitems]. rewrite Hitems. cbn [bind].
  set (s := {| slipIndex := idx; slipApartment := apt; slipQR := qr;
               slipItems := items |}).
  assert (Hrend : rendered v h building month s) by exact Hitems.
  destruct (rendered_slots Hrend) as [_ Hslots]. cbn [slipItems slipIndex s] in Hslots.
  rewrite (@textBreaks_fit h idx items Hslots)
    by (intros f c Hc; exact (@Hfit apt idx qr items f c Hin Hidx Hitems Hc)).
  exists s. repeat split. exact Hrend.
Qed.

Lemma DocInv_step (doc : PDFDoc) (i : nat) (apt : Apartment) (s : Slip) :
  DocInv doc i ->
  nth_error sorted i = Some apt ->
  slipApartment s = apt ->
  slipIndex s = (i mod 3)%nat ->
  slipQR s = match nth_error qrs i with Some q => q | None => None end ->
  rendered v h building month s ->
  DocInv (drawOnPage (if (0 <? i)%nat && (i mod 3 =? 0)%nat
                      then addPage doc else doc) s 0) (S i).
Proof.
  intros [Ha Hq Hi Hr Hfull Hfin Hcur Hauto] Hnth Hsa Hsi Hsq Hrend.
  assert (Hlt : (i < length sorted)%nat)
    by (apply nth_error_Some; congruence).
  set (doc1 := if (0 <? i)%nat && (i mod 3 =? 0)%nat then addPage doc else doc).
  assert (Hslips : slipsOf doc1 = slipsOf doc).
  { unfold doc1. destruct ((0 <? i)%nat && (i mod 3 =? 0)%nat);
      [apply slipsOf_addPage | reflexivity]. }
  assert (Hauto1 : autoPages doc1 = 0%nat).
  { unfold doc1. destruct ((0 <? i)%nat && (i mod 3 =? 0)%nat); exact Hauto. }
  constructor.
  - rewrite slipsOf_drawOnPage, Hslips, map_app, Ha. cbn [map].
    rewrite Hsa. symmetry. apply firstn_snoc. exact Hnth.
  - rewrite slipsOf_drawOnPage, Hslips, map_app, Hq. cbn [map].
    rewrite Hsq. symmetry. apply firstn_snoc_default. lia.
  - rewrite slipsOf_drawOnPage, Hslips, map_app, Hi. cbn [map].
    rewrite Hsi, seq_S, map_app. reflexivity.
  - rewrite slipsOf_drawOnPage, Hslips. apply Forall_app. split; [exact Hr|].
    constructor; [exact Hrend | constructor].
  - unfold doc1. cbn [drawOnPage finishedPages].
    destruct (Nat.ltb_spec 0 i) as [Hpos|Hz];
      destruct (Nat.eqb_spec (i mod 3) 0) as [Hm|Hm]; cbn [andb]; try exact Hfull.
    cbn [addPage finishedPages]. apply Forall_app. split; [exact Hfull|].
    constructor; [|constructor].
    rewrite Hcur. destruct (Nat.eqb_spec i 0); lia.
  - unfold doc1. cbn [drawOnPage finishedPages].
    destruct (Nat.ltb_spec 0 i) as [Hpos|Hz];
      destruct (Nat.eqb_spec (i mod 3) 0) as [Hm|Hm]; cbn [andb].
    + cbn [addPage finishedPages]. rewrite length_app, Hfin. simpl length. lia.
    + rewrite Hfin. lia.
    + rewrite Hfin. lia.
    + rewrite Hfin. lia.
  - unfold doc1. cbn [drawOnPage currentPage].
    change (S i =? 0)%nat with false. cbv iota.
    destruct (Nat.ltb_spec 0 i) as [Hpos|Hz];
      destruct (Nat.eqb_spec (i mod 3) 0) as [Hm|Hm]; cbn [andb].
    + cbn [addPage currentPage]. simpl length. lia.
    + rewrite length_app, Hcur. simpl length. destruct (Nat.eqb_spec i 0); lia.
    + rewrite length_app, Hcur. simpl length. destruct (Nat.eqb_spec i 0); lia.
    + rewrite length_app, Hcur. simpl length. destruct (Nat.eqb_spec i 0); lia.
  - cbn [drawOnPage autoPages]. rewrite Hauto1. reflexivity.
Qed.

(** The loop draws every remaining apartment and never throws. *)
Lemma drawSlips_spec (remaining i : nat) (doc : PDFDoc) :
  (i + remaining = length sorted)%nat ->
  DocInv doc i ->
  exists doc',
    drawSlips v h doc sorted qrs building month year i remaining = Ok doc'
    /\ DocInv doc' (length sorted).
Proof.
  revert i doc. induction remaining as [|r IH]; intros i doc Hlen Hinv.
  - exists doc. split; [reflexivity|]. replace (length sorted) with i by lia.
    exact Hinv.
  - cbn [drawSlips].
    destruct (nth_error sorted i) as [apt|] eqn:Hnth.
    2:{ apply nth_error_None in Hnth. lia. }
    set (doc1 := if (0 <? i)%nat && (i mod 3 =? 0)%nat then addPage doc else doc).
    assert (Hqr : opens h (match nth_error qrs i with
                           | Some q => q
                           | None => None
                           end)).
    { destruct (nth_error qrs i) as [q|] eqn:Eq; [|exact Logic.I].
      rewrite Forall_forall in Hopens. apply Hopens.
      eapply nth_error_In. exact Eq. }
    destruct (@drawPaymentSlip_ok doc1 apt (i mod 3)
                (match nth_error qrs i with Some q => q | None => None end)
                (nth_error_In _ _ Hnth) ltac:(lia) Hqr)
      as (s & Hdraw & Hsa & Hsi & Hsq & Hrend).
    rewrite Hdraw. cbn [bind].
    apply IH; [lia|].
    apply (DocInv_step Hinv Hnth Hsa Hsi Hsq Hrend).
Qed.

End Loop.

(** ** The QR images of a batch *)

Lemma fetchQRCodes_length (v : Variant) (h : Host) (k : nat)
    (sorted : list Apartment) (building : Building) (month year : Z) :
  length (fetchQRCodes v h k sorted building month year) = length sorted.
Proof.
  revert k. induction sorted as [|a l IH]; intros k; [reflexivity|].
  simpl. rewrite IH. reflexivity.
Qed.

Lemma fetchQRCodes_nth (v : Variant) (h : Host) (k : nat)
    (sorted : list Apartment) (building : Building) (month year : Z)
    (i : nat) (apt : Apartment) :
  nth_error sorted i = Some apt ->
  nth_error (fetchQRCodes v h k sorted building month year) i
  = Some match QRService.generatePaymentQRCode v h (k + i) apt building
                 month year (qrRequestSize v) with
         | Ok image => Some image
         | Throw _ => None
         end.
Proof.
  revert k i. induction sorted as [|a l IH]; intros k [|i] H; try discriminate.
  - injection H as ->. simpl. rewrite Nat.add_0_r. reflexivity.
  - simpl in H. simpl. rewrite (IH (S k) i H).
    replace (S k + i)%nat with (k + S i)%nat by lia. reflexivity.
Qed.

(** ** Pages *)


Lemma index_of_nth (slips : list Slip) (n i : nat) (s : Slip) :
  map slipIndex slips = map (fun j => j mod 3)%nat (seq 0 n) ->
  nth_error slips i = Some s ->
  slipIndex s = (i mod 3)%nat.
Proof.
  intros Hmap Hnth.
  assert (Hi : (i < n)%nat).
  { assert (Hl : length slips = n).
    { rewrite <- (length_map slipIndex), Hmap, length_map, length_seq.
      reflexivity. }
    rewrite <- Hl. apply nth_error_Some. congruence. }
  assert (E : nth_error (map slipIndex slips) i = Some (slipIndex s))
    by (rewrite nth_error_map, Hnth; reflexivity).
  rewrite Hmap, nth_error_map, nth_error_seq in E.
  destruct (Nat.ltb_spec i n); [|lia]. cbn [option_map Nat.add] in E.
  injection E as E. symmetry. exact E.
Qed.

(** ** The generator as a whole *)

(** The bundled font files are in place (they matter to the current
    backend only). *)
Definition fontAvailable (v : Variant) (h : Host) : Prop :=
  match v with
  | Backend => fontRegularExists h = true /\ fontBoldExists h = true
  | _ => True
  end.

(** The integers that get printed on a slip or in a payload are safe
    integers, so that they are printed in plain decimal. *)
Definition printable (apartments : list Apartment) (month : Z) : Prop :=
  isSafeInteger month = true
  /\ Forall (fun a => isSafeInteger (apartment_number a) = true
                      /\ isSafeInteger (floor_number a) = true
                      /\ isSafeInteger (apartment_on_floor a) = true)
            apartments.

(** Every body that the QR endpoint returns is an image that [doc.image]
    can decode. *)
Definition bodiesDecode (v : Variant) (h : Host) : Prop :=
  forall i q body,
    fetchQRCode h i q (qrRequestSize v) = Ok body -> openImage h body = Ok tt.

(** No text of a slip of these apartments makes PDFKit open a page of its
    own, in whichever band of the page the slip is drawn. *)
Definition textsFit (v : Variant) (h : Host) (apartments : list Apartment)
    (building : Building) (month : Z) : Prop :=
  forall apt slot qr items f c,
    In apt apartments -> (slot < 3)%nat ->
    slipItemsOf v h apt building month slot qr = Ok items ->
    In (Text slot f c) items ->
    pageBreaks h slot f c = 0%nat.

Lemma textsFit_perm (v : Variant) (h : Host) (apartments apartments' : list Apartment)
    (building : Building) (month : Z) :
  Permutation apartments' apartments ->
  textsFit v h apartments building month ->
  textsFit v h apartments' building month.
Proof.
  intros Hperm Hfit apt slot qr items f c Hin.
  apply Hfit. eapply Permutation_in; eassumption.
Qed.

Lemma fetchQRCodes_open (v : Variant) (h : Host) (k : nat)
    (sorted : list Apartment) (building : Building) (month year : Z) :
  bodiesDecode v h ->
  Forall (opens h) (fetchQRCodes v h k sorted building month year).
Proof.
  intros Hdec. revert k.
  induction sorted as [|a l IH]; intros k; cbn [fetchQRCodes]; constructor;
    [|apply IH].
  destruct (QRService.generatePaymentQRCode v h k a building month year
              (qrRequestSize v)) as [body|err] eqn:E; [|exact Logic.I].
  unfold QRService.generatePaymentQRCode in E.
  destruct (QRCode.paymentQRData v a building month) as [q|err];
    cbn [bind] in E; [|discriminate E].
  exact (Hdec _ _ _ E).
Qed.

(** With the fonts in place, a parsable building account, bodies that
    decode and texts that fit, the promise resolves, and the document is in
    the state [DocInv] describes for the whole sorted list. *)
Lemma generatePaymentSlipsPDF_resolves (v : Variant) (h : Host)
    (apartments : list Apartment) (building : Building) (month year : Z) :
  fontAvailable v h ->
  BankAccount.isValidBankAccount (bank_account building) = true ->
  bodiesDecode v h ->
  textsFit v h apartments building month ->
  exists doc,
    generatePaymentSlipsPDF v h apartments building month year = Ok doc
    /\ DocInv v h building month (sortByNumber apartments)
         (fetchQRCodes v h 0 (sortByNumber apartments) building month year)
         doc (length apartments).
Proof.
  intros Hfont Hvalid Hdec Hfit.
  destruct (QRCodeFacts.valid_parses _ Hvalid) as [r Hr].
  assert (Hacct : BankAccount.formatForDisplay (bank_account building)
                  = Ok (BankAccount.formatted r))
    by (unfold BankAccount.formatForDisplay; rewrite Hr; reflexivity).
  unfold generatePaymentSlipsPDF.
  replace (match v with
           | Backend => negb (fontRegularExists h)
           | _ => false
           end) with false
    by (destruct v; try reflexivity; destruct Hfont as [-> _]; reflexivity).
  rewrite <- (SortFacts.sortByNumber_length apartments).
  eapply drawSlips_spec;
    [exact Hacct | | apply fetchQRCodes_length
     | apply fetchQRCodes_open; exact Hdec
     | apply (textsFit_perm (SortFacts.sortByNumber_perm apartments) Hfit)
     | reflexivity | apply DocInv_new].
  intros ->. apply Hfont.
Qed.

Lemma DocInv_slips_length (v : Variant) (h : Host) (building : Building)
    (month : Z) (sorted : list Apartment) (qrs : list (option Buffer))
    (doc : PDFDoc) :
  DocInv v h building month sorted qrs doc (length sorted) ->
  length (slipsOf doc) = length sorted.
Proof.
  intros [Ha _ _ _ _ _ _ _].
  rewrite <- (length_map slipApartment), Ha, firstn_all. reflexivity.
Qed.

(** ** The sample host *)

Lemma sampleHost_bodiesDecode (v : Variant) : bodiesDecode v sampleHost.
Proof.
  intros i q body H. cbn [sampleHost fetchQRCode] in H.
  destruct (i =? 1)%nat; [discriminate H|]. injection H as <-. reflexivity.
Qed.

(** The texts of the sample slips have at most 60 units. *)
Lemma sampleHost_textsFit (v : Variant) (apartments : list Apartment) :
  incl apartments (sampleApartment 5 1 2 :: sampleApartments) ->
  textsFit v sampleHost apartments sampleBuilding 2.
Proof.
  intros Hincl apt slot qr items f c Hin Hslot Hitems Hc.
  apply Hincl in Hin.
  assert (Hcases : (slot = 0 \/ slot = 1 \/ slot = 2)%nat) by lia.
  unfold slipItemsOf, slipItemsEarly, slipItemsCurrent in Hitems.
  cbn [sampleHost fontBoldExists pageBreaks].
  repeat (destruct Hin as [<- | Hin]; [|]); try contradiction;
    destruct Hcases as [-> | [-> | ->]];
    destruct v; destruct qr as [image|];
    try (destruct (openImage sampleHost image) as [[]|e];
         [|discriminate Hitems]);
    vm_compute in Hitems; injection Hitems as <-;
    vm_compute in Hc;
    repeat (destruct Hc as [Hc | Hc];
            [first [discriminate Hc | injection Hc as <- <-; reflexivity]|]);
    contradiction.
Qed.

Lemma samples_printable (apartments : list Apartment) :
  incl apartments (sampleApartment 5 1 2 :: sampleApartments) ->
  printable apartments 2.
Proof.
  intros Hincl. split; [reflexivity|].
  apply Forall_forall. intros a Ha. apply Hincl in Ha.
  repeat (destruct Ha as [<- | Ha]; [repeat split|]). contradiction.
Qed.

Lemma incl_tail_samples :
  incl sampleApartments (sampleApartment 5 1 2 :: sampleApartments).
Proof. apply incl_tl, incl_refl. Qed.


(** ** Order and pagination *)



(** ** Failure of one QR request *)

Lemma paymentQRData_ok (v : Variant) (apt : Apartment) (building : Building)
    (month : Z) :
  BankAccount.isValidBankAccount (bank_account building) = true ->
  exists q, QRCode.paymentQRData v apt building month = Ok q.
Proof.
  intros Hvalid. destruct (QRCodeFacts.valid_parses _ Hvalid) as [r Hr].
  unfold QRCode.paymentQRData, QRCode.generateQRCodeData,
    BankAccount.formatForQR, QRCode.paymentParams.
  cbn [QRCode.bankAccount]. rewrite Hr. cbn [bind]. eexists. reflexivity.
Qed.




(** ** The payer line *)




(** ** The cut line *)




(** ** The empty list *)

(** C4, at the route.  The generator has no check of its own for an empty
    list: it resolves with a document of one blank page (unless the backend
    font is missing); it is the route that answers 400 for an empty list,
    before calling the generator. *)
Theorem empty_list_rejected_by_route (v : Variant) (h : Host)
    (building : Building) (month year : Z) :
  generatePaymentSlipsPDF v h [] building month year
  = (if match v with
        | Backend => negb (fontRegularExists h)
        | _ => false
        end
     then Throw errFontMissing else Ok newDocument)
  /\ pages newDocument = [[]]
  /\ BillingsRoute.getPdf v h (Some building) [] month year
     = BillingsRoute.JsonError 400 (lit "Nema registrovanih stanova").
Proof. repeat split. Qed.

(** C4, counterexample at the generator: called with an empty list the
    generator returns a document. *)
Lemma empty_list_generates_document_counterexample :
  generatePaymentSlipsPDF Worker sampleHost [] sampleBuilding 2 2025
  = Ok newDocument
  /\ isOk (generatePaymentSlipsPDF Backend sampleHost [] sampleBuilding 2 2025)
     = true.
Proof. split; reflexivity. Qed.

End PdfFacts.

(* ================================================================== *)
(** * Bank accounts: normal forms *)
(* ================================================================== *)

Module BankAccountNormalForms.
Import BankAccount BankAccountFacts.

(** The record of a string of 7 to 18 digits. *)
Definition canonical (d : jsstring) : ParsedBankAccount :=
  let b := firstn 3 d in
  let a := repeat zeroChar (18 - length d) ++ firstn (length d - 5) (skipn 3 d) in
  let c := skipn (length d - 2) d in
  {| bank := b;
     account := a;
     control := c;
     formatted := b ++ [dash] ++ a ++ [dash] ++ c;
     digits := b ++ a ++ c |}.

Lemma parse_digits (input : jsstring) :
  input <> [] ->
  onlyDigits (stripSeparators input) = true ->
  (7 <= length (stripSeparators input) <= 18)%nat ->
  parseBankAccount input = Ok (canonical (stripSeparators input)).
Proof.
  intros Hin Hdig Hlen. rewrite (parseBankAccount_nonempty Hin). cbv zeta.
  set (d := stripSeparators input) in *.
  rewrite Hdig. cbn [negb]. unfold canonical.
  assert (Hbank : slice d 0 (Some 3%Z) = firstn 3 d)
    by (apply (@slice_within d 0 3); lia).
  destruct (Z.eqb_spec (len d) 18) as [H18 | Hn18].
  - assert (Hl : length d = 18%nat) by (unfold len in H18; lia).
    assert (Hacc : slice d 3 (Some 16%Z) = firstn (length d - 5) (skipn 3 d))
      by (rewrite Hl; apply (@slice_within d 3 16); lia).
    assert (Hctl : slice d 16 (Some 18%Z) = skipn (length d - 2) d).
    { rewrite Hl. etransitivity; [apply (@slice_within d 16 18); lia|].
      apply firstn_all2. rewrite length_skipn. lia. }
    rewrite Hbank, Hacc, Hctl.
    replace (18 - length d)%nat with O by lia. cbn [repeat app].
    do 2 f_equal. symmetry. apply split_three. lia.
  - assert (Hl : (7 <= length d < 18)%nat) by (unfold len in Hn18; lia).
    replace ((7 <=? len d) && (len d <? 18))%Z with true
      by (unfold len; symmetry; apply andb_true_iff; split;
          [apply Z.leb_le | apply Z.ltb_lt]; lia).
    assert (Hctl : slice d (-2) None = skipn (length d - 2) d)
      by (apply (@slice_last d 2); lia).
    assert (Hacc : padStart (slice d 3 (Some (-2)%Z)) 13 [zeroChar]
                   = repeat zeroChar (18 - length d)
                     ++ firstn (length d - 5) (skipn 3 d)).
    { replace (slice d 3 (Some (-2)%Z))
        with (firstn (length d - 2 - 3) (skipn 3 d))
        by (symmetry; apply (@slice_inner d 3 2); lia).
      etransitivity; [apply (padStart_single _ 13 zeroChar)|].
      rewrite length_firstn, length_skipn.
      f_equal; [f_equal; lia | f_equal; lia]. }
    rewrite Hbank, Hacc, Hctl. reflexivity.
Qed.

(** What an accepted input looks like. *)
Lemma parse_ok_inv (input : jsstring) (r : ParsedBankAccount) :
  parseBankAccount input = Ok r ->
  input <> []
  /\ onlyDigits (stripSeparators input) = true
  /\ (7 <= length (stripSeparators input) <= 18)%nat
  /\ r = canonical (stripSeparators input).
Proof.
  intros Hparse.
  assert (Hin : input <> []) by (intros ->; discriminate Hparse).
  pose proof Hparse as Hbody.
  rewrite (parseBankAccount_nonempty Hin) in Hbody. cbv zeta in Hbody.
  destruct (onlyDigits (stripSeparators input)) eqn:Hdig;
    [|discriminate Hbody].
  cbn [negb] in Hbody. unfold len in Hbody.
  assert (Hlen : (7 <= length (stripSeparators input) <= 18)%nat).
  { destruct (Z.eqb_spec (Z.of_nat (length (stripSeparators input))) 18);
      [lia|].
    destruct (Z.leb_spec 7 (Z.of_nat (length (stripSeparators input))));
      destruct (Z.ltb_spec (Z.of_nat (length (stripSeparators input))) 18);
      cbn [andb] in Hbody; try discriminate Hbody; lia. }
  repeat split; try assumption; try lia.
  rewrite (@parse_digits input Hin Hdig Hlen) in Hparse. congruence.
Qed.

Lemma canonical_lengths (d : jsstring) :
  (7 <= length d <= 18)%nat ->
  length (bank (canonical d)) = 3%nat
  /\ length (account (canonical d)) = 13%nat
  /\ length (control (canonical d)) = 2%nat.
Proof.
  intros Hlen. cbn [canonical bank account control].
  rewrite length_app, repeat_length, !length_firstn, !length_skipn. lia.
Qed.

Lemma canonical_isDigit (d : jsstring) :
  forallb isDigit d = true ->
  forallb isDigit (bank (canonical d)) = true
  /\ forallb isDigit (account (canonical d)) = true
  /\ forallb isDigit (control (canonical d)) = true.
Proof.
  intros Hd. cbn [canonical bank account control].
  rewrite forallb_app, forallb_repeat by reflexivity.
  rewrite !forallb_firstn, !forallb_skipn by (try apply forallb_skipn; assumption).
  repeat split.
Qed.

Lemma stripSeparators_app (x y : jsstring) :
  stripSeparators (x ++ y) = stripSeparators x ++ stripSeparators y.
Proof. apply filter_app. Qed.

(** The canonical digits of a digit string are their own canonical
    form. *)
Lemma canonical_digits_fixpoint (d : jsstring) :
  forallb isDigit d = true ->
  (7 <= length d <= 18)%nat ->
  canonical (digits (canonical d)) = canonical d.
Proof.
  intros Hd Hlen.
  destruct (@canonical_lengths d Hlen) as (Hb & Ha & Hc).
  set (r := canonical d) in *.
  assert (HD : length (digits r) = 18%nat).
  { change (digits r) with (bank r ++ account r ++ control r).
    rewrite !length_app. lia. }
  unfold canonical at 1. rewrite HD.
  change (digits r) with (bank r ++ account r ++ control r).
  assert (E1 : firstn 3 (bank r ++ account r ++ control r) = bank r).
  { rewrite firstn_app, Hb, Nat.sub_diag, firstn_O, app_nil_r.
    apply firstn_all2. lia. }
  assert (E2 : firstn (18 - 5) (skipn 3 (bank r ++ account r ++ control r))
               = account r).
  { rewrite skipn_app, Hb, Nat.sub_diag. rewrite (skipn_all2 (bank r)) by lia.
    rewrite skipn_0. cbn [app]. change (18 - 5)%nat with 13%nat.
    rewrite firstn_app, Ha, Nat.sub_diag, firstn_O, app_nil_r.
    apply firstn_all2. lia. }
  assert (E3 : skipn (18 - 2) (bank r ++ account r ++ control r) = control r).
  { change (18 - 2)%nat with 16%nat.
    rewrite app_assoc, skipn_app, length_app, Hb, Ha.
    rewrite skipn_all2 by (rewrite length_app; lia).
    reflexivity. }
  rewrite E1, E2, E3. reflexivity.
Qed.

(** X1.  Every respelling of an accepted account parses to the same
    record: the stored display form, the 18 digits sent in the QR payload,
    and the original digits with dashes and whitespace placed anywhere. *)
Theorem parseBankAccount_normal_forms (input : jsstring)
    (r : ParsedBankAccount) :
  parseBankAccount input = Ok r ->
  parseBankAccount (formatted r) = Ok r
  /\ parseBankAccount (digits r) = Ok r
  /\ formatForDisplay (formatted r) = Ok (formatted r)
  /\ formatForQR (formatted r) = Ok (digits r)
  /\ (forall input',
         input' <> [] ->
         stripSeparators input' = stripSeparators input
         \/ stripSeparators input' = digits r ->
         parseBankAccount input' = Ok r).
Proof.
  intros Hparse.
  destruct (@parse_ok_inv input r Hparse) as (Hin & Hdig & Hlen & ->).
  set (d := stripSeparators input) in *.
  apply onlyDigits_spec in Hdig as Hd. destruct Hd as [_ Hall].
  destruct (@canonical_lengths d Hlen) as (Hb & Ha & Hc).
  destruct (@canonical_isDigit d Hall) as (Db & Da & Dc).
  set (r := canonical d) in *.
  assert (HDdig : forallb isDigit (digits r) = true).
  { change (digits r) with (bank r ++ account r ++ control r).
    rewrite !forallb_app, Db, Da, Dc. reflexivity. }
  assert (HDlen : length (digits r) = 18%nat).
  { change (digits r) with (bank r ++ account r ++ control r).
    rewrite !length_app. lia. }
  assert (HDonly : onlyDigits (digits r) = true).
  { apply onlyDigits_spec. split; [|exact HDdig].
    intros E. rewrite E in HDlen. discriminate. }
  assert (Hfix : canonical (digits r) = r)
    by (apply (@canonical_digits_fixpoint d); assumption).
  assert (Hany : forall input',
             input' <> [] ->
             stripSeparators input' = d \/ stripSeparators input' = digits r ->
             parseBankAccount input' = Ok r).
  { intros input' Hne [E | E].
    - rewrite (@parse_digits input' Hne); rewrite E; try assumption. reflexivity.
    - rewrite (@parse_digits input' Hne); rewrite E; try assumption; [|lia].
      rewrite Hfix. reflexivity. }
  assert (Hstripf : stripSeparators (formatted r) = digits r).
  { change (formatted r)
      with (bank r ++ [dash] ++ account r ++ [dash] ++ control r).
    rewrite !stripSeparators_app.
    rewrite (stripSeparators_digits (bank r) Db),
      (stripSeparators_digits (account r) Da),
      (stripSeparators_digits (control r) Dc).
    reflexivity. }
  assert (Hf : parseBankAccount (formatted r) = Ok r).
  { apply Hany; [|right; exact Hstripf].
    intros E. apply (f_equal (@length N)) in E.
    change (formatted r)
      with (bank r ++ [dash] ++ account r ++ [dash] ++ control r) in E.
    rewrite !length_app in E. simpl in E. lia. }
  assert (Hq : parseBankAccount (digits r) = Ok r).
  { apply Hany; [|right; apply stripSeparators_digits; exact HDdig].
    intros E. rewrite E in HDlen. discriminate. }
  split; [exact Hf|]. split; [exact Hq|].
  unfold formatForDisplay, formatForQR. rewrite Hf. cbn [bind].
  repeat split. exact Hany.
Qed.

Lemma parseBankAccount_normal_forms_witness :
  exists r,
    parseBankAccount (lit "160 548912-67") = Ok r
    /\ parseBankAccount (formatted r) = Ok r
    /\ formatted r = lit "160-0000000548912-67"
    /\ parseBankAccount (lit "16054891267") = Ok r.
Proof.
  eexists. split; [reflexivity|].
  destruct (@parseBankAccount_normal_forms (lit "160 548912-67") _ eq_refl)
    as (Hf & _ & _ & _ & Hany).
  split; [exact Hf|]. split; [reflexivity|].
  apply Hany; [discriminate | left; reflexivity].
Defined.

End BankAccountNormalForms.

(* ================================================================== *)
(** * Integers read back from their decimal form *)
(* ================================================================== *)

Unset Implicit Arguments.

Module ValidationFacts.
Import Validation.

Lemma digitsValue_snoc (l : jsstring) (c : N) :
  digitsValue (l ++ [c]) = (10 * digitsValue l + (Z.of_N c - 48))%Z.
Proof. unfold digitsValue. rewrite fold_left_app. reflexivity. Qed.

Lemma digitsValue_natToString (n : N) :
  digitsValue (natToString n) = Z.of_N n.
Proof.
  induction n as [n IH] using (well_founded_induction N.lt_wf_0).
  destruct (N.lt_ge_cases n 10) as [Hlt | Hge].
  - rewrite (natToString_small Hlt). unfold digitsValue, zeroChar.
    cbn [fold_left]. lia.
  - rewrite (natToString_step Hge), digitsValue_snoc, IH.
    + unfold zeroChar. lia.
    + apply N.div_lt; lia.
Qed.

(** Leading zeros do not change the value. *)
Lemma digitsValue_zeros (k : nat) (l : jsstring) :
  digitsValue (repeat zeroChar k ++ l) = digitsValue l.
Proof.
  unfold digitsValue. rewrite fold_left_app. f_equal.
  induction k as [|k IH]; [reflexivity|]. simpl. exact IH.
Qed.

Lemma digitsPrefix_app (ds suffix : jsstring) :
  forallb isDigit ds = true ->
  digitsPrefix suffix = [] ->
  digitsPrefix (ds ++ suffix) = ds.
Proof.
  intros Hds Hsuf. induction ds as [|c ds IH]; [exact Hsuf|].
  simpl in Hds. apply andb_true_iff in Hds as [Hc Hds].
  simpl. rewrite Hc, (IH Hds). reflexivity.
Qed.

Lemma digit_not_separator (c : N) :
  isDigit c = true ->
  isWhiteSpace c = false /\ (c =? 45)%N = false /\ (c =? 43)%N = false.
Proof.
  intros Hc. apply isDigit_range in Hc. unfold isWhiteSpace.
  repeat split;
    repeat match goal with
           | |- context [(?a =? ?b)%N] => destruct (N.eqb_spec a b); [lia|]
           | |- context [(?a <=? ?b)%N] => destruct (N.leb_spec a b); try lia
           end; reflexivity.
Qed.

Lemma skipWhiteSpace_app (ws t : jsstring) :
  forallb isWhiteSpace ws = true ->
  skipWhiteSpace (ws ++ t) = skipWhiteSpace t.
Proof.
  intros Hws. induction ws as [|c ws IH]; [reflexivity|].
  simpl in Hws. apply andb_true_iff in Hws as [Hc Hws].
  simpl. rewrite Hc. apply IH. exact Hws.
Qed.

Lemma natToString_head (n : N) :
  exists c rest, natToString n = c :: rest /\ isDigit c = true.
Proof.
  pose proof (natToString_isDigit n) as Hd.
  pose proof (natToString_length n) as Hl.
  destruct (natToString n) as [|c rest]; [simpl in Hl; lia|].
  simpl in Hd. apply andb_true_iff in Hd as [Hc _].
  exists c, rest. split; [reflexivity | exact Hc].
Qed.

(** [parseInt(String(z) + suffix, 10)] is [z] again, for every integer
    [z], whatever whitespace precedes it and whatever follows it that does
    not begin with a digit. *)
Lemma parseInt10_intToString (ws suffix : jsstring) (z : Z) :
  forallb isWhiteSpace ws = true ->
  digitsPrefix suffix = [] ->
  parseInt10 (ws ++ intToString z ++ suffix) = Some z.
Proof.
  intros Hws Hsuf. unfold parseInt10. rewrite (skipWhiteSpace_app ws _ Hws).
  unfold intToString. destruct (Z.ltb_spec z 0) as [Hneg | Hpos].
  - cbn [app skipWhiteSpace]. change (isWhiteSpace dash) with false. cbv iota.
    change (dash =? 45)%N with true. cbv iota.
    rewrite (digitsPrefix_app _ _ (natToString_isDigit _) Hsuf).
    destruct (natToString_head (Z.to_N (- z))) as (c & rest & E & _).
    pose proof (digitsValue_natToString (Z.to_N (- z))) as Hv.
    rewrite E in *. f_equal. lia.
  - destruct (natToString_head (Z.to_N z)) as (c & rest & E & Hc).
    destruct (digit_not_separator c Hc) as (Hw & H45 & H43).
    pose proof (digitsValue_natToString (Z.to_N z)) as Hv.
    pose proof (digitsPrefix_app _ _ (natToString_isDigit (Z.to_N z)) Hsuf) as Hp.
    rewrite E in *. cbn [app skipWhiteSpace]. rewrite Hw, H45, H43.
    cbn [app] in Hp. rewrite Hp. f_equal. lia.
Qed.

(** X2.  The integer validators decide on the integer that [parseInt]
    reads: for every integer [z], written in decimal with any leading
    whitespace and any trailing text that does not begin with a digit,
    [isValidMonth] holds exactly for [1 <= z <= 12], [isValidApartmentNumber]
    for [1 <= z <= 99], and [isValidYear] for [2020 <= z <= currentYear + 5]. *)
Theorem integer_validators_decide (ws suffix : jsstring) (z currentYear : Z) :
  forallb isWhiteSpace ws = true ->
  digitsPrefix suffix = [] ->
  let value := ws ++ intToString z ++ suffix in
  parseInt10 value = Some z
  /\ isValidMonth value = ((1 <=? z) && (z <=? 12))%Z
  /\ isValidApartmentNumber value = ((1 <=? z) && (z <=? 99))%Z
  /\ isValidYear currentYear value = ((2020 <=? z) && (z <=? currentYear + 5))%Z.
Proof.
  intros Hws Hsuf value.
  pose proof (parseInt10_intToString ws suffix z Hws Hsuf) as Hp. fold value in Hp.
  unfold isValidMonth, isValidApartmentNumber, isValidYear. rewrite Hp.
  repeat split.
Qed.

Lemma integer_validators_decide_witness :
  forallb isWhiteSpace (lit " ") = true
  /\ digitsPrefix (lit ".5abc") = []
  /\ isValidMonth (lit " " ++ intToString 12 ++ lit ".5abc") = true
  /\ isValidApartmentNumber (lit " " ++ intToString 100 ++ lit ".5abc") = false.
Proof.
  split; [reflexivity|]. split; [reflexivity|].
  destruct (@integer_validators_decide (lit " ") (lit ".5abc") 12 2025
              eq_refl eq_refl) as (_ & Hm & _).
  destruct (@integer_validators_decide (lit " ") (lit ".5abc") 100 2025
              eq_refl eq_refl) as (_ & _ & Ha & _).
  split; [rewrite Hm | rewrite Ha]; reflexivity.
Defined.

End ValidationFacts.

(* ================================================================== *)
(** * The download name *)
(* ================================================================== *)

Module PdfFilenameFacts.
Import PdfFilename.

Lemma intToString_nonneg (z : Z) :
  (0 <= z)%Z -> intToString z = natToString (Z.to_N z).
Proof.
  intros Hz. unfold intToString. destruct (Z.ltb_spec z 0); [lia | reflexivity].
Qed.

Lemma intToString_nonneg_inj (a b : Z) :
  (0 <= a)%Z -> (0 <= b)%Z -> intToString a = intToString b -> a = b.
Proof.
  intros Ha Hb E. rewrite !intToString_nonneg in E by assumption.
  apply (f_equal Validation.digitsValue) in E.
  rewrite !ValidationFacts.digitsValue_natToString in E. lia.
Qed.

(** The zero-padded form of a non-negative integer determines it. *)
Lemma padStart2_inj (a b : Z) :
  (0 <= a)%Z -> (0 <= b)%Z ->
  padStart (intToString a) 2 (lit "0") = padStart (intToString b) 2 (lit "0") ->
  a = b.
Proof.
  intros Ha Hb E. change (lit "0") with [zeroChar] in E.
  rewrite !(padStart_single _ 2 zeroChar) in E.
  rewrite !intToString_nonneg in E by assumption.
  apply (f_equal Validation.digitsValue) in E.
  rewrite !ValidationFacts.digitsValue_zeros in E.
  rewrite !ValidationFacts.digitsValue_natToString in E. lia.
Qed.

(** X3.  For months and years that are non-negative safe integers the
    download name is [uplatnice_], the year, an underscore, the month
    zero-padded to two digits, and [.pdf]; two such periods have the same
    name only when they are the same period. *)
Theorem generatePDFFilename_determines_period (month year month' year' : Z) :
  (0 <= month <= 99)%Z ->
  (0 <= year)%Z -> isSafeInteger year = true ->
  (0 <= month')%Z -> isSafeInteger month' = true ->
  (0 <= year')%Z -> isSafeInteger year' = true ->
  generatePDFFilename month year
  = lit "uplatnice_" ++ intToString year ++ lit "_"
    ++ [digitChar (month / 10); digitChar (month mod 10)] ++ lit ".pdf"
  /\ (generatePDFFilename month year = generatePDFFilename month' year' ->
      month = month' /\ year = year').
Proof.
  intros Hm Hy _ Hm' _ Hy' _. split.
  - unfold generatePDFFilename. rewrite pad2_digits by lia. reflexivity.
  - unfold generatePDFFilename. intros E.
    apply app_inv_head in E.
    assert (Hyear : year = year').
    { apply intToString_nonneg_inj; try assumption.
      pose proof (f_equal Validation.digitsPrefix E) as Ep.
      rewrite (intToString_nonneg year Hy), (intToString_nonneg year' Hy') in Ep.
      rewrite !ValidationFacts.digitsPrefix_app in Ep
        by (try apply natToString_isDigit; reflexivity).
      rewrite (intToString_nonneg year Hy), (intToString_nonneg year' Hy').
      exact Ep. }
    subst year'. split; [|reflexivity].
    apply app_inv_head in E. apply app_inv_head in E.
    apply app_inv_tail in E.
    apply padStart2_inj; [lia | assumption | exact E].
Qed.

Lemma generatePDFFilename_determines_period_witness :
  (0 <= 2 <= 99)%Z
  /\ (0 <= 2025)%Z /\ isSafeInteger 2025 = true
  /\ (0 <= 12)%Z /\ isSafeInteger 12 = true
  /\ (0 <= 2024)%Z /\ isSafeInteger 2024 = true
  /\ generatePDFFilename 2 2025 = lit "uplatnice_2025_02.pdf"
  /\ generatePDFFilename 2 2025 <> generatePDFFilename 12 2024.
Proof.
  assert (H1 : (0 <= 2 <= 99)%Z) by lia.
  assert (H2 : (0 <= 2025)%Z) by lia.
  assert (H3 : (0 <= 12)%Z) by lia.
  assert (H4 : (0 <= 2024)%Z) by lia.
  destruct (generatePDFFilename_determines_period 2 2025 12 2024
              H1 H2 eq_refl H3 eq_refl H4 eq_refl) as [Hshape Hinj].
  split; [exact H1|]. split; [exact H2|]. split; [reflexivity|].
  split; [exact H3|]. split; [reflexivity|].
  split; [exact H4|]. split; [reflexivity|].
  split; [rewrite Hshape; reflexivity|].
  intros E. destruct (Hinj E) as [E' _]. discriminate E'.
Defined.

End PdfFilenameFacts.

(* ================================================================== *)
(** * The QR payload: account, recipient and payer fields *)
(* ================================================================== *)

Module QRPayloadFacts.

Lemma slice_prefix (s : jsstring) (n : nat) :
  slice s 0 (Some (Z.of_nat n)) = firstn n s.
Proof.
  destruct (Nat.le_gt_cases n (length s)) as [Hle | Hgt].
  - etransitivity; [apply (@slice_within s 0 n); lia|].
    rewrite Nat.sub_0_r. reflexivity.
  - unfold slice, clampIndex, len.
    destruct (Z.ltb_spec 0 0); [lia|].
    destruct (Z.ltb_spec (Z.of_nat n) 0); [lia|].
    rewrite (Z.min_l 0 (Z.of_nat (length s))) by lia.
    rewrite (Z.min_r (Z.of_nat n) (Z.of_nat (length s))) by lia.
    destruct (Z.leb_spec (Z.of_nat (length s)) 0) as [Hz | Hnz].
    + destruct s as [|c s']; [rewrite firstn_nil; reflexivity|].
      cbn [length] in Hz. lia.
    + rewrite Z.sub_0_r, Nat2Z.id. cbn [Z.to_nat skipn].
      rewrite !firstn_all2 by lia. reflexivity.
Qed.

(** X4.  With a parsable account the payload carries in [R] the 18 digits
    of that account and nothing else, in [N] the recipient name and
    address joined by a line break and cut to at most 70 code units, in [P]
    the three payer lines, and the four fixed codes. *)
Theorem generateQRCodeData_fields (v : Variant) (params : QRCode.QRParams) :
  BankAccount.isValidBankAccount (QRCode.bankAccount params) = true ->
  exists q r,
    QRCode.generateQRCodeData v params = Ok q
    /\ BankAccount.parseBankAccount (QRCode.bankAccount params) = Ok r
    /\ QRCode.R q = BankAccount.digits r
    /\ length (QRCode.R q) = 18%nat
    /\ forallb isDigit (QRCode.R q) = true
    /\ QRCode.N q
       = firstn 70 (QRCode.recipientName params ++ QRCode.crlf
                    ++ QRCode.recipientAddress params)
    /\ (length (QRCode.N q) <= 70)%nat
    /\ QRCode.P q
       = QRCode.payerName params ++ QRCode.crlf ++ QRCode.payerAddress params
         ++ QRCode.crlf ++ QRCode.payerCity params
    /\ (QRCode.K q, QRCode.V q, QRCode.C q, QRCode.SF q)
       = (lit "PR", lit "01", lit "1", lit "289").
Proof.
  intros Hvalid.
  destruct (@QRCodeFacts.valid_parses _ Hvalid) as [r Hr].
  destruct (@BankAccountNormalForms.parse_ok_inv _ _ Hr)
    as (_ & Hdig & Hlen & Hcanon).
  apply BankAccountFacts.onlyDigits_spec in Hdig as [_ Hall].
  destruct (@BankAccountNormalForms.canonical_lengths _ Hlen) as (Hb & Ha & Hc).
  destruct (@BankAccountNormalForms.canonical_isDigit _ Hall) as (Db & Da & Dc).
  rewrite <- Hcanon in *.
  unfold QRCode.generateQRCodeData, BankAccount.formatForQR.
  rewrite Hr. cbn [bind]. eexists. exists r.
  split; [reflexivity|]. split; [reflexivity|].
  cbn [QRCode.R QRCode.N QRCode.P QRCode.K QRCode.V QRCode.C QRCode.SF].
  assert (Hd : BankAccount.digits r
               = BankAccount.bank r ++ BankAccount.account r
                 ++ BankAccount.control r) by (rewrite Hcanon; reflexivity).
  split; [reflexivity|].
  split; [rewrite Hd, !length_app; lia|].
  split; [rewrite Hd, !forallb_app, Db, Da, Dc; reflexivity|].
  split; [apply (slice_prefix _ 70)|].
  split; [|split; reflexivity].
  rewrite (slice_prefix _ 70), length_firstn. lia.
Qed.

Lemma generateQRCodeData_fields_witness :
  BankAccount.isValidBankAccount
    (QRCode.bankAccount (Samples.sampleParams (ofZ 3500) (lit "03/02"))) = true
  /\ exists q,
       QRCode.generateQRCodeData Worker
         (Samples.sampleParams (ofZ 3500) (lit "03/02")) = Ok q
       /\ QRCode.R q = lit "160000000054891267".
Proof.
  split; [reflexivity|].
  destruct (generateQRCodeData_fields Worker
              (Samples.sampleParams (ofZ 3500) (lit "03/02")) eq_refl)
    as (q & r & Hq & Hr & HR & _).
  exists q. split; [exact Hq|].
  rewrite HR. vm_compute in Hr. injection Hr as <-. reflexivity.
Defined.

End QRPayloadFacts.

(* ================================================================== *)
(** * The document: contents of the slips, pages, failures *)
(* ================================================================== *)

Module PdfDocumentFacts.
Import PdfGenerator.

Definition isAccountText (f : Field) : bool :=
  match f with AccountText => true | _ => false end.
Definition isAmountText (f : Field) : bool :=
  match f with AmountText => true | _ => false end.
Definition isReferenceText (f : Field) : bool :=
  match f with ReferenceText => true | _ => false end.

(** The images drawn on a slip. *)
Definition imagesOf (s : Slip) : list Buffer :=
  flat_map (fun it => match it with Image _ b => [b] | _ => [] end) (slipItems s).

(** [String(x).padStart(2, "0")] *)
Definition pad2 (x : Z) : jsstring := padStart (intToString x) 2 (lit "0").

Lemma pad2_isDigit_nonneg (x : Z) :
  (0 <= x)%Z -> forallb isDigit (pad2 x) = true.
Proof.
  intros Hx. unfold pad2. change (lit "0") with [zeroChar].
  rewrite (padStart_single _ 2 zeroChar), forallb_app.
  rewrite BankAccountFacts.forallb_repeat by reflexivity.
  rewrite (PdfFilenameFacts.intToString_nonneg x Hx).
  apply natToString_isDigit.
Qed.

(** What is printed on a drawn slip, read off its items. *)
Lemma rendered_contents (v : Variant) (h : Host) (building : Building)
    (month : Z) (s : Slip) :
  PdfFacts.rendered v h building month s ->
  exists acct,
    BankAccount.formatForDisplay (bank_account building) = Ok acct
    /\ textsOf isAccountText s = [acct]
    /\ textsOf isAmountText s
       = [toLocaleString h (orElse (override_amount (slipApartment s))
                                   (default_amount building))]
    /\ textsOf isReferenceText s
       = [generateReferenceNumber v (apartment_number (slipApartment s)) month]
    /\ imagesOf s = match slipQR s with Some b => [b] | None => [] end.
Proof.
  unfold PdfFacts.rendered, slipItemsOf, slipItemsEarly, slipItemsCurrent,
    cutLine, textsOf, imagesOf.
  intros H.
  destruct v;
    try (destruct (fontBoldExists h); [|discriminate H]);
    cbn [bind] in H;
    (destruct (BankAccount.formatForDisplay (bank_account building))
       as [acct|err]; [|discriminate H]);
    cbn [bind] in H;
    (destruct (slipQR s) as [image|];
     [destruct (openImage h image) as [[]|err]; [|discriminate H]|]);
    cbn [bind] in H; injection H as H; rewrite <- H; exists acct;
    destruct (slipIndex s <? 2)%nat; repeat split.
Qed.

(** The QR result kept for the slip at position [i] is the answer to the
    request built from that slip's own apartment. *)
Lemma slip_request (v : Variant) (h : Host) (apartments : list Apartment)
    (building : Building) (month year : Z) (doc : PDFDoc) (i : nat) (s : Slip) :
  BankAccount.isValidBankAccount (bank_account building) = true ->
  PdfFacts.DocInv v h building month (sortByNumber apartments)
    (fetchQRCodes v h 0 (sortByNumber apartments) building month year)
    doc (length apartments) ->
  nth_error (slipsOf doc) i = Some s ->
  exists q,
    QRCode.paymentQRData v (slipApartment s) building month = Ok q
    /\ slipQR s = match fetchQRCode h i q (qrRequestSize v) with
                  | Ok b => Some b
                  | Throw _ => None
                  end.
Proof.
  intros Hvalid Hinv Hnth.
  pose proof (SortFacts.sortByNumber_length apartments) as Hlen.
  rewrite <- Hlen in Hinv. destruct Hinv as [Ha Hq _ _ _ _ _ _].
  rewrite firstn_all in Ha.
  rewrite <- (PdfFacts.fetchQRCodes_length v h 0 (sortByNumber apartments)
                building month year) in Hq.
  rewrite firstn_all in Hq.
  assert (Hapt : nth_error (sortByNumber apartments) i = Some (slipApartment s))
    by (rewrite <- Ha, nth_error_map, Hnth; reflexivity).
  assert (Hqr : nth_error (fetchQRCodes v h 0 (sortByNumber apartments)
                             building month year) i = Some (slipQR s))
    by (rewrite <- Hq, nth_error_map, Hnth; reflexivity).
  rewrite (@PdfFacts.fetchQRCodes_nth v h 0 _ building month year i _ Hapt) in Hqr.
  injection Hqr as Hqr. cbn [Nat.add] in Hqr.
  destruct (@PdfFacts.paymentQRData_ok v (slipApartment s) building month Hvalid)
    as [q Hdata].
  exists q. split; [exact Hdata|].
  unfold QRService.generatePaymentQRCode in Hqr.
  rewrite Hdata in Hqr. cbn [bind] in Hqr. symmetry. exact Hqr.
Qed.

(** X5.  Every slip and the QR payload requested for it say the same
    thing: the account printed is the display form of the account whose 18
    digits are in [R]; the amount printed and the amount in [I] are
    formatted from the same number, the apartment's override when it is set
    and non-zero, the building default otherwise; the reference printed is
    the zero-padded apartment number and month around the delimiter, and
    [RO] is the same digits without it.  The month and the apartment
    numbers are non-negative safe integers. *)
Theorem slip_agrees_with_payload (v : Variant) (h : Host)
    (apartments : list Apartment) (building : Building) (month year : Z) :
  PdfFacts.fontAvailable v h ->
  BankAccount.isValidBankAccount (bank_account building) = true ->
  PdfFacts.printable apartments month ->
  PdfFacts.bodiesDecode v h ->
  PdfFacts.textsFit v h apartments building month ->
  (0 <= month)%Z ->
  Forall (fun a => 0 <= apartment_number a)%Z apartments ->
  exists doc r,
    generatePaymentSlipsPDF v h apartments building month year = Ok doc
    /\ length (slipsOf doc) = length apartments
    /\ BankAccount.parseBankAccount (bank_account building) = Ok r
    /\ forall s, In s (slipsOf doc) ->
         exists q,
           QRCode.paymentQRData v (slipApartment s) building month = Ok q
           /\ textsOf isAccountText s = [BankAccount.formatted r]
           /\ QRCode.R q = BankAccount.digits r
           /\ textsOf isAmountText s
              = [toLocaleString h (orElse (override_amount (slipApartment s))
                                          (default_amount building))]
           /\ QRCode.I q
              = QRCode.formatAmount (orElse (override_amount (slipApartment s))
                                            (default_amount building))
           /\ textsOf isReferenceText s
              = [pad2 (apartment_number (slipApartment s))
                 ++ referenceDelimiter v ++ pad2 month]
           /\ QRCode.RO q
              = pad2 (apartment_number (slipApartment s)) ++ pad2 month.
Proof.
  intros Hfont Hvalid _ Hdec Hfit Hmonth Hnums.
  destruct (@PdfFacts.generatePaymentSlipsPDF_resolves v h apartments building
              month year Hfont Hvalid Hdec Hfit) as (doc & Hgen & Hinv).
  destruct (@QRCodeFacts.valid_parses _ Hvalid) as [r Hr].
  exists doc, r. split; [exact Hgen|].
  pose proof Hinv as [Ha _ _ Hrend _ _ _ _].
  rewrite <- (SortFacts.sortByNumber_length apartments) in Ha.
  rewrite firstn_all in Ha.
  split.
  { rewrite <- (length_map slipApartment), Ha.
    apply SortFacts.sortByNumber_length. }
  split; [exact Hr|].
  intros s Hin.
  assert (Hnum : (0 <= apartment_number (slipApartment s))%Z).
  { rewrite Forall_forall in Hnums. apply Hnums.
    eapply Permutation_in; [apply SortFacts.sortByNumber_perm|].
    rewrite <- Ha. apply in_map. exact Hin. }
  rewrite Forall_forall in Hrend.
  destruct (rendered_contents v h building month s (Hrend s Hin))
    as (acct & Hacct & Tacc & Tamt & Tref & _).
  unfold BankAccount.formatForDisplay in Hacct. rewrite Hr in Hacct.
  cbn [bind] in Hacct. injection Hacct as <-.
  unfold QRCode.paymentQRData, QRCode.generateQRCodeData,
    BankAccount.formatForQR, QRCode.paymentParams.
  cbn [QRCode.bankAccount]. rewrite Hr. cbn [bind].
  eexists. split; [reflexivity|].
  cbn [QRCode.R QRCode.I QRCode.RO QRCode.amount QRCode.referenceNumber].
  split; [exact Tacc|]. split; [reflexivity|]. split; [exact Tamt|].
  split; [reflexivity|]. split; [exact Tref|].
  apply (QRCodeFacts.formatReference_digits v);
    apply pad2_isDigit_nonneg; assumption.
Qed.

Lemma slip_agrees_with_payload_witness :
  PdfFacts.fontAvailable Worker Samples.sampleHost
  /\ BankAccount.isValidBankAccount (bank_account Samples.sampleBuilding) = true
  /\ PdfFacts.printable Samples.sampleApartments 2
  /\ PdfFacts.bodiesDecode Worker Samples.sampleHost
  /\ PdfFacts.textsFit Worker Samples.sampleHost Samples.sampleApartments
       Samples.sampleBuilding 2
  /\ (0 <= 2)%Z
  /\ Forall (fun a => 0 <= apartment_number a)%Z Samples.sampleApartments
  /\ exists doc,
       generatePaymentSlipsPDF Worker Samples.sampleHost Samples.sampleApartments
         Samples.sampleBuilding 2 2025 = Ok doc
       /\ map (textsOf isReferenceText) (slipsOf doc)
          = [[lit "03-02"]; [lit "05-02"]; [lit "07-02"]; [lit "12-02"]].
Proof.
  assert (Hnums : Forall (fun a => 0 <= apartment_number a)%Z
                         Samples.sampleApartments)
    by (repeat constructor; simpl; lia).
  pose proof (@PdfFacts.samples_printable _ PdfFacts.incl_tail_samples)
    as Hprint.
  pose proof (PdfFacts.sampleHost_bodiesDecode Worker) as Hdec.
  pose proof (@PdfFacts.sampleHost_textsFit Worker _
                PdfFacts.incl_tail_samples) as Hfit.
  split; [exact Logic.I|]. split; [reflexivity|]. split; [exact Hprint|].
  split; [exact Hdec|]. split; [exact Hfit|]. split; [lia|].
  split; [exact Hnums|].
  destruct (slip_agrees_with_payload Worker Samples.sampleHost
              Samples.sampleApartments Samples.sampleBuilding 2 2025
              Logic.I eq_refl Hprint Hdec Hfit ltac:(lia) Hnums)
    as (doc & r & Hgen & _).
  exists doc. split; [exact Hgen|].
  vm_compute in Hgen. injection Hgen as <-. reflexivity.
Defined.

(** A slip found at place [k] of page [p] is the slip number [3 * p + k]
    of the document when the pages before the last are full. *)
Lemma nth_error_pages (fin : list Page) (cur : Page) (p k : nat)
    (page : Page) (s : Slip) :
  Forall (fun q : Page => length q = 3%nat) fin ->
  nth_error (fin ++ [cur]) p = Some page ->
  nth_error page k = Some s ->
  nth_error (concat (fin ++ [cur])) (3 * p + k) = Some s.
Proof.
  intros Hfull. revert p.
  induction Hfull as [|q fin Hq _ IH]; intros p Hp Hk.
  - destruct p as [|p]; cbn [app nth_error] in Hp.
    + injection Hp as <-. cbn [app concat]. rewrite app_nil_r.
      replace (3 * 0 + k)%nat with k by lia. exact Hk.
    + destruct p; discriminate Hp.
  - destruct p as [|p]; cbn [app nth_error concat] in *.
    + injection Hp as <-. replace (3 * 0 + k)%nat with k by lia.
      rewrite nth_error_app1; [exact Hk|].
      apply nth_error_Some. congruence.
    + rewrite nth_error_app2 by lia.
      replace (3 * S p + k - length q)%nat with (3 * p + k)%nat by lia.
      apply IH; assumption.
Qed.

(** X6.  For any list of apartments, also with repeated numbers or empty,
    the document holds the apartments in non-decreasing number order; every
    page before the last holds exactly three slips and the last one the
    rest, between one and three unless the list is empty, when the document
    is a single blank page; the slip at place [k] of page [p] is slip
    [3 * p + k] of the document and is drawn in slot [k], its border and
    all its other drawing calls positioned in that band; PDFKit opens no
    page of its own.  The document is produced when the fonts are in
    place, the building account parses, the bodies returned by the QR
    endpoint decode and no text passes the bottom of its page. *)
Theorem generatePaymentSlipsPDF_page_layout (v : Variant) (h : Host)
    (apartments : list Apartment) (building : Building) (month year : Z) :
  PdfFacts.fontAvailable v h ->
  BankAccount.isValidBankAccount (bank_account building) = true ->
  PdfFacts.printable apartments month ->
  PdfFacts.bodiesDecode v h ->
  PdfFacts.textsFit v h apartments building month ->
  exists doc,
    generatePaymentSlipsPDF v h apartments building month year = Ok doc
    /\ Permutation (map slipApartment (slipsOf doc)) apartments
    /\ StronglySorted Z.le
         (map apartment_number (map slipApartment (slipsOf doc)))
    /\ Forall (fun p : Page => length p = 3%nat) (finishedPages doc)
    /\ autoPages doc = 0%nat
    /\ pageCount doc = Nat.max 1 ((length apartments + 2) / 3)
    /\ length (pages doc) = Nat.max 1 ((length apartments + 2) / 3)
    /\ (length (currentPage doc)
        = length apartments - 3 * length (finishedPages doc))%nat
    /\ (apartments <> [] -> (1 <= length (currentPage doc) <= 3)%nat)
    /\ (apartments = [] -> pages doc = [[]])
    /\ (forall p k page s,
          nth_error (pages doc) p = Some page ->
          nth_error page k = Some s ->
          nth_error (slipsOf doc) (3 * p + k) = Some s
          /\ slipIndex s = k
          /\ In (Stroke k OuterBorder) (slipItems s)
          /\ Forall (fun it => itemSlot it = k) (slipItems s)).
Proof.
  intros Hfont Hvalid _ Hdec Hfit.
  destruct (@PdfFacts.generatePaymentSlipsPDF_resolves v h apartments building
              month year Hfont Hvalid Hdec Hfit) as (doc & Hgen & Hinv).
  exists doc. split; [exact Hgen|].
  destruct Hinv as [Ha _ Hi Hr Hfull Hfin Hcur Hauto].
  rewrite <- (SortFacts.sortByNumber_length apartments) in Ha.
  rewrite firstn_all in Ha.
  assert (Hcur3 : (length (currentPage doc) <= 3)%nat)
    by (destruct (Nat.eqb_spec (length apartments) 0); lia).
  assert (Hpages : length (pages doc)
                   = Nat.max 1 ((length apartments + 2) / 3))
    by (unfold pages; rewrite length_app, Hfin; cbn [length]; lia).
  split; [rewrite Ha; apply SortFacts.sortByNumber_perm|].
  split; [rewrite Ha; apply SortFacts.sortByNumber_sorted|].
  split; [exact Hfull|]. split; [exact Hauto|].
  split; [unfold pageCount; rewrite Hauto, Hpages; lia|].
  split; [exact Hpages|].
  split; [rewrite Hfin; destruct (Nat.eqb_spec (length apartments) 0); lia|].
  split.
  { intros Hne. destruct apartments as [|a l]; [contradiction|].
    cbn [length] in Hcur. cbn [Nat.eqb] in Hcur. lia. }
  split.
  { intros ->. cbn [length] in Hfin, Hcur. cbn [Nat.eqb] in Hcur.
    unfold pages.
    destruct (finishedPages doc); [|discriminate Hfin].
    destruct (currentPage doc); [reflexivity | discriminate Hcur]. }
  intros p k page s Hp Hk.
  assert (Hnth : nth_error (slipsOf doc) (3 * p + k) = Some s)
    by (unfold slipsOf, pages in *; eapply nth_error_pages; eassumption).
  split; [exact Hnth|].
  assert (Hlt : (k < length page)%nat) by (apply nth_error_Some; congruence).
  assert (Hpage : (length page <= 3)%nat).
  { apply nth_error_In in Hp. unfold pages in Hp.
    apply in_app_or in Hp. destruct Hp as [Hp | [<- | []]]; [|exact Hcur3].
    rewrite Forall_forall in Hfull. rewrite (Hfull _ Hp). lia. }
  assert (Hidx : slipIndex s = k).
  { rewrite (@PdfFacts.index_of_nth _ _ _ _ Hi Hnth). lia. }
  rewrite Forall_forall in Hr.
  destruct (@PdfFacts.rendered_slots v h building month s
              (Hr s (nth_error_In _ _ Hnth))) as [Hb Hs].
  rewrite Hidx in Hb, Hs. repeat split; assumption.
Qed.

Lemma generatePaymentSlipsPDF_page_layout_witness :
  PdfFacts.fontAvailable Backend Samples.sampleHost
  /\ BankAccount.isValidBankAccount (bank_account Samples.sampleBuilding) = true
  /\ PdfFacts.printable (Samples.sampleApartments ++ Samples.sampleApartments) 2
  /\ PdfFacts.bodiesDecode Backend Samples.sampleHost
  /\ PdfFacts.textsFit Backend Samples.sampleHost
       (Samples.sampleApartments ++ Samples.sampleApartments)
       Samples.sampleBuilding 2
  /\ exists doc,
       generatePaymentSlipsPDF Backend Samples.sampleHost
         (Samples.sampleApartments ++ Samples.sampleApartments)
         Samples.sampleBuilding 2 2025 = Ok doc
       /\ map (map (fun s => apartment_number (slipApartment s))) (pages doc)
          = [[3; 3; 5]; [5; 7; 7]; [12; 12]]%Z
       /\ pageCount doc = 3%nat.
Proof.
  assert (Hincl : incl (Samples.sampleApartments ++ Samples.sampleApartments)
                       (Samples.sampleApartment 5 1 2 :: Samples.sampleApartments))
    by (apply incl_app; exact PdfFacts.incl_tail_samples).
  pose proof (@PdfFacts.samples_printable _ Hincl) as Hprint.
  pose proof (PdfFacts.sampleHost_bodiesDecode Backend) as Hdec.
  pose proof (@PdfFacts.sampleHost_textsFit Backend _ Hincl) as Hfit.
  split; [split; reflexivity|]. split; [reflexivity|]. split; [exact Hprint|].
  split; [exact Hdec|]. split; [exact Hfit|].
  destruct (generatePaymentSlipsPDF_page_layout Backend Samples.sampleHost
              (Samples.sampleApartments ++ Samples.sampleApartments)
              Samples.sampleBuilding 2 2025 (conj eq_refl eq_refl) eq_refl
              Hprint Hdec Hfit)
    as (doc & Hgen & _).
  exists doc. split; [exact Hgen|].
  vm_compute in Hgen. injection Hgen as <-. split; reflexivity.
Defined.

(** With an account that does not parse, the payload of no apartment can be
    built and the first slip cannot be drawn. *)
Lemma generatePaymentSlipsPDF_rejects (v : Variant) (h : Host)
    (apartments : list Apartment) (building : Building) (month year : Z)
    (e : JsError) :
  PdfFacts.fontAvailable v h ->
  apartments <> [] ->
  BankAccount.parseBankAccount (bank_account building) = Throw e ->
  generatePaymentSlipsPDF v h apartments building month year = Throw e.
Proof.
  intros Hfont Hne Hparse. unfold generatePaymentSlipsPDF.
  assert (Hcheck : match v with
                   | Backend => negb (fontRegularExists h)
                   | _ => false
                   end = false).
  { destruct v; try reflexivity. destruct Hfont as [-> _]. reflexivity. }
  rewrite Hcheck. cbv zeta.
  pose proof (SortFacts.sortByNumber_length apartments) as Hlen.
  destruct (sortByNumber apartments) as [|apt rest] eqn:Hsorted.
  { destruct apartments; [contradiction | discriminate Hlen]. }
  cbn [length drawSlips nth_error Nat.ltb Nat.leb andb].
  unfold drawPaymentSlip, slipItemsOf, slipItemsEarly, slipItemsCurrent,
    BankAccount.formatForDisplay.
  rewrite Hparse.
  destruct v; try reflexivity.
  destruct Hfont as [_ ->]. reflexivity.
Qed.

Lemma fetchQRCodes_without_account (v : Variant) (h : Host) (i : nat)
    (sorted : list Apartment) (building : Building) (month year : Z)
    (e : JsError) :
  BankAccount.parseBankAccount (bank_account building) = Throw e ->
  fetchQRCodes v h i sorted building month year = repeat None (length sorted).
Proof.
  intros Hparse. revert i.
  induction sorted as [|apt rest IH]; intros i; [reflexivity|].
  cbn [fetchQRCodes length repeat]. rewrite IH. f_equal.
  unfold QRService.generatePaymentQRCode, QRCode.paymentQRData,
    QRCode.generateQRCodeData, BankAccount.formatForQR, QRCode.paymentParams.
  cbn [QRCode.bankAccount]. rewrite Hparse. reflexivity.
Qed.

(** X7.  When the building's account does not parse and there is at least
    one apartment, every QR generation of the batch fails before a request
    is made, whatever the host would answer, and the generator rejects with
    the parser's error while drawing the first slip. *)
Theorem generatePaymentSlipsPDF_invalid_account (v : Variant) (h : Host)
    (apartments : list Apartment) (building : Building) (month year : Z) :
  PdfFacts.fontAvailable v h ->
  apartments <> [] ->
  BankAccount.isValidBankAccount (bank_account building) = false ->
  exists e,
    BankAccount.parseBankAccount (bank_account building) = Throw e
    /\ generatePaymentSlipsPDF v h apartments building month year = Throw e
    /\ (forall h', fetchQRCodes v h' 0 (sortByNumber apartments) building
                     month year
                   = repeat None (length apartments))
    /\ (forall i apt size,
          QRService.generatePaymentQRCode v h i apt building month year size
          = Throw e).
Proof.
  intros Hfont Hne Hinvalid.
  unfold BankAccount.isValidBankAccount in Hinvalid.
  destruct (BankAccount.parseBankAccount (bank_account building))
    as [r|e] eqn:Hparse; [discriminate Hinvalid|].
  exists e. split; [reflexivity|].
  split; [apply generatePaymentSlipsPDF_rejects; assumption|].
  split.
  - intros h'. rewrite (fetchQRCodes_without_account v h' 0 _ _ _ _ _ Hparse).
    rewrite SortFacts.sortByNumber_length. reflexivity.
  - intros i apt size.
    unfold QRService.generatePaymentQRCode, QRCode.paymentQRData,
      QRCode.generateQRCodeData, BankAccount.formatForQR, QRCode.paymentParams.
    cbn [QRCode.bankAccount]. rewrite Hparse. reflexivity.
Qed.

(** The building [b] with another account. *)
Definition withAccount (b : Building) (account : jsstring) : Building :=
  {| address := address b;
     city := city b;
     bank_account := account;
     default_amount := default_amount b;
     recipient_name := recipient_name b;
     payment_purpose := payment_purpose b |}.

Lemma generatePaymentSlipsPDF_invalid_account_witness :
  PdfFacts.fontAvailable Worker Samples.sampleHost
  /\ Samples.sampleApartments <> []
  /\ BankAccount.isValidBankAccount
       (bank_account (withAccount Samples.sampleBuilding (lit "160-54")))
     = false
  /\ generatePaymentSlipsPDF Worker Samples.sampleHost Samples.sampleApartments
       (withAccount Samples.sampleBuilding (lit "160-54")) 2 2025
     = Throw BankAccount.errFormat.
Proof.
  assert (Hne : Samples.sampleApartments <> []) by discriminate.
  split; [exact Logic.I|]. split; [exact Hne|]. split; [reflexivity|].
  destruct (generatePaymentSlipsPDF_invalid_account Worker Samples.sampleHost
              Samples.sampleApartments
              (withAccount Samples.sampleBuilding (lit "160-54")) 2 2025
              Logic.I Hne eq_refl) as (e & Hparse & Hgen & _).
  vm_compute in Hparse. injection Hparse as <-. exact Hgen.
Defined.

(** X8.  The image on a slip is the answer to the request made for that
    slip's own apartment: slip [i] shows the apartment at position [i] of
    the sorted list; it carries, in its own band, exactly the image
    returned by request [i], whose payload is built from that apartment,
    and no image when that request failed, whatever other requests
    failed.  The bodies that are returned decode. *)
Theorem slip_image_is_own_request (v : Variant) (h : Host)
    (apartments : list Apartment) (building : Building) (month year : Z) :
  PdfFacts.fontAvailable v h ->
  BankAccount.isValidBankAccount (bank_account building) = true ->
  PdfFacts.printable apartments month ->
  PdfFacts.bodiesDecode v h ->
  PdfFacts.textsFit v h apartments building month ->
  exists doc,
    generatePaymentSlipsPDF v h apartments building month year = Ok doc
    /\ length (slipsOf doc) = length apartments
    /\ forall i s, nth_error (slipsOf doc) i = Some s ->
         nth_error (sortByNumber apartments) i = Some (slipApartment s)
         /\ exists q,
              QRCode.paymentQRData v (slipApartment s) building month = Ok q
              /\ imagesOf s
                 = match fetchQRCode h i q (qrRequestSize v) with
                   | Ok image => [image]
                   | Throw _ => []
                   end
              /\ hasImage s = isOk (fetchQRCode h i q (qrRequestSize v))
              /\ (forall image, In image (imagesOf s) ->
                    In (Image (i mod 3) image) (slipItems s)
                    /\ openImage h image = Ok tt).
Proof.
  intros Hfont Hvalid _ Hdec Hfit.
  destruct (@PdfFacts.generatePaymentSlipsPDF_resolves v h apartments building
              month year Hfont Hvalid Hdec Hfit) as (doc & Hgen & Hinv).
  exists doc. split; [exact Hgen|].
  split.
  { rewrite <- (SortFacts.sortByNumber_length apartments) in Hinv.
    rewrite (@PdfFacts.DocInv_slips_length _ _ _ _ _ _ _ Hinv).
    apply SortFacts.sortByNumber_length. }
  intros i s Hnth.
  destruct (slip_request v h apartments building month year doc i s
              Hvalid Hinv Hnth) as (q & Hdata & Hqr).
  destruct Hinv as [Ha _ Hi Hrend _ _ _ _].
  rewrite <- (SortFacts.sortByNumber_length apartments) in Ha.
  rewrite firstn_all in Ha.
  split; [rewrite <- Ha, nth_error_map, Hnth; reflexivity|].
  exists q. split; [exact Hdata|].
  rewrite Forall_forall in Hrend.
  pose proof (Hrend s (nth_error_In _ _ Hnth)) as Hs.
  pose proof (@PdfFacts.index_of_nth _ _ _ _ Hi Hnth) as Hidx.
  pose proof (@PdfFacts.rendered_opens v h building month s Hs) as Hopen.
  destruct (@PdfFacts.rendered_slots v h building month s Hs) as [_ Hslots].
  destruct (rendered_contents v h building month s Hs)
    as (_ & _ & _ & _ & _ & Himg).
  rewrite (@PdfFacts.rendered_hasImage v h building month s Hs), Himg, Hqr.
  rewrite Hqr in Hopen.
  assert (Hin : forall image, In image (imagesOf s) ->
                              In (Image (i mod 3) image) (slipItems s)).
  { intros image Him. unfold imagesOf in Him. apply in_flat_map in Him.
    destruct Him as (it & Hit & Him).
    rewrite Forall_forall in Hslots. pose proof (Hslots it Hit) as Hslot.
    destruct it as [sl sh | sl f c | sl b | x1 x2 sl]; try contradiction.
    destruct Him as [<- | []]. cbn [itemSlot] in Hslot.
    rewrite <- Hidx, <- Hslot. exact Hit. }
  rewrite Himg, Hqr in Hin.
  destruct (fetchQRCode h i q (qrRequestSize v)) as [body|err];
    (split; [reflexivity|]); (split; [reflexivity|]);
    intros image Him; (split; [exact (Hin image Him)|]).
  - destruct Him as [<- | []]. exact Hopen.
  - destruct Him.
Qed.

Lemma slip_image_is_own_request_witness :
  PdfFacts.fontAvailable Backend Samples.sampleHost
  /\ BankAccount.isValidBankAccount (bank_account Samples.sampleBuilding) = true
  /\ PdfFacts.printable Samples.sampleApartments 2
  /\ PdfFacts.bodiesDecode Backend Samples.sampleHost
  /\ PdfFacts.textsFit Backend Samples.sampleHost Samples.sampleApartments
       Samples.sampleBuilding 2
  /\ exists doc,
       generatePaymentSlipsPDF Backend Samples.sampleHost
         Samples.sampleApartments Samples.sampleBuilding 2 2025 = Ok doc
       /\ map imagesOf (slipsOf doc)
          = [[Samples.samplePng]; []; [Samples.samplePng];
             [Samples.samplePng]].
Proof.
  pose proof (@PdfFacts.samples_printable _ PdfFacts.incl_tail_samples)
    as Hprint.
  pose proof (PdfFacts.sampleHost_bodiesDecode Backend) as Hdec.
  pose proof (@PdfFacts.sampleHost_textsFit Backend _
                PdfFacts.incl_tail_samples) as Hfit.
  split; [split; reflexivity|]. split; [reflexivity|]. split; [exact Hprint|].
  split; [exact Hdec|]. split; [exact Hfit|].
  destruct (slip_image_is_own_request Backend Samples.sampleHost
              Samples.sampleApartments Samples.sampleBuilding 2 2025
              (conj eq_refl eq_refl) eq_refl Hprint Hdec Hfit)
    as (doc & Hgen & _).
  exists doc. split; [exact Hgen|].
  vm_compute in Hgen. injection Hgen as <-. reflexivity.
Defined.

(** A slip whose QR buffer [doc.image] refuses cannot be drawn. *)
Lemma slipItemsOf_bad_image (v : Variant) (h : Host) (apt : Apartment)
    (building : Building) (month : Z) (idx : nat) (body : Buffer)
    (e0 : JsError) :
  openImage h body = Throw e0 ->
  exists e, slipItemsOf v h apt building month idx (Some body) = Throw e.
Proof.
  intros Hopen. unfold slipItemsOf, slipItemsEarly, slipItemsCurrent.
  destruct v; try destruct (fontBoldExists h); cbn [bind];
    destruct (BankAccount.formatForDisplay (bank_account building));
    cbn [bind]; rewrite ?Hopen; cbn [bind]; eexists; reflexivity.
Qed.

(** The loop stops with an exception at the latest when it reaches a QR
    buffer that does not decode. *)
Lemma drawSlips_bad_image (v : Variant) (h : Host) (building : Building)
    (month year : Z) (sorted : list Apartment) (qrs : list (option Buffer))
    (k : nat) (body : Buffer) (e0 : JsError) :
  nth_error qrs k = Some (Some body) ->
  openImage h body = Throw e0 ->
  forall (remaining i : nat) (doc : PDFDoc),
    (i <= k < i + remaining)%nat ->
    exists e,
      drawSlips v h doc sorted qrs building month year i remaining = Throw e.
Proof.
  intros Hk Hopen. induction remaining as [|r IH]; intros i doc Hi; [lia|].
  cbn [drawSlips].
  destruct (nth_error sorted i) as [apt|]; [|eexists; reflexivity].
  destruct (Nat.eq_dec i k) as [-> | Hne].
  - rewrite Hk. unfold drawPaymentSlip.
    destruct (slipItemsOf_bad_image v h apt building month (k mod 3) body
                e0 Hopen) as [e He].
    rewrite He. eexists. reflexivity.
  - destruct (drawPaymentSlip v h _ apt building month year (i mod 3) _)
      as [doc2|e]; cbn [bind]; [|eexists; reflexivity].
    apply IH. lia.
Qed.

(** A host as [sampleHost] whose QR endpoint returns the first four bytes
    of a PNG file only. *)
Definition truncatedBody : Buffer := [137; 80; 78; 71]%N.
Definition truncatingHost : Host :=
  {| fetchQRCode := fun _ _ _ => Ok truncatedBody;
     toLocaleString := toLocaleString Samples.sampleHost;
     fontRegularExists := true;
     fontBoldExists := true;
     openImage := openImage Samples.sampleHost;
     pageBreaks := pageBreaks Samples.sampleHost |}.

(** X16.  When the QR endpoint answers a request of the batch with a body
    that [doc.image] cannot decode, the generator does not fall back to a
    slip without image: the promise rejects and the route answers 500.
    When it is the body for the first slip and the fonts are in place, the
    promise rejects with the error of [doc.image].  The month and the
    apartments' numbers are safe integers. *)
Theorem generatePaymentSlipsPDF_undecodable_image (v : Variant) (h : Host)
    (apartments : list Apartment) (building : Building) (month year : Z)
    (k : nat) (apt : Apartment) (q : QRCode.QRData) (body : Buffer)
    (e0 : JsError) :
  PdfFacts.printable apartments month ->
  nth_error (sortByNumber apartments) k = Some apt ->
  QRCode.paymentQRData v apt building month = Ok q ->
  fetchQRCode h k q (qrRequestSize v) = Ok body ->
  openImage h body = Throw e0 ->
  (exists e,
     generatePaymentSlipsPDF v h apartments building month year = Throw e)
  /\ BillingsRoute.getPdf v h (Some building) apartments month year
     = BillingsRoute.JsonError 500 (lit "Greska prilikom generisanja PDF-a")
  /\ (PdfFacts.fontAvailable v h -> k = 0%nat ->
      generatePaymentSlipsPDF v h apartments building month year = Throw e0).
Proof.
  intros _ Hapt Hdata Hfetch Hopen.
  assert (Hqr : nth_error (fetchQRCodes v h 0 (sortByNumber apartments)
                             building month year) k = Some (Some body)).
  { rewrite (@PdfFacts.fetchQRCodes_nth v h 0 _ building month year k _ Hapt).
    cbn [Nat.add]. unfold QRService.generatePaymentQRCode.
    rewrite Hdata. cbn [bind]. rewrite Hfetch. reflexivity. }
  assert (Hk : (k < length (sortByNumber apartments))%nat)
    by (apply nth_error_Some; congruence).
  assert (Hthrow : exists e,
             generatePaymentSlipsPDF v h apartments building month year
             = Throw e).
  { unfold generatePaymentSlipsPDF.
    destruct (match v with
              | Backend => negb (fontRegularExists h)
              | _ => false
              end); [eexists; reflexivity|].
    cbv zeta. eapply drawSlips_bad_image; [exact Hqr | exact Hopen | lia]. }
  split; [exact Hthrow|]. split.
  - unfold BillingsRoute.getPdf.
    destruct (Nat.eqb_spec (length apartments) 0) as [E|_].
    { rewrite SortFacts.sortByNumber_length, E in Hk. lia. }
    destruct Hthrow as [e ->]. reflexivity.
  - intros Hfont ->.
    unfold generatePaymentSlipsPDF.
    replace (match v with
             | Backend => negb (fontRegularExists h)
             | _ => false
             end) with false
      by (destruct v; try reflexivity; destruct Hfont as [-> _]; reflexivity).
    cbv zeta.
    destruct (length (sortByNumber apartments)) as [|n]; [lia|].
    cbn [drawSlips Nat.ltb Nat.leb andb]. rewrite Hapt, Hqr.
    assert (Hacct : exists acct,
               BankAccount.formatForDisplay (bank_account building) = Ok acct).
    { unfold QRCode.paymentQRData, QRCode.generateQRCodeData,
        BankAccount.formatForQR, QRCode.paymentParams in Hdata.
      cbn [QRCode.bankAccount] in Hdata.
      unfold BankAccount.formatForDisplay.
      destruct (BankAccount.parseBankAccount (bank_account building))
        as [r|err]; [|discriminate Hdata].
      eexists. reflexivity. }
    destruct Hacct as [acct Hacct].
    unfold drawPaymentSlip, slipItemsOf, slipItemsEarly, slipItemsCurrent.
    rewrite Hacct, Hopen.
    destruct v; try reflexivity.
    destruct Hfont as [_ ->]. reflexivity.
Qed.

Lemma generatePaymentSlipsPDF_undecodable_image_witness :
  exists q,
    PdfFacts.printable Samples.sampleApartments 2
    /\ nth_error (sortByNumber Samples.sampleApartments) 0
    = Some (Samples.sampleApartment 3 1 1)
    /\ QRCode.paymentQRData Worker (Samples.sampleApartment 3 1 1)
         Samples.sampleBuilding 2 = Ok q
    /\ fetchQRCode truncatingHost 0 q (qrRequestSize Worker) = Ok truncatedBody
    /\ openImage truncatingHost truncatedBody
       = Throw (Error (lit "Unknown image format."))
    /\ generatePaymentSlipsPDF Worker truncatingHost Samples.sampleApartments
         Samples.sampleBuilding 2 2025
       = Throw (Error (lit "Unknown image format."))
    /\ BillingsRoute.getPdf Worker truncatingHost (Some Samples.sampleBuilding)
         Samples.sampleApartments 2 2025
       = BillingsRoute.JsonError 500 (lit "Greska prilikom generisanja PDF-a").
Proof.
  pose proof (@PdfFacts.samples_printable _ PdfFacts.incl_tail_samples)
    as Hprint.
  eexists. split; [exact Hprint|]. split; [reflexivity|].
  split; [reflexivity|]. split; [reflexivity|]. split; [reflexivity|].
  destruct (generatePaymentSlipsPDF_undecodable_image Worker truncatingHost
              Samples.sampleApartments Samples.sampleBuilding 2 2025 0
              (Samples.sampleApartment 3 1 1) _ truncatedBody
              (Error (lit "Unknown image format."))
              Hprint eq_refl eq_refl eq_refl eq_refl)
    as (_ & Hroute & Hfirst).
  split; [exact (Hfirst Logic.I eq_refl) | exact Hroute].
Defined.

(** X9.  The answers of the PDF route.  With the fonts in place, bodies
    from the QR endpoint that decode and texts that stay on their page, the
    route answers with a document exactly when the building is configured,
    there is at least one apartment and the building's account parses, and
    the document then has one slip per apartment on [ceil(N / 3)] pages; it
    answers 400 exactly when the building is missing or there is no
    apartment, and 500 exactly when both are there and the account does not
    parse. *)
Theorem getPdf_answers (v : Variant) (h : Host) (building : option Building)
    (apartments : list Apartment) (month year : Z) :
  PdfFacts.fontAvailable v h ->
  PdfFacts.printable apartments month ->
  PdfFacts.bodiesDecode v h ->
  (forall b, building = Some b ->
             PdfFacts.textsFit v h apartments b month) ->
  match BillingsRoute.getPdf v h building apartments month year with
  | BillingsRoute.PdfResponse doc =>
      exists b,
        building = Some b /\ apartments <> []
        /\ BankAccount.isValidBankAccount (bank_account b) = true
        /\ generatePaymentSlipsPDF v h apartments b month year = Ok doc
        /\ length (slipsOf doc) = length apartments
        /\ pageCount doc = ((length apartments + 2) / 3)%nat
  | BillingsRoute.JsonError status _ =>
      (status = 400%Z /\ (building = None \/ apartments = []))
      \/ (status = 500%Z
          /\ exists b,
               building = Some b /\ apartments <> []
               /\ BankAccount.isValidBankAccount (bank_account b) = false)
  end.
Proof.
  intros Hfont _ Hdec Hfit. unfold BillingsRoute.getPdf.
  destruct building as [b|]; [|left; split; [reflexivity | left; reflexivity]].
  specialize (Hfit b eq_refl).
  destruct apartments as [|a l] eqn:Hap;
    [left; split; [reflexivity | right; reflexivity]|].
  rewrite <- Hap in *.
  assert (Hne : apartments <> []) by (rewrite Hap; discriminate).
  destruct (Nat.eqb_spec (length apartments) 0) as [E|_];
    [rewrite Hap in E; discriminate E|].
  destruct (BankAccount.isValidBankAccount (bank_account b)) eqn:Hvalid.
  - destruct (@PdfFacts.generatePaymentSlipsPDF_resolves v h apartments b
                month year Hfont Hvalid Hdec Hfit) as (doc & Hgen & Hinv).
    rewrite Hgen. exists b.
    rewrite <- (SortFacts.sortByNumber_length apartments) in Hinv.
    pose proof (@PdfFacts.DocInv_slips_length _ _ _ _ _ _ _ Hinv) as Hslips.
    destruct Hinv as [_ _ _ _ _ Hfin _ Hauto].
    rewrite (SortFacts.sortByNumber_length apartments) in Hslips, Hfin.
    repeat split; try assumption.
    unfold pageCount, pages. rewrite Hauto, length_app, Hfin. cbn [length].
    assert (0 < length apartments)%nat
      by (rewrite Hap; cbn [length]; lia).
    lia.
  - unfold BankAccount.isValidBankAccount in Hvalid.
    destruct (BankAccount.parseBankAccount (bank_account b)) as [r|e] eqn:Hparse;
      [discriminate Hvalid|].
    rewrite (generatePaymentSlipsPDF_rejects v h apartments b month year e
               Hfont Hne Hparse).
    right. split; [reflexivity|]. exists b.
    split; [reflexivity|]. split; [exact Hne|].
    unfold BankAccount.isValidBankAccount. rewrite Hparse. reflexivity.
Qed.

Lemma getPdf_answers_witness :
  PdfFacts.fontAvailable Worker Samples.sampleHost
  /\ PdfFacts.printable Samples.sampleApartments 2
  /\ PdfFacts.bodiesDecode Worker Samples.sampleHost
  /\ PdfFacts.textsFit Worker Samples.sampleHost Samples.sampleApartments
       Samples.sampleBuilding 2
  /\ exists doc,
       BillingsRoute.getPdf Worker Samples.sampleHost
         (Some Samples.sampleBuilding) Samples.sampleApartments 2 2025
       = BillingsRoute.PdfResponse doc
       /\ pageCount doc = 2%nat.
Proof.
  pose proof (@PdfFacts.samples_printable _ PdfFacts.incl_tail_samples)
    as Hprint.
  pose proof (PdfFacts.sampleHost_bodiesDecode Worker) as Hdec.
  pose proof (@PdfFacts.sampleHost_textsFit Worker _
                PdfFacts.incl_tail_samples) as Hfit.
  split; [exact Logic.I|]. split; [exact Hprint|]. split; [exact Hdec|].
  split; [exact Hfit|].
  assert (Hfit' : forall b, Some Samples.sampleBuilding = Some b ->
                            PdfFacts.textsFit Worker Samples.sampleHost
                              Samples.sampleApartments b 2)
    by (intros b Hb; injection Hb as <-; exact Hfit).
  pose proof (getPdf_answers Worker Samples.sampleHost
                (Some Samples.sampleBuilding) Samples.sampleApartments 2 2025
                Logic.I Hprint Hdec Hfit') as H.
  destruct (BillingsRoute.getPdf Worker Samples.sampleHost
              (Some Samples.sampleBuilding) Samples.sampleApartments 2 2025)
    as [doc | status err] eqn:Hget.
  - exists doc. split; [reflexivity|].
    destruct H as (b & _ & _ & _ & _ & _ & Hpages). exact Hpages.
  - vm_compute in Hget. discriminate Hget.
Defined.

End PdfDocumentFacts.

(* ================================================================== *)
(** * routes/billings: generating and deleting a month's billings *)
(* ================================================================== *)

Module BillingsGenerateFacts.
Import BillingsGenerate.

(** The columns of the [UNIQUE] constraint. *)
Definition key (b : Billing) : Z * Z * Z :=
  (apartment_id b, billing_month b, billing_year b).

(** What the schema keeps true of the two tables: the primary keys, the
    [UNIQUE] constraint and the foreign key of [billings]. *)
Record Consistent (db : Db) : Prop := {
  apartments_pk : NoDup (map row_id (apartments db));
  billings_pk : NoDup (map billing_id (billings db));
  billings_unique : NoDup (map key (billings db));
  billings_fk : Forall (fun b => hasApartment db (apartment_id b) = true)
                       (billings db)
}.

(** The billing that [POST /generate] writes for an apartment. *)
Definition billingFor (v : Variant) (building : Building) (month year : Z)
    (idRow : Z * ApartmentRow) : Billing :=
  let '(id, row) := idRow in
  {| billing_id := id;
     apartment_id := row_id row;
     billing_month := month;
     billing_year := year;
     billing_amount := orElse (override_amount (row_apartment row))
                              (default_amount building);
     reference_number :=
       PdfGenerator.generateReferenceNumber v
         (apartment_number (row_apartment row)) month |}.

(** The element of the response that describes it. *)
Definition outFor (v : Variant) (building : Building) (month year : Z)
    (idRow : Z * ApartmentRow) : BillingOut :=
  let '(id, row) := idRow in
  {| out_id := id;
     out_apartment_id := row_id row;
     out_apartment_number := apartment_number (row_apartment row);
     out_owner_name := owner_name (row_apartment row);
     out_billing_month := month;
     out_billing_year := year;
     out_amount := orElse (override_amount (row_apartment row))
                          (default_amount building);
     out_reference_number :=
       PdfGenerator.generateReferenceNumber v
         (apartment_number (row_apartment row)) month |}.

Lemma orElse_not_NaN (a : option Number) (d : Number) :
  d <> NaN -> orElse a d <> NaN.
Proof.
  intros Hd. unfold orElse. destruct a as [x|]; [|exact Hd].
  destruct x; cbn [truthy]; try exact Hd; try discriminate.
  destruct (negb (m =? 0)%N); [discriminate | exact Hd].
Qed.

Lemma hasApartment_row (db : Db) (row : ApartmentRow) :
  In row (apartments db) -> hasApartment db (row_id row) = true.
Proof.
  intros Hin. unfold hasApartment. apply existsb_exists.
  exists row. split; [exact Hin | apply Z.eqb_refl].
Qed.

Lemma fold_max_ge (x : Z) (l : list Z) :
  (x <= fold_right Z.max x l)%Z
  /\ forall y, In y l -> (y <= fold_right Z.max x l)%Z.
Proof.
  induction l as [|z l [IH1 IH2]]; cbn [fold_right].
  - split; [lia | intros y []].
  - split; [lia|]. intros y [<- | Hy]; [lia|]. specialize (IH2 y Hy). lia.
Qed.

(** The id given to a new row is larger than every id in the table. *)
Lemma nextBillingId_fresh (v : Variant) (db : Db) (b : Billing) :
  In b (billings db) -> (billing_id b < nextBillingId v db)%Z.
Proof.
  unfold nextBillingId, maxBillingId.
  destruct (billings db) as [|b0 rest]; [intros []|].
  destruct (fold_max_ge (billing_id b0) (map billing_id rest)) as [H1 H2].
  intros [<- | Hin].
  - destruct v; lia.
  - specialize (H2 (billing_id b) (in_map billing_id _ _ Hin)).
    destruct v; lia.
Qed.

Lemma sameMonth_key (year month : Z) (b : Billing) :
  sameMonth year month b = true
  <-> (billing_month b = month /\ billing_year b = year).
Proof.
  unfold sameMonth. rewrite andb_true_iff, !Z.eqb_eq. tauto.
Qed.

(** One insert, when the constraints allow it. *)
Lemma insertBilling_ok (v : Variant) (db : Db) (aid month year : Z)
    (amount : Number) (referenceNumber : jsstring) :
  Consistent db ->
  amount <> NaN ->
  hasApartment db aid = true ->
  ~ In (aid, month, year) (map key (billings db)) ->
  exists db',
    insertBilling v db aid month year amount referenceNumber
    = Ok (db', nextBillingId v db)
    /\ apartments db' = apartments db
    /\ billings db'
       = billings db ++ [{| billing_id := nextBillingId v db;
                            apartment_id := aid;
                            billing_month := month;
                            billing_year := year;
                            billing_amount := amount;
                            reference_number := referenceNumber |}]
    /\ Consistent db'.
Proof.
  intros [Hapk Hbpk Huniq Hfk] Hamount Hapt Hkey. unfold insertBilling.
  destruct amount; try contradiction; cbv match.
  all: destruct (existsb _ (billings db)) eqn:Hex.
  all: try (exfalso; apply existsb_exists in Hex;
            destruct Hex as (b0 & Hin & Hb0);
            apply andb_true_iff in Hb0; destruct Hb0 as [Ha Hm];
            apply Z.eqb_eq in Ha; apply sameMonth_key in Hm;
            destruct Hm as [Hm Hy];
            apply Hkey; apply in_map_iff; exists b0;
            split; [unfold key; congruence | exact Hin]).
  all: rewrite Hapt; cbn [negb]; eexists; split; [reflexivity|];
    cbn [apartments billings]; split; [reflexivity|]; split; [reflexivity|].
  all: constructor; cbn [apartments billings].
  all: try exact Hapk.
  all: try (rewrite map_app; cbn [map];
            apply NoDup_app; [assumption | repeat constructor; intros [] |]).
  all: try (intros x Hx [<- | []]; apply in_map_iff in Hx;
            destruct Hx as (b0 & Hid & Hin);
            pose proof (nextBillingId_fresh v db b0 Hin); cbn in *; lia).
  all: try (intros x Hx [<- | []]; apply Hkey; exact Hx).
  all: apply Forall_app; split;
    [exact Hfk | constructor; [exact Hapt | constructor]].
Qed.

(** The loop over the apartments: every insert succeeds when the rows are
    distinct apartments of the table none of which has a billing for the
    month. *)
Lemma insertAll_ok (v : Variant) (building : Building) (month year : Z)
    (rows : list ApartmentRow) :
  default_amount building <> NaN ->
  NoDup (map row_id rows) ->
  forall (db : Db) (out : list BillingOut),
    Consistent db ->
    Forall (fun row => hasApartment db (row_id row) = true) rows ->
    Forall (fun row => ~ In (row_id row, month, year) (map key (billings db)))
           rows ->
    exists db' ids,
      insertAll v db building rows month year out
      = (db', Ok (out ++ map (outFor v building month year) (combine ids rows)))
      /\ length ids = length rows
      /\ apartments db' = apartments db
      /\ billings db'
         = billings db
           ++ map (billingFor v building month year) (combine ids rows)
      /\ Consistent db'.
Proof.
  intros Hdefault Hnd. induction rows as [|row rest IH];
    intros db out Hcons Hapt Hkey.
  - exists db, []. cbn [insertAll combine map length].
    rewrite !app_nil_r. repeat split; try reflexivity; apply Hcons.
  - cbn [map] in Hnd. inversion Hnd as [|x xs Hnotin Hnd']; subst.
    inversion Hapt as [|x xs Hrow Hrest]; subst.
    inversion Hkey as [|x xs Hkrow Hkrest]; subst.
    cbn [insertAll].
    destruct (insertBilling_ok v db (row_id row) month year
                (orElse (override_amount (row_apartment row))
                        (default_amount building))
                (PdfGenerator.generateReferenceNumber v
                   (apartment_number (row_apartment row)) month)
                Hcons (orElse_not_NaN _ _ Hdefault) Hrow Hkrow)
      as (db1 & Hins & Hap1 & Hb1 & Hcons1).
    rewrite Hins.
    destruct (IH Hnd' db1
                (out ++ [outFor v building month year
                           (nextBillingId v db, row)])
                Hcons1) as (db' & ids & Hall & Hlen & Hap' & Hb' & Hcons').
    + unfold hasApartment in *. rewrite Hap1. exact Hrest.
    + rewrite Hb1, map_app. cbn [map key apartment_id billing_month
                                   billing_year].
      rewrite Forall_forall in *. intros r Hr Hin.
      apply in_app_or in Hin. destruct Hin as [Hin | [Heq | []]].
      * exact (Hkrest r Hr Hin).
      * apply Hnotin. apply in_map_iff. exists r.
        split; [injection Heq as Heq; exact (eq_sym Heq) | exact Hr].
    + exists db', (nextBillingId v db :: ids).
      cbn [combine map length]. unfold outFor at 1 in Hall.
      rewrite Hall, <- app_assoc. cbn [app].
      split; [reflexivity|]. split; [lia|].
      split; [congruence|]. split; [|exact Hcons'].
      rewrite Hb', Hb1, <- app_assoc. reflexivity.
Qed.

Lemma getBillingsByMonth_nil (db : Db) (year month : Z) :
  Consistent db ->
  getBillingsByMonth db year month = [] ->
  forall b, In b (billings db) -> sameMonth year month b = false.
Proof.
  intros [_ _ _ Hfk] Hnone b Hin.
  destruct (sameMonth year month b) eqn:Hm; [|reflexivity].
  exfalso. rewrite Forall_forall in Hfk.
  assert (Hb : In b (getBillingsByMonth db year month)).
  { unfold getBillingsByMonth. apply filter_In. split; [exact Hin|].
    rewrite Hm, (Hfk b Hin). reflexivity. }
  rewrite Hnone in Hb. exact Hb.
Qed.

(** The message of the 201 answer. *)
Definition createdMessage (count : nat) (month year : Z) : jsstring :=
  lit "Generisano " ++ intToString (Z.of_nat count)
  ++ lit " zaduzenja za " ++ intToString month ++ lit "/" ++ intToString year.

(** [POST /generate] for a month without billings. *)
Lemma postGenerate_ok (v : Variant) (db : Db) (building : Building)
    (month year : Z) :
  Consistent db ->
  apartments db <> [] ->
  default_amount building <> NaN ->
  getBillingsByMonth db year month = [] ->
  exists db' ids,
    postGenerate v db (Some building) month year
    = (db', Created (createdMessage (length (apartments db)) month year)
                    (map (outFor v building month year)
                         (combine ids (apartments db))))
    /\ length ids = length (apartments db)
    /\ apartments db' = apartments db
    /\ billings db'
       = billings db
         ++ map (billingFor v building month year)
                (combine ids (apartments db))
    /\ Consistent db'
    /\ getBillingsByMonth db' year month
       = map (billingFor v building month year) (combine ids (apartments db)).
Proof.
  intros Hcons Hne Hdefault Hnone. unfold postGenerate.
  destruct (Nat.eqb_spec (length (apartments db)) 0) as [E|_].
  { destruct (apartments db); [contradiction | discriminate E]. }
  rewrite Hnone. cbn [length Nat.ltb Nat.leb].
  destruct (insertAll_ok v building month year (apartments db) Hdefault
              (apartments_pk db Hcons) db [] Hcons)
    as (db' & ids & Hall & Hlen & Hap & Hb & Hcons').
  - rewrite Forall_forall. intros row Hrow. apply hasApartment_row. exact Hrow.
  - rewrite Forall_forall. intros row _ Hin. apply in_map_iff in Hin.
    destruct Hin as (b & Hk & Hin).
    pose proof (getBillingsByMonth_nil db year month Hcons Hnone b Hin) as Hm.
    assert (Hs : sameMonth year month b = true)
      by (apply sameMonth_key; unfold key in Hk; split; congruence).
    congruence.
  - exists db', ids. rewrite Hall. cbn [app].
    split.
    { unfold createdMessage.
      rewrite length_map, length_combine, Hlen, Nat.min_id. reflexivity. }
    split; [exact Hlen|]. split; [exact Hap|].
    split; [exact Hb|]. split; [exact Hcons'|].
    unfold getBillingsByMonth. rewrite Hb, filter_app.
    assert (Hold : filter (fun b => sameMonth year month b
                                    && hasApartment db' (apartment_id b))
                          (billings db) = []).
    { rewrite <- Hnone. unfold getBillingsByMonth, hasApartment.
      rewrite Hap. reflexivity. }
    rewrite Hold. cbn [app].
    apply forallb_filter_id. apply forallb_forall. intros b Hin.
    apply in_map_iff in Hin. destruct Hin as ([id row] & <- & Hin).
    apply in_combine_r in Hin.
    cbn [billingFor apartment_id]. unfold sameMonth.
    cbn [billing_year billing_month]. rewrite !Z.eqb_refl. cbn [andb].
    unfold hasApartment. rewrite Hap. apply hasApartment_row. exact Hin.
Qed.

Lemma map_combine_r (A B C : Type) (f : B -> C) (g : A * B -> C)
    (xs : list A) (ys : list B) :
  length xs = length ys ->
  (forall x y, g (x, y) = f y) ->
  map g (combine xs ys) = map f ys.
Proof.
  intros Hlen Hg. revert ys Hlen.
  induction xs as [|x xs IH]; intros [|y ys] Hlen; try discriminate Hlen;
    [reflexivity|].
  cbn [combine map]. rewrite Hg, IH by (cbn [length] in Hlen; lia).
  reflexivity.
Qed.

(** A database with two apartments and one billing of an earlier month. *)
Definition sampleDb : Db :=
  {| apartments := [ {| row_id := 1;
                        row_apartment := Samples.sampleApartment 7 2 1 |};
                     {| row_id := 2;
                        row_apartment := Samples.sampleApartment 12 3 2 |} ];
     billings := [ {| billing_id := 4;
                      apartment_id := 1;
                      billing_month := 1;
                      billing_year := 2025;
                      billing_amount := ofZ 3500;
                      reference_number := lit "07-01" |} ];
     billing_seq := 9 |}.

Lemma sampleDb_consistent : Consistent sampleDb.
Proof.
  constructor; cbn.
  - repeat (constructor; [cbn; intuition discriminate|]). constructor.
  - repeat (constructor; [cbn; intuition discriminate|]). constructor.
  - repeat (constructor; [cbn; intuition discriminate|]). constructor.
  - repeat constructor.
Qed.

(** X10.  Generating a month that has no billings yet, in a database that
    satisfies the schema's constraints, with a building and at least one
    apartment: the answer is 201, never 500; the table gains exactly one
    billing per apartment, in the order of the apartments, each with the
    apartment's override amount when it is set and non-zero and the
    building default otherwise, and with the reference number of the
    payment slip; earlier billings and the apartments are untouched, the
    response lists the same billings with the ids of the new rows, and the
    constraints still hold. *)
Theorem postGenerate_one_billing_per_apartment (v : Variant) (db : Db)
    (building : Building) (month year : Z) :
  Consistent db ->
  apartments db <> [] ->
  default_amount building <> NaN ->
  getBillingsByMonth db year month = [] ->
  exists db' out,
    postGenerate v db (Some building) month year
    = (db', Created (createdMessage (length (apartments db)) month year) out)
    /\ apartments db' = apartments db
    /\ billings db' = billings db ++ getBillingsByMonth db' year month
    /\ map apartment_id (getBillingsByMonth db' year month)
       = map row_id (apartments db)
    /\ map billing_amount (getBillingsByMonth db' year month)
       = map (fun row => orElse (override_amount (row_apartment row))
                                (default_amount building)) (apartments db)
    /\ map reference_number (getBillingsByMonth db' year month)
       = map (fun row => PdfGenerator.generateReferenceNumber v
                           (apartment_number (row_apartment row)) month)
             (apartments db)
    /\ map out_id out = map billing_id (getBillingsByMonth db' year month)
    /\ map out_apartment_id out = map row_id (apartments db)
    /\ map out_amount out
       = map billing_amount (getBillingsByMonth db' year month)
    /\ map out_reference_number out
       = map reference_number (getBillingsByMonth db' year month)
    /\ Consistent db'.
Proof.
  intros Hcons Hne Hdefault Hnone.
  destruct (postGenerate_ok v db building month year Hcons Hne Hdefault Hnone)
    as (db' & ids & Hpost & Hlen & Hap & Hb & Hcons' & Hmonth).
  exists db', (map (outFor v building month year) (combine ids (apartments db))).
  rewrite Hmonth, !map_map.
  split; [exact Hpost|]. split; [exact Hap|]. split; [exact Hb|].
  split; [apply map_combine_r; [exact Hlen | reflexivity]|].
  split; [apply map_combine_r; [exact Hlen | reflexivity]|].
  split; [apply map_combine_r; [exact Hlen | reflexivity]|].
  split; [apply map_ext; intros [id row]; reflexivity|].
  split; [apply map_combine_r; [exact Hlen | reflexivity]|].
  split; [apply map_ext; intros [id row]; reflexivity|].
  split; [apply map_ext; intros [id row]; reflexivity|].
  exact Hcons'.
Qed.

Lemma postGenerate_one_billing_per_apartment_witness :
  Consistent sampleDb
  /\ apartments sampleDb <> []
  /\ default_amount Samples.sampleBuilding <> NaN
  /\ getBillingsByMonth sampleDb 2025 2 = []
  /\ exists db' out,
       postGenerate Worker sampleDb (Some Samples.sampleBuilding) 2 2025
       = (db', Created (lit "Generisano 2 zaduzenja za 2/2025") out)
       /\ map billing_id (billings db') = [4; 10; 11]%Z
       /\ map reference_number (billings db')
          = [lit "07-01"; lit "07-02"; lit "12-02"].
Proof.
  assert (Hne : apartments sampleDb <> []) by discriminate.
  assert (Hd : default_amount Samples.sampleBuilding <> NaN) by discriminate.
  split; [exact sampleDb_consistent|]. split; [exact Hne|].
  split; [exact Hd|]. split; [reflexivity|].
  destruct (postGenerate_one_billing_per_apartment Worker sampleDb
              Samples.sampleBuilding 2 2025 sampleDb_consistent Hne Hd eq_refl)
    as (db' & out & Hpost & _).
  exists db', out. split; [exact Hpost|].
  vm_compute in Hpost. injection Hpost as <- _. split; reflexivity.
Defined.

(** X11.  A month is generated once: after a successful generation, any
    further [POST /generate] for the same month, for either schema and
    whatever the building row then holds, is answered with 400 and leaves
    both tables as they are. *)
Theorem postGenerate_second_call_refused (v : Variant) (db : Db)
    (building : Building) (month year : Z) :
  Consistent db ->
  apartments db <> [] ->
  default_amount building <> NaN ->
  getBillingsByMonth db year month = [] ->
  exists db' message out,
    postGenerate v db (Some building) month year
    = (db', Created message out)
    /\ forall v' building',
         exists error,
           postGenerate v' db' building' month year
           = (db', JsonError 400 error).
Proof.
  intros Hcons Hne Hdefault Hnone.
  destruct (postGenerate_ok v db building month year Hcons Hne Hdefault Hnone)
    as (db' & ids & Hpost & Hlen & Hap & Hb & Hcons' & Hmonth).
  eexists db', _, _. split; [exact Hpost|].
  intros v' building'. unfold postGenerate.
  destruct building' as [b'|]; [|eexists; reflexivity].
  rewrite Hap.
  destruct (Nat.eqb_spec (length (apartments db)) 0) as [E|_];
    [eexists; reflexivity|].
  rewrite Hmonth.
  destruct (apartments db) as [|row rest]; [contradiction|].
  destruct ids as [|id ids]; [discriminate Hlen|].
  cbn [combine map length Nat.ltb Nat.leb]. eexists. reflexivity.
Qed.

Lemma postGenerate_second_call_refused_witness :
  Consistent sampleDb
  /\ apartments sampleDb <> []
  /\ default_amount Samples.sampleBuilding <> NaN
  /\ getBillingsByMonth sampleDb 2025 2 = []
  /\ exists db' message out,
       postGenerate Backend sampleDb (Some Samples.sampleBuilding) 2 2025
       = (db', Created message out)
       /\ postGenerate Backend db' (Some Samples.sampleBuilding) 2 2025
          = (db', JsonError 400
                    (lit "Zaduzenja za 2/2025 vec postoje. Obrisite ih pre generisanja novih.")).
Proof.
  assert (Hne : apartments sampleDb <> []) by discriminate.
  assert (Hd : default_amount Samples.sampleBuilding <> NaN) by discriminate.
  split; [exact sampleDb_consistent|]. split; [exact Hne|].
  split; [exact Hd|]. split; [reflexivity|].
  destruct (postGenerate_second_call_refused Backend sampleDb
              Samples.sampleBuilding 2 2025 sampleDb_consistent Hne Hd eq_refl)
    as (db' & message & out & Hpost & _).
  exists db', message, out. split; [exact Hpost|].
  vm_compute in Hpost. injection Hpost as <- _ _. reflexivity.
Defined.

(** Deleting rows keeps a column free of duplicates. *)
Lemma filter_keeps_distinct (K : Type) (column : Billing -> K)
    (keep : Billing -> bool) (rows : list Billing) :
  NoDup (map column rows) -> NoDup (map column (filter keep rows)).
Proof.
  intros Hnd. induction rows as [|b rows IH]; [constructor|].
  cbn [map filter] in *. apply NoDup_cons_iff in Hnd.
  destruct Hnd as [Hfresh Hrest].
  destruct (keep b); [|exact (IH Hrest)].
  cbn [map]. apply NoDup_cons; [|exact (IH Hrest)].
  intros Hin. apply Hfresh. apply in_map_iff in Hin.
  destruct Hin as (z & Hz & Hin). apply filter_In in Hin.
  apply in_map_iff. exists z. split; [exact Hz | apply Hin].
Qed.

Lemma filter_split_length (A : Type) (p : A -> bool) (l : list A) :
  (length (filter p l) + length (filter (fun x => negb (p x)) l)
   = length l)%nat.
Proof.
  induction l as [|x l IH]; [reflexivity|].
  cbn [filter]. destruct (p x); cbn [negb length]; lia.
Qed.

Lemma filter_none (A : Type) (p : A -> bool) (l : list A) :
  (forall x, In x l -> p x = false) -> filter p l = [].
Proof.
  induction l as [|x l IH]; intros Hp; [reflexivity|].
  cbn [filter]. rewrite (Hp x (or_introl eq_refl)).
  apply IH. intros y Hy. apply Hp. right. exact Hy.
Qed.

(** The message of the answer to a delete. *)
Definition deletedMessage (count : nat) (month year : Z) : jsstring :=
  lit "Obrisano " ++ intToString (Z.of_nat count) ++ lit " zaduzenja za "
  ++ intToString month ++ lit "/" ++ intToString year.

(** [DELETE /:year/:month] keeps the constraints and empties the month. *)
Lemma deleteMonth_ok (db : Db) (month year : Z) :
  Consistent db ->
  exists db',
    deleteMonth db month year
    = (db', Deleted (deletedMessage
                       (length (filter (sameMonth year month) (billings db)))
                       month year))
    /\ apartments db' = apartments db
    /\ billings db'
       = filter (fun b => negb (sameMonth year month b)) (billings db)
    /\ Consistent db'
    /\ getBillingsByMonth db' year month = [].
Proof.
  intros [Hapk Hbpk Huniq Hfk]. unfold deleteMonth, deleteBillingsByMonth.
  eexists. split; [reflexivity|]. cbn [apartments billings].
  split; [reflexivity|]. split; [reflexivity|]. split.
  - constructor; cbn [apartments billings].
    + exact Hapk.
    + apply filter_keeps_distinct. exact Hbpk.
    + apply filter_keeps_distinct. exact Huniq.
    + rewrite Forall_forall in *. intros b Hin. apply filter_In in Hin.
      exact (Hfk b (proj1 Hin)).
  - unfold getBillingsByMonth. cbn [billings].
    apply filter_none. intros b Hin. apply filter_In in Hin.
    destruct Hin as [_ Hn]. apply negb_true_iff in Hn. rewrite Hn.
    reflexivity.
Qed.

(** X12.  Deleting a month and generating it again.  The delete removes
    exactly the billings of that month and year, reports their number,
    keeps every other billing in place and the apartments as they are;
    after it the month can be generated: the next [POST /generate] for the
    month is answered with 201 and one billing per apartment, whatever was
    in the month before. *)
Theorem deleteMonth_then_generate (v : Variant) (db : Db)
    (building : Building) (month year : Z) :
  Consistent db ->
  apartments db <> [] ->
  default_amount building <> NaN ->
  exists db1 db2 out,
    deleteMonth db month year
    = (db1, Deleted (deletedMessage
                       (length (billings db) - length (billings db1))
                       month year))
    /\ apartments db1 = apartments db
    /\ (forall b, In b (billings db1)
                  <-> In b (billings db)
                      /\ ~ (billing_month b = month /\ billing_year b = year))
    /\ postGenerate v db1 (Some building) month year
       = (db2, Created (createdMessage (length (apartments db)) month year) out)
    /\ map apartment_id (getBillingsByMonth db2 year month)
       = map row_id (apartments db)
    /\ billings db2 = billings db1 ++ getBillingsByMonth db2 year month.
Proof.
  intros Hcons Hne Hdefault.
  destruct (deleteMonth_ok db month year Hcons)
    as (db1 & Hdel & Hap1 & Hb1 & Hcons1 & Hnone).
  assert (Hne1 : apartments db1 <> []) by (rewrite Hap1; exact Hne).
  destruct (postGenerate_ok v db1 building month year Hcons1 Hne1 Hdefault
              Hnone)
    as (db2 & ids & Hpost & Hlen & Hap2 & Hb2 & _ & Hmonth).
  eexists db1, db2, _.
  split.
  { rewrite Hdel. do 3 f_equal. rewrite Hb1.
    pose proof (filter_split_length _ (sameMonth year month) (billings db)).
    lia. }
  split; [exact Hap1|]. split.
  { intros b. rewrite Hb1, filter_In, negb_true_iff.
    rewrite <- (sameMonth_key year month b).
    destruct (sameMonth year month b); intuition congruence. }
  rewrite Hap1 in Hpost, Hlen.
  split; [exact Hpost|].
  rewrite Hmonth. split; [|rewrite Hb2; reflexivity].
  rewrite map_map. rewrite <- Hap1.
  apply map_combine_r; [congruence | reflexivity].
Qed.

Lemma deleteMonth_then_generate_witness :
  Consistent sampleDb
  /\ apartments sampleDb <> []
  /\ default_amount Samples.sampleBuilding <> NaN
  /\ exists db1 db2 out,
       deleteMonth sampleDb 1 2025
       = (db1, Deleted (lit "Obrisano 1 zaduzenja za 1/2025"))
       /\ postGenerate Worker db1 (Some Samples.sampleBuilding) 1 2025
          = (db2, Created (lit "Generisano 2 zaduzenja za 1/2025") out)
       /\ map billing_id (billings db2) = [10; 11]%Z.
Proof.
  assert (Hne : apartments sampleDb <> []) by discriminate.
  assert (Hd : default_amount Samples.sampleBuilding <> NaN) by discriminate.
  split; [exact sampleDb_consistent|]. split; [exact Hne|]. split; [exact Hd|].
  destruct (deleteMonth_then_generate Worker sampleDb Samples.sampleBuilding
              1 2025 sampleDb_consistent Hne Hd)
    as (db1 & db2 & out & Hdel & _ & _ & Hpost & _).
  exists db1, db2, out.
  vm_compute in Hdel. injection Hdel as <-.
  split; [reflexivity|].
  split; [exact Hpost|].
  vm_compute in Hpost. injection Hpost as <- _. reflexivity.
Defined.

(** What the loop of [POST /generate] can change, whatever its outcome. *)
Lemma insertAll_frame (v : Variant) (building : Building) (month year : Z)
    (rows : list ApartmentRow) (db : Db) (out : list BillingOut) :
  exists news,
    apartments (fst (insertAll v db building rows month year out))
    = apartments db
    /\ billings (fst (insertAll v db building rows month year out))
       = billings db ++ news
    /\ Forall (fun b => billing_month b = month /\ billing_year b = year) news
    /\ incl (map apartment_id news) (map row_id rows).
Proof.
  revert db out. induction rows as [|row rest IH]; intros db out.
  - exists []. cbn [insertAll fst]. rewrite app_nil_r.
    repeat split; [constructor | intros x []].
  - cbn [insertAll].
    destruct (insertBilling v db (row_id row) month year _ _)
      as [[db1 newId]|e] eqn:Hins.
    + unfold insertBilling in Hins.
      repeat match type of Hins with
             | (if ?c then _ else _) = _ =>
                 destruct c; [discriminate Hins|]
             end.
      injection Hins as <- <-.
      match goal with
      | |- context [insertAll v ?d building rest month year ?o] =>
          destruct (IH d o) as (news & Hap & Hb & Hm & Hincl)
      end.
      cbn [apartments billings] in Hap, Hb.
      eexists (_ :: news). rewrite Hap, Hb, <- app_assoc. cbn [app].
      split; [reflexivity|]. split; [reflexivity|]. split.
      * constructor; [split; reflexivity | exact Hm].
      * cbn [map apartment_id]. intros x [<- | Hx];
          [left; reflexivity | right; exact (Hincl x Hx)].
    + exists []. cbn [fst]. rewrite app_nil_r.
      repeat split; [constructor | intros x []].
Qed.

(** X13.  What [POST /generate] never does, for any database, building,
    month and outcome, also a failure halfway: it never changes the
    apartments, never removes or alters a billing that was there, and adds
    billings only for the requested month and year and only for apartments
    of the table; an answer with status 400 means nothing was written. *)
Theorem postGenerate_frame (v : Variant) (db : Db) (building : option Building)
    (month year : Z) :
  exists news,
    apartments (fst (postGenerate v db building month year)) = apartments db
    /\ billings (fst (postGenerate v db building month year))
       = billings db ++ news
    /\ Forall (fun b => billing_month b = month /\ billing_year b = year) news
    /\ incl (map apartment_id news) (map row_id (apartments db))
    /\ (forall error,
          snd (postGenerate v db building month year) = JsonError 400 error ->
          fst (postGenerate v db building month year) = db).
Proof.
  unfold postGenerate.
  assert (Htriv : exists news : list Billing,
            apartments db = apartments db
            /\ billings db = billings db ++ news
            /\ Forall (fun b => billing_month b = month
                                /\ billing_year b = year) news
            /\ incl (map apartment_id news) (map row_id (apartments db))
            /\ (forall error : jsstring, True -> db = db)).
  { exists []. rewrite app_nil_r.
    repeat split; [constructor | intros x []]. }
  destruct building as [b|];
    [|destruct Htriv as (n & H1 & H2 & H3 & H4 & _); exists n;
      cbn [fst snd]; repeat split; assumption].
  destruct (length (apartments db) =? 0)%nat;
    [destruct Htriv as (n & H1 & H2 & H3 & H4 & _); exists n;
     cbn [fst snd]; repeat split; assumption|].
  destruct (0 <? length (getBillingsByMonth db year month))%nat;
    [destruct Htriv as (n & H1 & H2 & H3 & H4 & _); exists n;
     cbn [fst snd]; repeat split; assumption|].
  destruct (insertAll_frame v b month year (apartments db) db [])
    as (news & Hap & Hb & Hm & Hincl).
  exists news.
  destruct (insertAll v db b (apartments db) month year []) as [db' [out|e]];
    cbn [fst snd] in *;
    (split; [exact Hap|]; split; [exact Hb|]; split; [exact Hm|];
     split; [exact Hincl|]; intros error Herr; discriminate Herr).
Qed.

End BillingsGenerateFacts.

(* ================================================================== *)
(** * The stored account *)
(* ================================================================== *)

Module BuildingRouteFacts.
Import BankAccount BankAccountFacts BankAccountNormalForms BuildingRoute.

Lemma stripSeparators_skipWhiteSpace (s : jsstring) :
  stripSeparators (Validation.skipWhiteSpace s) = stripSeparators s.
Proof.
  unfold stripSeparators. induction s as [|c s IH]; [reflexivity|].
  cbn [Validation.skipWhiteSpace].
  destruct (isWhiteSpace c) eqn:Hc; [|reflexivity].
  rewrite IH. cbn [filter]. rewrite Hc, orb_true_r. reflexivity.
Qed.

Lemma stripSeparators_rev (s : jsstring) :
  stripSeparators (rev s) = rev (stripSeparators s).
Proof.
  unfold stripSeparators. induction s as [|c s IH]; [reflexivity|].
  cbn [rev filter]. rewrite filter_app, IH. cbn [filter].
  destruct (negb ((c =? dash)%N || isWhiteSpace c)); cbn [rev];
    [reflexivity | apply app_nil_r].
Qed.

Lemma stripSeparators_trim (s : jsstring) :
  stripSeparators (trim s) = stripSeparators s.
Proof.
  unfold trim.
  rewrite stripSeparators_rev, stripSeparators_skipWhiteSpace,
    stripSeparators_rev, rev_involutive.
  apply stripSeparators_skipWhiteSpace.
Qed.

(** The parser sees only the digits that are left once dashes and
    whitespace are removed. *)
Lemma parse_same_digits (a b : jsstring) (r : ParsedBankAccount) :
  stripSeparators a = stripSeparators b ->
  parseBankAccount a = Ok r -> parseBankAccount b = Ok r.
Proof.
  intros E Hparse.
  destruct (@parse_ok_inv a r Hparse) as (_ & Hdig & Hlen & ->).
  rewrite E in *.
  apply parse_digits; try assumption.
  intros ->. cbn in Hlen. lia.
Qed.

Lemma parse_formatted (input : jsstring) (r : ParsedBankAccount) :
  parseBankAccount input = Ok r -> parseBankAccount (formatted r) = Ok r.
Proof.
  intros Hparse.
  destruct (@parse_ok_inv input r Hparse) as (Hin & Hdig & Hlen & ->).
  set (d := stripSeparators input) in *.
  apply onlyDigits_spec in Hdig as Hd. destruct Hd as [_ Hall].
  destruct (@canonical_lengths d Hlen) as (Hb & Ha & Hc).
  destruct (@canonical_isDigit d Hall) as (Db & Da & Dc).
  pose proof (@canonical_digits_fixpoint d Hall Hlen) as Hfix.
  set (r := canonical d) in *.
  assert (Hstrip : stripSeparators (formatted r) = digits r).
  { change (formatted r)
      with (bank r ++ [dash] ++ account r ++ [dash] ++ control r).
    rewrite !stripSeparators_app.
    rewrite (stripSeparators_digits (bank r) Db),
      (stripSeparators_digits (account r) Da),
      (stripSeparators_digits (control r) Dc).
    reflexivity. }
  assert (HDlen : length (digits r) = 18%nat).
  { change (digits r) with (bank r ++ account r ++ control r).
    rewrite !length_app. lia. }
  pose proof (@parse_digits (formatted r)) as P.
  rewrite Hstrip, Hfix in P. apply P.
  - intros E. apply (f_equal (@length N)) in E.
    change (formatted r)
      with (bank r ++ [dash] ++ account r ++ [dash] ++ control r) in E.
    rewrite !length_app in E. cbn [length] in E. lia.
  - apply onlyDigits_spec. split.
    + intros E. rewrite E in HDlen. discriminate HDlen.
    + change (digits r) with (bank r ++ account r ++ control r).
      rewrite !forallb_app, Db, Da, Dc. reflexivity.
  - lia.
Qed.

Lemma parse_nonempty (x : jsstring) (r : ParsedBankAccount) :
  parseBankAccount x = Ok r -> (0 <? length x)%nat = true.
Proof.
  intros H. destruct x; [discriminate H | reflexivity].
Qed.

Lemma valid_of_parse (x : jsstring) (r : ParsedBankAccount) :
  parseBankAccount x = Ok r -> isValidBankAccount x = true.
Proof. intros H. unfold isValidBankAccount. rewrite H. reflexivity. Qed.

(** What the route does with an account: the worker stores the display
    form of every account that parses; the backend passes it through
    validation and fails in [upsertBuilding]; both refuse every other
    one. *)
Lemma putBankAccount_cases (v : Variant) (x : jsstring) :
  (exists r, parseBankAccount x = Ok r
             /\ putBankAccount v x
                = match v with
                  | Worker => Stored (formatted r)
                  | BackendEarly | Backend => Refused 500
                  end)
  \/ (isValidBankAccount x = false /\ putBankAccount v x = Refused 400).
Proof.
  destruct (parseBankAccount x) as [r|e] eqn:Hparse.
  - left. exists r. split; [reflexivity|].
    assert (Htrim : parseBankAccount (trim x) = Ok r)
      by (apply (parse_same_digits x); [symmetry; apply stripSeparators_trim
                                       | exact Hparse]).
    unfold putBankAccount, isNotEmpty, formatForDisplay.
    destruct v;
      rewrite ?(parse_nonempty _ _ Hparse), ?(parse_nonempty _ _ Htrim),
        ?(valid_of_parse _ _ Hparse), ?(valid_of_parse _ _ Htrim),
        ?Hparse, ?Htrim; reflexivity.
  - right.
    assert (Hx : isValidBankAccount x = false)
      by (unfold isValidBankAccount; rewrite Hparse; reflexivity).
    split; [exact Hx|].
    assert (Htrim : isValidBankAccount (trim x) = false).
    { unfold isValidBankAccount.
      destruct (parseBankAccount (trim x)) as [r|e'] eqn:Ht; [|reflexivity].
      rewrite (parse_same_digits (trim x) x r (stripSeparators_trim x) Ht)
        in Hparse.
      discriminate Hparse. }
    unfold putBankAccount.
    destruct v; rewrite ?Hx, ?Htrim, ?andb_false_r; reflexivity.
Qed.

(** X14.  What [PUT /api/building] does with the account.  In the worker
    an account is stored exactly when it parses, with or without
    surrounding blanks; what is stored is its display form, which parses to
    the same record, and storing the stored value again stores the same
    string.  The backend route never stores: an account that parses gets
    through validation and the route then fails in [upsertBuilding],
    answering 500.  Every account that does not parse is answered with
    400 by both. *)
Theorem putBankAccount_stored_form (v : Variant) (input : jsstring) :
  match putBankAccount v input with
  | Stored s =>
      v = Worker
      /\ exists r,
           parseBankAccount input = Ok r
           /\ s = formatted r
           /\ parseBankAccount s = Ok r
           /\ isValidBankAccount s = true
           /\ putBankAccount Worker s = Stored s
  | Refused status =>
      (status = 400%Z /\ isValidBankAccount input = false)
      \/ (status = 500%Z /\ v <> Worker /\ isValidBankAccount input = true)
  end.
Proof.
  destruct (putBankAccount_cases v input) as [(r & Hparse & ->) | [Hx ->]];
    [|left; split; [reflexivity | exact Hx]].
  pose proof (parse_formatted input r Hparse) as Hf.
  destruct v;
    try (right; split; [reflexivity|];
         split; [discriminate | exact (valid_of_parse _ _ Hparse)]).
  split; [reflexivity|].
  exists r. split; [exact Hparse|]. split; [reflexivity|]. split; [exact Hf|].
  split; [exact (valid_of_parse _ _ Hf)|].
  destruct (putBankAccount_cases Worker (formatted r))
    as [(r' & Hparse' & ->) | [Hx' _]].
  - congruence.
  - rewrite (valid_of_parse _ _ Hf) in Hx'. discriminate Hx'.
Qed.

Lemma putBankAccount_stored_form_witness :
  putBankAccount Worker (lit " 160-548912-67 ")
  = Stored (lit "160-0000000548912-67")
  /\ putBankAccount Worker (lit "160-0000000548912-67")
     = Stored (lit "160-0000000548912-67")
  /\ putBankAccount Backend (lit " 160-548912-67 ") = Refused 500.
Proof.
  pose proof (putBankAccount_stored_form Worker (lit " 160-548912-67 ")) as H.
  destruct (putBankAccount Worker (lit " 160-548912-67 ")) as [s|status]
    eqn:Hput.
  - destruct H as (_ & r & _ & _ & _ & _ & Hre).
    vm_compute in Hput. injection Hput as <-.
    split; [reflexivity|]. split; [exact Hre | reflexivity].
  - vm_compute in Hput. discriminate Hput.
Defined.

End BuildingRouteFacts.

(* ================================================================== *)
(** * The account field of the form and the server *)
(* ================================================================== *)

Module FrontendFacts.
Import BankAccount BankAccountFacts BankAccountNormalForms BuildingRouteFacts.
Import Frontend.

Lemma digitsOnly_isDigit (input : jsstring) :
  forallb isDigit (digitsOnly input) = true.
Proof.
  unfold digitsOnly. induction input as [|c s IH]; [reflexivity|].
  cbn [filter]. destruct (isDigit c) eqn:Hc; [|exact IH].
  cbn [forallb]. rewrite Hc, IH. reflexivity.
Qed.

(** On the digits the form keeps, the form computes the display form the
    parser computes. *)
Lemma formatBankAccount_as_parse (input : jsstring) :
  input <> [] ->
  formatBankAccount input
  = match parseBankAccount (digitsOnly input) with
    | Ok r => formatted r
    | Throw _ => input
    end.
Proof.
  intros Hin. destruct input as [|c0 s0]; [contradiction|].
  unfold formatBankAccount. cbv beta iota zeta.
  remember (c0 :: s0) as input eqn:Hinput.
  pose proof (digitsOnly_isDigit input) as Hall.
  destruct (digitsOnly input) as [|c d] eqn:Hd; [reflexivity|].
  rewrite <- Hd in *.
  assert (Hne : digitsOnly input <> []) by (rewrite Hd; discriminate).
  rewrite (parseBankAccount_nonempty Hne). cbv zeta.
  rewrite (stripSeparators_digits _ Hall).
  assert (Honly : onlyDigits (digitsOnly input) = true)
    by (apply onlyDigits_spec; split; assumption).
  rewrite Honly. cbn [negb].
  destruct (len (digitsOnly input) =? 18)%Z; [reflexivity|].
  destruct ((7 <=? len (digitsOnly input)) && (len (digitsOnly input) <? 18))%Z;
    reflexivity.
Qed.

(** When only digits are left once the separators are removed, removing
    everything but digits leaves the same. *)
Lemma digitsOnly_stripSeparators (input : jsstring) :
  forallb isDigit (stripSeparators input) = true ->
  digitsOnly input = stripSeparators input.
Proof.
  unfold digitsOnly, stripSeparators.
  induction input as [|c s IH]; [reflexivity|].
  cbn [filter]. destruct (isDigit c) eqn:Hc.
  - destruct (ValidationFacts.digit_not_separator c Hc) as (Hws & Hdash & _).
    unfold dash. rewrite Hws, Hdash. cbn [orb negb forallb].
    rewrite Hc. cbn [andb]. intros Hs. rewrite (IH Hs). reflexivity.
  - destruct (negb ((c =? dash)%N || isWhiteSpace c)); [|exact IH].
    cbn [forallb]. rewrite Hc. discriminate.
Qed.

Lemma parse_digitsOnly (d : jsstring) :
  forallb isDigit d = true ->
  (7 <= length d <= 18)%nat ->
  parseBankAccount d = Ok (canonical d).
Proof.
  intros Hall Hlen.
  rewrite <- (stripSeparators_digits d Hall) at 2.
  apply parse_digits; rewrite ?(stripSeparators_digits d Hall).
  - intros ->. cbn in Hlen. lia.
  - apply onlyDigits_spec. split; [|exact Hall]. intros ->. cbn in Hlen. lia.
  - exact Hlen.
Qed.

(** X15.  The form and the server agree on accounts.  For every input the
    server accepts, the form shows the very string the worker stores.  For
    every input with 7 to 18 digits, whatever else it contains, what the
    form shows passes the server's validation, and the worker stores it as
    shown.  Any other input is left as typed.  Formatting twice changes
    nothing. *)
Theorem formatBankAccount_agrees_with_server (input : jsstring) :
  (forall r, parseBankAccount input = Ok r ->
             formatBankAccount input = formatted r
             /\ BuildingRoute.putBankAccount Worker input
                = BuildingRoute.Stored (formatBankAccount input))
  /\ ((7 <= length (digitsOnly input) <= 18)%nat ->
      exists r,
        parseBankAccount (formatBankAccount input) = Ok r
        /\ formatBankAccount input = formatted r
        /\ isValidBankAccount (formatBankAccount input) = true
        /\ BuildingRoute.putBankAccount Worker (formatBankAccount input)
           = BuildingRoute.Stored (formatBankAccount input))
  /\ (~ (7 <= length (digitsOnly input) <= 18)%nat ->
      formatBankAccount input = input)
  /\ formatBankAccount (formatBankAccount input) = formatBankAccount input.
Proof.
  assert (Hserver : forall x r, parseBankAccount x = Ok r ->
                                formatBankAccount x = formatted r).
  { intros x r Hparse.
    destruct (@parse_ok_inv x r Hparse) as (Hin & Hdig & Hlen & Hr).
    apply onlyDigits_spec in Hdig as Hd. destruct Hd as [_ Hall].
    rewrite (formatBankAccount_as_parse x Hin).
    rewrite (digitsOnly_stripSeparators x Hall).
    rewrite (parse_digitsOnly _ Hall Hlen), Hr. reflexivity. }
  assert (Hstore : forall x r, parseBankAccount x = Ok r ->
                               BuildingRoute.putBankAccount Worker x
                               = BuildingRoute.Stored (formatted r)).
  { intros x r Hparse.
    destruct (putBankAccount_cases Worker x) as [(r' & Hparse' & ->) | [Hx _]].
    - congruence.
    - rewrite (valid_of_parse _ _ Hparse) in Hx. discriminate Hx. }
  assert (Hrange : (7 <= length (digitsOnly input) <= 18)%nat ->
                   exists r,
                     parseBankAccount (formatBankAccount input) = Ok r
                     /\ formatBankAccount input = formatted r).
  { intros Hlen.
    assert (Hin : input <> []) by (intros ->; cbn in Hlen; lia).
    pose proof (parse_digitsOnly _ (digitsOnly_isDigit input) Hlen) as Hparse.
    exists (canonical (digitsOnly input)).
    rewrite (formatBankAccount_as_parse input Hin), Hparse.
    split; [|reflexivity].
    exact (parse_formatted _ _ Hparse). }
  assert (Hout : ~ (7 <= length (digitsOnly input) <= 18)%nat ->
                 formatBankAccount input = input).
  { intros Hno. destruct input as [|c0 s0]; [reflexivity|].
    rewrite formatBankAccount_as_parse by discriminate.
    destruct (parseBankAccount (digitsOnly (c0 :: s0))) as [r|e] eqn:Hparse;
      [|reflexivity].
    exfalso. apply Hno.
    destruct (@parse_ok_inv _ r Hparse) as (_ & _ & Hlen & _).
    rewrite (stripSeparators_digits _ (digitsOnly_isDigit (c0 :: s0))) in Hlen.
    exact Hlen. }
  split.
  { intros r Hparse. rewrite (Hserver input r Hparse).
    split; [reflexivity | exact (Hstore input r Hparse)]. }
  split; [|split; [exact Hout|]].
  - intros Hlen. destruct (Hrange Hlen) as (r & Hparse & Hf).
    exists r. split; [exact Hparse|]. split; [exact Hf|].
    split; [exact (valid_of_parse _ _ Hparse)|].
    rewrite (Hstore _ r Hparse), <- Hf. reflexivity.
  - destruct (le_dec 7 (length (digitsOnly input))) as [H7|H7];
      [destruct (le_dec (length (digitsOnly input)) 18) as [H18|H18]|].
    + destruct (Hrange (conj H7 H18)) as (r & Hparse & Hf).
      rewrite (Hserver _ r Hparse). symmetry. exact Hf.
    + rewrite (Hout ltac:(lia)). apply Hout. lia.
    + rewrite (Hout ltac:(lia)). apply Hout. lia.
Qed.

Lemma formatBankAccount_agrees_with_server_witness :
  (7 <= length (digitsOnly (lit "160/548912/67")) <= 18)%nat
  /\ isValidBankAccount (lit "160/548912/67") = false
  /\ formatBankAccount (lit "160/548912/67") = lit "160-0000000548912-67"
  /\ BuildingRoute.putBankAccount Worker (lit "160-0000000548912-67")
     = BuildingRoute.Stored (lit "160-0000000548912-67").
Proof.
  assert (Hlen : (7 <= length (digitsOnly (lit "160/548912/67")) <= 18)%nat)
    by (vm_compute; lia).
  split; [exact Hlen|]. split; [reflexivity|]. split; [reflexivity|].
  destruct (formatBankAccount_agrees_with_server (lit "160/548912/67"))
    as (_ & Hrange & _).
  destruct (Hrange Hlen) as (r & _ & _ & _ & Hput).
  exact Hput.
Defined.

End FrontendFacts.
